(** * Aether gateway core: usage extraction, header rules, model resolution

    A shallow embedding of three Python modules

    - [src/api/handlers/base/utils.py]   (usage field extractor),
    - [src/core/header_rules.py]         (header rule engine),
    - [src/services/cache/model_cache.py] (model resolver and its cache),

    and the properties of them that the specification states.

    Python values are an inductive type of JSON-like values, a [dict] is an
    association list in insertion order (the order is observable: the header
    engine acts on the _first_ matching header), exceptions are a [Raise]
    result, and the cache is a finite map threaded through the resolver
    together with the trace of the effects it performs. *)

From Stdlib Require Import ZArith QArith.
From stdpp Require Import gmap strings list.
From Stdlib Require Import String Ascii.

#[local] Open Scope string_scope.
#[local] Open Scope Z_scope.

(** ** Python values *)

#[warnings="-register-all"]
Inductive PyVal : Type :=
| VNone
| VBool (b : bool)
| VInt (z : Z)
| VFloat (f : option Q)      (* a finite float as the rational it denotes;
                                [None] stands for nan and the infinities *)
| VStr (s : string)
| VList (l : list PyVal)
| VDict (d : list (string * PyVal)).

(** A [dict] with string keys, in insertion order. *)
Abbreviation pydict := (list (string * PyVal)).

(** Exceptions, by class. *)
Inductive exn : Type :=
| KeyError (key : string)
| TypeError (msg : string)
| ValueError (msg : string)
| AttributeError (msg : string)
| ReError (msg : string)
| ValidationError (msg : string)
| OverflowError (msg : string).

Definition exn_str (e : exn) : string :=
  match e with
  | KeyError k => k
  | TypeError m | ValueError m | AttributeError m | ReError m
  | ValidationError m | OverflowError m => m
  end.

(** The outcome of a call: a value, or an exception that reaches the caller. *)
Inductive res (A : Type) : Type :=
| Ok (a : A)
| Raise (e : exn).
Arguments Ok {A} a.
Arguments Raise {A} e.

Definition res_bind {A B} (r : res A) (k : A -> res B) : res B :=
  match r with
  | Ok a => k a
  | Raise e => Raise e
  end.

Declare Scope res_scope.
Delimit Scope res_scope with res.
Notation "x <- r ;; k" := (res_bind r (fun x => k))
  (at level 100, r at next level, right associativity) : res_scope.

(** [for x in xs: acc = f(acc, x)] where the body may raise. *)
Fixpoint res_fold {A B} (f : A -> B -> res A) (xs : list B) (acc : A) : res A :=
  match xs with
  | [] => Ok acc
  | x :: xs' => res_bind (f acc x) (res_fold f xs')
  end.

(** ** Dictionaries in insertion order *)

Section Dict.
Context {K V : Type} `{EqDecision K}.

(** [d.get(k)]: the value bound to [k]. *)
Fixpoint dict_get (k : K) (d : list (K * V)) : option V :=
  match d with
  | [] => None
  | (k', v) :: d' => if bool_decide (k' = k) then Some v else dict_get k d'
  end.

(** [k in d]. *)
Definition dict_mem (k : K) (d : list (K * V)) : bool :=
  match dict_get k d with Some _ => true | None => false end.

(** [d.get(k, default)]. *)
Definition dict_get_default (k : K) (dflt : V) (d : list (K * V)) : V :=
  match dict_get k d with Some v => v | None => dflt end.

(** [d.keys()] and [d.values()]. *)
Definition dict_keys (d : list (K * V)) : list K := map fst d.
Definition dict_values (d : list (K * V)) : list V := map snd d.

(** [d[k] = v]: an existing key keeps its place, a new one goes last. *)
Fixpoint dict_set (k : K) (v : V) (d : list (K * V)) : list (K * V) :=
  match d with
  | [] => [(k, v)]
  | (k', v') :: d' =>
      if bool_decide (k' = k) then (k', v) :: d' else (k', v') :: dict_set k v d'
  end.

(** [del d[k]] for a key that is present (every call site takes [k] from
    [d.keys()]). *)
Fixpoint dict_del (k : K) (d : list (K * V)) : list (K * V) :=
  match d with
  | [] => []
  | (k', v') :: d' =>
      if bool_decide (k' = k) then d' else (k', v') :: dict_del k d'
  end.
End Dict.

(** [d.update(other)]: the bindings of [other] are stored one after the
    other, in its order. *)
Definition dict_update {K V : Type} `{EqDecision K} (d other : list (K * V)) : list (K * V) :=
  fold_left (fun acc kv => dict_set (fst kv) (snd kv) acc) other d.

(** Truth value of a Python object, as [if x:] tests it. *)
Definition truthy (v : PyVal) : bool :=
  match v with
  | VNone => false
  | VBool b => b
  | VInt z => negb (z =? 0)
  | VFloat (Some q) => negb (Qnum q =? 0)
  | VFloat None => true
  | VStr s => negb (String.eqb s EmptyString)
  | VList l => match l with [] => false | _ => true end
  | VDict d => match d with [] => false | _ => true end
  end.

(** ** The Python runtime the modules call into

    What the three modules use of the interpreter and of the [re] module is
    taken as an interface; every theorem holds for all its implementations.
    [union_builds_model d] records how pydantic settles a
    [Union[ReplaceValueRule, Dict[str, Any]]] field on the mapping [d] when
    it validates as a [ReplaceValueRule]: [true] if the model instance is
    built, [false] if the mapping is kept as it is; the choice is made entry
    by entry. *)

(** The outcome of a call into [re]: a value, [re.error] with its message,
    or an exception of another class, which [except re.error] does not
    catch ([sre_parse] raises [OverflowError] on a repetition count that is
    too large). *)
Inductive re_res (A : Type) : Type :=
| ReOk (a : A)
| ReErr (msg : string)
| ReRaise (e : exn).
Arguments ReOk {A} a.
Arguments ReErr {A} msg.
Arguments ReRaise {A} e.

Class PyRuntime : Type := {
  (* str.lower, str.strip, str.replace(old, new) *)
  str_lower : string -> string;
  str_strip : string -> string;
  str_replace : string -> string -> string -> string;
  (* int(s) for a str; None is ValueError *)
  int_of_str : string -> option Z;
  (* re.compile(pattern, flags): the flag is re.IGNORECASE *)
  re_pattern : Type;
  re_compile : string -> bool -> re_res re_pattern;
  (* Pattern.sub(repl, string) *)
  pattern_sub : re_pattern -> string -> string -> re_res string;
  re_escape : string -> string;
  union_builds_model : pydict -> bool
}.

(** [re.sub(pattern, repl, string, flags=flags)] compiles, then substitutes. *)
Definition re_sub `{PyRuntime} (pattern repl s : string) (ignorecase : bool) : re_res string :=
  match re_compile pattern ignorecase with
  | ReOk p => pattern_sub p repl s
  | ReErr msg => ReErr msg
  | ReRaise e => ReRaise e
  end.

(** A call into [re] outside any [try]. *)
Definition re_raise {A} (r : re_res A) : res A :=
  match r with
  | ReOk a => Ok a
  | ReErr msg => Raise (ReError msg)
  | ReRaise e => Raise e
  end.

(** [int(x)]. *)
Definition py_int `{PyRuntime} (v : PyVal) : res Z :=
  match v with
  | VBool b => Ok (if b then 1 else 0)
  | VInt z => Ok z
  | VFloat (Some q) => Ok (Z.quot (Qnum q) (Zpos (Qden q)))
  | VFloat None => Raise (ValueError "cannot convert float to integer")
  | VStr s =>
      match int_of_str s with
      | Some z => Ok z
      | None => Raise (ValueError "invalid literal for int()")
      end
  | VNone | VList _ | VDict _ =>
      Raise (TypeError "int() argument must be a string or a number")
  end.

(** ** utils.py: the usage field extractor *)

Module Utils.

Definition extract_cache_creation_tokens `{PyRuntime} (usage : pydict) : res Z :=
  match dict_get "cache_creation" usage with
  | Some (VDict cache_creation) =>
      (cache_5m <- py_int (dict_get_default "ephemeral_5m_input_tokens" (VInt 0) cache_creation) ;;
       cache_1h <- py_int (dict_get_default "ephemeral_1h_input_tokens" (VInt 0) cache_creation) ;;
       let total := cache_5m + cache_1h in
       if 0 <? total then Ok total
       else
         old_format <- py_int (dict_get_default "cache_creation_input_tokens" (VInt 0) usage) ;;
         if 0 <? old_format then Ok old_format else Ok 0)%res
  | _ =>
      let has_flat_format :=
        dict_mem "claude_cache_creation_5_m_tokens" usage
        || dict_mem "claude_cache_creation_1_h_tokens" usage in
      if has_flat_format then
        (cache_5m <- py_int (dict_get_default "claude_cache_creation_5_m_tokens" (VInt 0) usage) ;;
         cache_1h <- py_int (dict_get_default "claude_cache_creation_1_h_tokens" (VInt 0) usage) ;;
         let total := cache_5m + cache_1h in
         if 0 <? total then Ok total
         else
           old_format <- py_int (dict_get_default "cache_creation_input_tokens" (VInt 0) usage) ;;
           if 0 <? old_format then Ok old_format else Ok 0)%res
      else
        py_int (dict_get_default "cache_creation_input_tokens" (VInt 0) usage)
  end.

(** [build_sse_headers(extra_headers)]; an absent or empty [extra_headers]
    is false. *)
Definition build_sse_headers (extra_headers : option (list (string * string)))
  : list (string * string) :=
  let headers :=
    [("Cache-Control", "no-cache, no-transform"); ("X-Accel-Buffering", "no")] in
  match extra_headers with
  | Some ((_ :: _) as extra) => dict_update headers extra
  | _ => headers
  end.

End Utils.

(** ** header_rules.py: the header rule engine *)

Module HeaderRules.

(** [class ReplaceValueRule(BaseModel)]. *)
Record ReplaceValueRule : Type := {
  search : string;
  replace : string;
  regex : bool;
  case_sensitive : bool
}.

(** How pydantic reads a [bool] field in lax mode. *)
Definition lax_bool `{PyRuntime} (v : PyVal) : option bool :=
  match v with
  | VBool b => Some b
  | VInt z => if z =? 0 then Some false else if z =? 1 then Some true else None
  | VFloat (Some q) =>
      if Qeq_bool q 0 then Some false else if Qeq_bool q 1 then Some true else None
  | VStr s =>
      let l := str_lower s in
      if existsb (String.eqb l) ["1"; "on"; "t"; "true"; "y"; "yes"] then Some true
      else if existsb (String.eqb l) ["0"; "off"; "f"; "false"; "n"; "no"] then Some false
      else None
  | _ => None
  end.

(** [ReplaceValueRule.validate_search(v, info)]; [data] is [info.data], the
    fields validated before this one. *)
Definition validate_search `{PyRuntime} (v : string) (data : pydict) : res string :=
  let regex := dict_get_default "regex" (VBool false) data in
  if truthy regex then
    match re_compile v false with
    | ReOk _ => Ok v
    | ReErr e => Raise (ValueError ("Invalid regex pattern: " ++ e))
    | ReRaise e => Raise e
    end
  else Ok v.

(** The constructor [ReplaceValueRule] on keyword arguments [kw]. Fields are validated in the order of their
    declaration; [search] is the first, so its validator runs on an empty
    [info.data]. A failure of any field is a [ValidationError], a
    [ValueError] of the validator among them; an exception of another
    class that the validator raises reaches the caller as it is. *)
Definition ReplaceValueRule_init `{PyRuntime} (kw : pydict) : res ReplaceValueRule :=
  (search <- match dict_get "search" kw with
             | Some (VStr s) =>
                 match validate_search s [] with
                 | Ok s' => Ok s'
                 | Raise (ValueError m) => Raise (ValidationError m)
                 | Raise e => Raise e
                 end
             | Some _ => Raise (ValidationError "search: Input should be a valid string")
             | None => Raise (ValidationError "search: Field required")
             end ;;
   replace <- match dict_get "replace" kw with
              | Some (VStr s) => Ok s
              | Some _ => Raise (ValidationError "replace: Input should be a valid string")
              | None => Raise (ValidationError "replace: Field required")
              end ;;
   regex <- match dict_get "regex" kw with
            | None => Ok false
            | Some v =>
                match lax_bool v with
                | Some b => Ok b
                | None => Raise (ValidationError "regex: Input should be a valid boolean")
                end
            end ;;
   case_sensitive <- match dict_get "case_sensitive" kw with
                     | None => Ok true
                     | Some v =>
                         match lax_bool v with
                         | Some b => Ok b
                         | None =>
                             Raise (ValidationError
                                      "case_sensitive: Input should be a valid boolean")
                         end
                     end ;;
   Ok {| search := search; replace := replace;
         regex := regex; case_sensitive := case_sensitive |})%res.

(** A value of type [Union[ReplaceValueRule, Dict[str, Any]]]. *)
Inductive rv_entry : Type :=
| RvRule (r : ReplaceValueRule)
| RvDict (d : pydict).

(** [class HeaderRules(BaseModel)]. *)
Record HeaderRules : Type := {
  add : option (list (string * string));
  remove : option (list string);
  replace_name : option (list (string * string));
  replace_value : option (list (string * rv_entry))
}.

(** Validation of [Dict[str, str]]. *)
Fixpoint str_items (d : pydict) : res (list (string * string)) :=
  match d with
  | [] => Ok []
  | (k, VStr s) :: d' => (rest <- str_items d' ;; Ok ((k, s) :: rest))%res
  | _ :: _ => Raise (ValidationError "Input should be a valid string")
  end.

Definition validate_str_dict (v : PyVal) : res (list (string * string)) :=
  match v with
  | VDict d => str_items d
  | _ => Raise (ValidationError "Input should be a valid dictionary")
  end.

(** Validation of [List[str]]. *)
Fixpoint str_elems (l : list PyVal) : res (list string) :=
  match l with
  | [] => Ok []
  | VStr s :: l' => (rest <- str_elems l' ;; Ok (s :: rest))%res
  | _ :: _ => Raise (ValidationError "Input should be a valid string")
  end.

Definition validate_str_list (v : PyVal) : res (list string) :=
  match v with
  | VList l => str_elems l
  | _ => Raise (ValidationError "Input should be a valid list")
  end.

(** Validation of [Union[ReplaceValueRule, Dict[str, Any]]]: a mapping that
    is no [ReplaceValueRule] is accepted by the second member; one that is,
    is stored as the rule or as the mapping it came from, by the runtime. *)
Definition stored_as `{PyRuntime} (d : pydict) (r : ReplaceValueRule) : rv_entry :=
  if union_builds_model d then RvRule r else RvDict d.

Definition validate_rv_entry `{PyRuntime} (v : PyVal) : res rv_entry :=
  match v with
  | VDict d =>
      match ReplaceValueRule_init d with
      | Ok r => Ok (stored_as d r)
      | Raise _ => Ok (RvDict d)
      end
  | _ => Raise (ValidationError "Input should be a valid dictionary or ReplaceValueRule")
  end.

Fixpoint rv_items `{PyRuntime} (d : pydict) : res (list (string * rv_entry)) :=
  match d with
  | [] => Ok []
  | (k, v) :: d' =>
      (e <- validate_rv_entry v ;; rest <- rv_items d' ;; Ok ((k, e) :: rest))%res
  end.

Definition validate_rv_dict `{PyRuntime} (v : PyVal) : res (list (string * rv_entry)) :=
  match v with
  | VDict d => rv_items d
  | _ => Raise (ValidationError "Input should be a valid dictionary")
  end.

(** An [Optional[T]] field with default [None]. *)
Definition optional_field {T} (validate : PyVal -> res T) (name : string) (kw : pydict)
  : res (option T) :=
  match dict_get name kw with
  | None | Some VNone => Ok None
  | Some v => (x <- validate v ;; Ok (Some x))%res
  end.

(** The constructor [HeaderRules] on keyword arguments [kw]; keys that name
    no field are ignored. *)
Definition HeaderRules_init `{PyRuntime} (kw : pydict) : res HeaderRules :=
  (add <- optional_field validate_str_dict "add" kw ;;
   remove <- optional_field validate_str_list "remove" kw ;;
   replace_name <- optional_field validate_str_dict "replace_name" kw ;;
   replace_value <- optional_field validate_rv_dict "replace_value" kw ;;
   Ok {| add := add; remove := remove;
         replace_name := replace_name; replace_value := replace_value |})%res.

(** Truth value of an optional container: [None] and the empty one are false. *)
Definition nonempty {T} (o : option (list T)) : bool :=
  match o with
  | Some (_ :: _) => true
  | _ => false
  end.

(** The elements a guarded loop [if o: for x in o: ...] visits. *)
Definition items {T} (o : option (list T)) : list T :=
  match o with
  | Some l => l
  | None => []
  end.

(** [HeaderRules.is_empty]. *)
Definition is_empty (r : HeaderRules) : bool :=
  negb (nonempty (add r) || nonempty (remove r)
        || nonempty (replace_name r) || nonempty (replace_value r)).

Abbreviation headers := (list (string * string)).

(** [a.lower() == b.lower()]. *)
Definition lower_eq `{PyRuntime} (a b : string) : bool :=
  String.eqb (str_lower a) (str_lower b).

(** Step 1, one configured name: delete every header that matches it. *)
Definition remove_one `{PyRuntime} (result : headers) (key : string) : headers :=
  let keys_to_remove := List.filter (fun k => lower_eq k key) (dict_keys result) in
  fold_left (fun r k => dict_del k r) keys_to_remove result.

(** Step 2, one [(old_name, new_name)] pair: the first header that matches
    [old_name] is popped and its value stored under [new_name]. *)
Definition replace_name_one `{PyRuntime} (result : headers) (pair : string * string)
  : headers :=
  let '(old_name, new_name) := pair in
  match List.find (fun key => lower_eq key old_name) (dict_keys result) with
  | Some key =>
      match dict_get key result with
      | Some value => dict_set new_name value (dict_del key result)
      | None => result (* not reached: [key] is one of [result.keys()] *)
      end
  | None => result
  end.

(** [_apply_replace_value(original, rule)]. *)
Definition _apply_replace_value `{PyRuntime} (original : string) (rule : ReplaceValueRule)
  : res string :=
  if regex rule then
    let ignorecase := negb (case_sensitive rule) in
    match re_sub (search rule) (replace rule) original ignorecase with
    | ReOk s => Ok s
    | ReErr _ => Ok original
    | ReRaise e => Raise e
    end
  else if case_sensitive rule then
    Ok (str_replace original (search rule) (replace rule))
  else
    (pattern <- re_raise (re_compile (re_escape (search rule)) true) ;;
     re_raise (pattern_sub pattern (replace rule) original))%res.

(** Step 3, one [(header_name, value_rule)] pair. *)
Definition replace_value_one `{PyRuntime} (result : headers) (item : string * rv_entry)
  : res headers :=
  let '(header_name, value_rule) := item in
  match List.find (fun key => lower_eq key header_name) (dict_keys result) with
  | Some key =>
      (rule <- match value_rule with
               | RvDict d => ReplaceValueRule_init d
               | RvRule r => Ok r
               end ;;
       match dict_get key result with
       | Some original_value =>
           new_value <- _apply_replace_value original_value rule ;;
           Ok (dict_set key new_value result)
       | None => Raise (KeyError key)
       end)%res
  | None => Ok result
  end.

(** Step 4, one [(key, value)] pair: added only if [key] is not there. *)
Definition add_one (result : headers) (pair : string * string) : headers :=
  let '(key, value) := pair in
  if dict_mem key result then result else dict_set key value result.

Definition structural_keys : list string :=
  ["add"; "remove"; "replace_name"; "replace_value"].

(** The parsing block of [apply_header_rules], inside its [try]. *)
Definition parse_rules `{PyRuntime} (rules : PyVal) : res HeaderRules :=
  match rules with
  | VDict d =>
      if negb (existsb (fun key => dict_mem key d) structural_keys)
      then HeaderRules_init [("add", rules)]
      else HeaderRules_init d
  | _ => HeaderRules_init []
  end.

(** The four steps, on the copy [result]. *)
Definition run_rules `{PyRuntime} (header_rules : HeaderRules) (result : headers)
  : res headers :=
  let result := fold_left remove_one (items (remove header_rules)) result in
  let result := fold_left replace_name_one (items (replace_name header_rules)) result in
  (result <- res_fold replace_value_one (items (replace_value header_rules)) result ;;
   Ok (fold_left add_one (items (add header_rules)) result))%res.

(** [apply_header_rules(headers, rules)]. *)
Definition apply_header_rules `{PyRuntime} (hs : headers) (rules : PyVal) : res headers :=
  if negb (truthy rules) then Ok hs
  else
    match parse_rules rules with
    | Raise _ => Ok hs
    | Ok header_rules =>
        if is_empty header_rules then Ok hs
        else run_rules header_rules hs
    end.

(** The loop of [validate_header_rules] over [replace_value.items()]. *)
Fixpoint check_regexes `{PyRuntime} (rv : list (string * rv_entry)) : bool * option string :=
  match rv with
  | [] => (true, None)
  | (header_name, value_rule) :: rest =>
      match value_rule with
      | RvRule r =>
          if regex r then
            match re_compile (search r) false with
            | ReOk _ => check_regexes rest
            | ReErr e =>
                (false, Some ("Invalid regex in '" ++ header_name ++ "': " ++ e))
            | ReRaise e => (false, Some (exn_str e))
            end
          else check_regexes rest
      | RvDict _ => check_regexes rest
      end
  end.

(** [validate_header_rules(rules)]. *)
Definition validate_header_rules `{PyRuntime} (rules : PyVal) : bool * option string :=
  match rules with
  | VDict d =>
      match HeaderRules_init d with
      | Ok header_rules => check_regexes (items (replace_value header_rules))
      | Raise e => (false, Some (exn_str e))
      end
  | _ => (false, Some "argument after ** must be a mapping")
  end.

(** [merge_legacy_headers(headers, rules)]. [result.update(rules)] stores in
    [result] the very objects [rules] holds, so [result["add"].update(headers)]
    also changes the mapping under [rules["add"]]: the call yields [result]
    and [rules] as the caller finds it afterwards. *)
Definition merge_legacy_headers (hs : option headers) (rules : option pydict)
  : res (pydict * option pydict) :=
  let result :=
    match rules with
    | Some ((_ :: _) as r) => dict_update [] r
    | _ => []
    end in
  match hs with
  | Some ((_ :: _) as legacy) =>
      let new := map (fun kv => (fst kv, VStr (snd kv))) legacy in
      match dict_get "add" result with
      | None => Ok (dict_set "add" (VDict (dict_update [] new)) result, rules)
      | Some (VDict add) =>
          let merged := VDict (dict_update add new) in
          Ok (dict_set "add" merged result, option_map (dict_set "add" merged) rules)
      | Some _ => Raise (AttributeError "object has no attribute 'update'")
      end
  | _ => Ok (result, rules)
  end.

End HeaderRules.

(** ** model_cache.py: the model resolver and its cache *)

(** [CacheTTL] of [src/config/constants.py]; only [CacheTTL.MODEL] is used,
    its value is not part of the sources and is taken as given. *)
Class CacheTTL : Type := { MODEL : Z }.

Module ModelCache.

(** The rows of the three tables ([src/models/database.py]), with the
    columns the resolver reads. Identifiers and names are string columns;
    the JSON and capability columns hold any value. *)
Record Provider : Type := {
  provider_id : string;
  provider_is_active : bool
}.

Record Model : Type := {
  model_id : string;
  model_provider_id : string;
  model_global_model_id : string;
  provider_model_name : string;
  provider_model_aliases : PyVal;
  model_is_active : PyVal;
  is_available : PyVal;
  price_per_request : PyVal;
  tiered_pricing : PyVal;
  supports_vision : PyVal;
  supports_function_calling : PyVal;
  supports_streaming : PyVal;
  supports_extended_thinking : PyVal;
  supports_image_generation : PyVal;
  config : PyVal
}.

Record GlobalModel : Type := {
  gm_id : string;
  gm_name : string;
  display_name : PyVal;
  default_supports_vision : PyVal;
  default_supports_function_calling : PyVal;
  default_supports_streaming : PyVal;
  default_supports_extended_thinking : PyVal;
  default_supports_image_generation : PyVal;
  supported_capabilities : PyVal;
  gm_is_active : PyVal;
  description : PyVal
}.

(** The datastore: the three tables in the order the store returns rows,
    and whether it has the JSONB containment operator. *)
Record Db : Type := {
  providers : list Provider;
  models : list Model;
  global_models : list GlobalModel;
  jsonb_supported : bool
}.

Inductive query : Type :=
| QModelById (id : string)
| QGlobalModelById (id : string)
| QModelByProviderAndGlobal (provider global_model : string)
| QGlobalModelByName (name : string)
| QJoinedByNameOrAlias (name : string)
| QJoinedActive
| QActiveGlobalModelByName (name : string).

(** What a call does to the outside world, in order. *)
Inductive event : Type :=
| CacheGet (key : string)
| CacheSet (key : string) (value : PyVal) (ttl : Z)
| DbQuery (q : query)
| ConflictInc
| ResolutionInc (method : string) (cache_hit : bool)
| DurationObserve (method : string).

Record state : Type := {
  cache : gmap string PyVal;
  trace : list event
}.

Definition emit (e : event) (st : state) : state :=
  {| cache := cache st; trace := trace st ++ [e] |}.

(** Modelled from the spec: [CacheService] ([src/core/cache_service.py]) is
    not among the sources; the CacheBackend contract gives
    [get(key) -> value | absent] and [set(key, value, ttlSeconds)]. An
    absent key reads as [None]; expiry is not modelled. *)
Definition cache_get (key : string) (st : state) : PyVal * state :=
  (default VNone (cache st !! key), emit (CacheGet key) st).

Definition cache_set (key : string) (value : PyVal) (ttl : Z) (st : state) : state :=
  {| cache := <[key := value]> (cache st);
     trace := trace st ++ [CacheSet key value ttl] |}.

(** [column == True] on a row. *)
Definition is_true (v : PyVal) : bool :=
  match v with
  | VBool true => true
  | _ => false
  end.

(** [d[k]] on a cached value. *)
Definition item (k : string) (v : PyVal) : res PyVal :=
  match v with
  | VDict d =>
      match dict_get k d with
      | Some x => Ok x
      | None => Raise (KeyError k)
      end
  | _ => Raise (TypeError "object is not subscriptable with a str")
  end.

(** [d.get(k)] and [d.get(k, default)] on a cached mapping. *)
Definition get (k : string) (dflt : PyVal) (v : PyVal) : PyVal :=
  match v with
  | VDict d => dict_get_default k dflt d
  | _ => dflt
  end.

(** Identifiers and names are string columns: a snapshot that holds another
    kind of value there is outside this model, and is refused. *)
Definition as_str (v : PyVal) : res string :=
  match v with
  | VStr s => Ok s
  | _ => Raise (TypeError "str expected")
  end.

Definition _model_to_dict (model : Model) : pydict :=
  [ ("id", VStr (model_id model));
    ("provider_id", VStr (model_provider_id model));
    ("global_model_id", VStr (model_global_model_id model));
    ("provider_model_name", VStr (provider_model_name model));
    ("provider_model_aliases", provider_model_aliases model);
    ("is_active", model_is_active model);
    ("is_available", is_available model);
    ("price_per_request",
      if truthy (price_per_request model) then price_per_request model else VNone);
    ("tiered_pricing", tiered_pricing model);
    ("supports_vision", supports_vision model);
    ("supports_function_calling", supports_function_calling model);
    ("supports_streaming", supports_streaming model);
    ("supports_extended_thinking", supports_extended_thinking model);
    ("supports_image_generation", supports_image_generation model);
    ("config", config model) ].

Definition _dict_to_model (model_dict : PyVal) : res Model :=
  (id <- res_bind (item "id" model_dict) as_str ;;
   provider <- res_bind (item "provider_id" model_dict) as_str ;;
   global_model <- res_bind (item "global_model_id" model_dict) as_str ;;
   name <- res_bind (item "provider_model_name" model_dict) as_str ;;
   active <- item "is_active" model_dict ;;
   Ok {| model_id := id;
         model_provider_id := provider;
         model_global_model_id := global_model;
         provider_model_name := name;
         provider_model_aliases := get "provider_model_aliases" VNone model_dict;
         model_is_active := active;
         is_available := get "is_available" (VBool true) model_dict;
         price_per_request := get "price_per_request" VNone model_dict;
         tiered_pricing := get "tiered_pricing" VNone model_dict;
         supports_vision := get "supports_vision" VNone model_dict;
         supports_function_calling := get "supports_function_calling" VNone model_dict;
         supports_streaming := get "supports_streaming" VNone model_dict;
         supports_extended_thinking := get "supports_extended_thinking" VNone model_dict;
         supports_image_generation := get "supports_image_generation" VNone model_dict;
         config := get "config" VNone model_dict |})%res.

Definition _global_model_to_dict (global_model : GlobalModel) : pydict :=
  [ ("id", VStr (gm_id global_model));
    ("name", VStr (gm_name global_model));
    ("display_name", display_name global_model);
    ("default_supports_vision", default_supports_vision global_model);
    ("default_supports_function_calling", default_supports_function_calling global_model);
    ("default_supports_streaming", default_supports_streaming global_model);
    ("default_supports_extended_thinking", default_supports_extended_thinking global_model);
    ("default_supports_image_generation", default_supports_image_generation global_model);
    ("supported_capabilities", supported_capabilities global_model);
    ("is_active", gm_is_active global_model);
    ("description", description global_model) ].

Definition _dict_to_global_model (global_model_dict : PyVal) : res GlobalModel :=
  (id <- res_bind (item "id" global_model_dict) as_str ;;
   name <- res_bind (item "name" global_model_dict) as_str ;;
   Ok {| gm_id := id;
         gm_name := name;
         display_name := get "display_name" VNone global_model_dict;
         default_supports_vision :=
           get "default_supports_vision" (VBool false) global_model_dict;
         default_supports_function_calling :=
           get "default_supports_function_calling" (VBool false) global_model_dict;
         default_supports_streaming :=
           get "default_supports_streaming" (VBool true) global_model_dict;
         default_supports_extended_thinking :=
           get "default_supports_extended_thinking" (VBool false) global_model_dict;
         default_supports_image_generation :=
           get "default_supports_image_generation" (VBool false) global_model_dict;
         supported_capabilities :=
           (let c := get "supported_capabilities" VNone global_model_dict in
            if truthy c then c else VList []);
         gm_is_active := get "is_active" (VBool true) global_model_dict;
         description := get "description" VNone global_model_dict |})%res.

(** [db.query(...).filter(...).first()], recorded in the trace. *)
Definition db_first {A} (q : query) (p : A -> bool) (table : list A) (st : state)
  : option A * state :=
  (List.find p table, emit (DbQuery q) st).

Section Lookups.
Context `{CacheTTL}.

Definition CACHE_TTL : Z := MODEL.

Definition get_model_by_id (db : Db) (id : string) (st : state)
  : res (option Model) * state :=
  let cache_key := "model:id:" ++ id in
  let '(cached_data, st) := cache_get cache_key st in
  if truthy cached_data then
    (res_bind (_dict_to_model cached_data) (fun m => Ok (Some m)), st)
  else
    let '(model, st) :=
      db_first (QModelById id) (fun m => String.eqb (model_id m) id) (models db) st in
    match model with
    | Some m => (Ok (Some m), cache_set cache_key (VDict (_model_to_dict m)) CACHE_TTL st)
    | None => (Ok None, st)
    end.

Definition get_global_model_by_id (db : Db) (global_model_id : string) (st : state)
  : res (option GlobalModel) * state :=
  let cache_key := "global_model:id:" ++ global_model_id in
  let '(cached_data, st) := cache_get cache_key st in
  if truthy cached_data then
    (res_bind (_dict_to_global_model cached_data) (fun g => Ok (Some g)), st)
  else
    let '(global_model, st) :=
      db_first (QGlobalModelById global_model_id)
        (fun g => String.eqb (gm_id g) global_model_id) (global_models db) st in
    match global_model with
    | Some g =>
        (Ok (Some g), cache_set cache_key (VDict (_global_model_to_dict g)) CACHE_TTL st)
    | None => (Ok None, st)
    end.

Definition get_model_by_provider_and_global_model
  (db : Db) (provider global_model_id : string) (st : state)
  : res (option Model) * state :=
  let cache_key := "model:provider_global:" ++ provider ++ ":" ++ global_model_id in
  let '(cached_data, st) := cache_get cache_key st in
  if truthy cached_data then
    (res_bind (_dict_to_model cached_data) (fun m => Ok (Some m)), st)
  else
    let '(model, st) :=
      db_first (QModelByProviderAndGlobal provider global_model_id)
        (fun m => String.eqb (model_provider_id m) provider
                  && String.eqb (model_global_model_id m) global_model_id
                  && is_true (model_is_active m)) (models db) st in
    match model with
    | Some m => (Ok (Some m), cache_set cache_key (VDict (_model_to_dict m)) CACHE_TTL st)
    | None => (Ok None, st)
    end.

Definition get_global_model_by_name (db : Db) (name : string) (st : state)
  : res (option GlobalModel) * state :=
  let cache_key := "global_model:name:" ++ name in
  let '(cached_data, st) := cache_get cache_key st in
  if truthy cached_data then
    (res_bind (_dict_to_global_model cached_data) (fun g => Ok (Some g)), st)
  else
    let '(global_model, st) :=
      db_first (QGlobalModelByName name)
        (fun g => String.eqb (gm_name g) name) (global_models db) st in
    match global_model with
    | Some g =>
        (Ok (Some g), cache_set cache_key (VDict (_global_model_to_dict g)) CACHE_TTL st)
    | None => (Ok None, st)
    end.
End Lookups.

(** *** resolve_global_model_by_name_or_alias *)

(** The join [Model ⋈ Provider ⋈ GlobalModel] on the two foreign keys. *)
Definition joined (db : Db) : list (Provider * Model * GlobalModel) :=
  flat_map (fun m =>
    flat_map (fun p =>
      if String.eqb (model_provider_id m) (provider_id p) then
        flat_map (fun g =>
          if String.eqb (model_global_model_id m) (gm_id g) then [(p, m, g)] else [])
          (global_models db)
      else [])
      (providers db))
    (models db).

Definition all_active (row : Provider * Model * GlobalModel) : bool :=
  let '(p, m, g) := row in
  provider_is_active p && is_true (model_is_active m) && is_true (gm_is_active g).

(** [aliases @> '[{"name": name}]']: the JSON array [aliases] has an object
    whose ["name"] is [name]. *)
Definition jsonb_contains_name (aliases : PyVal) (name : string) : bool :=
  match aliases with
  | VList l =>
      existsb (fun e =>
                 match e with
                 | VDict d =>
                     match dict_get "name" d with
                     | Some (VStr s) => String.eqb s name
                     | _ => false
                     end
                 | _ => false
                 end) l
  | _ => false
  end.

(** The candidate query: with the JSONB operator the store filters on the
    provider-side name or the alias list; where the operator is missing the
    attempt fails with [OperationalError]/[ProgrammingError] and every
    active joined row is loaded instead. *)
Definition query_rows (db : Db) (normalized_name : string) (st : state)
  : list (Model * GlobalModel) * state :=
  let st := emit (DbQuery (QJoinedByNameOrAlias normalized_name)) st in
  if jsonb_supported db then
    (map (fun '(_, m, g) => (m, g))
       (List.filter
          (fun '(p, m, g) =>
             all_active (p, m, g)
             && (String.eqb (provider_model_name m) normalized_name
                 || jsonb_contains_name (provider_model_aliases m) normalized_name))
          (joined db)), st)
  else
    let st := emit (DbQuery QJoinedActive) st in
    (map (fun '(_, m, g) => (m, g)) (List.filter all_active (joined db)), st).

(** [for x in v]: the elements a [for] loop visits. *)
Definition py_iter (v : PyVal) : res (list PyVal) :=
  match v with
  | VList l => Ok l
  | VDict d => Ok (map VStr (dict_keys d))
  | VStr s => Ok (map (fun c => VStr (String c EmptyString)) (list_ascii_of_string s))
  | _ => Raise (TypeError "object is not iterable")
  end.

(** The entry of [matched_models_dict]: [(GlobalModel, match_type, priority)]. *)
Abbreviation matched := (GlobalModel * string * Z)%type.
Abbreviation matched_dict := (list ((string * string) * matched)).

Section Resolve.
Context `{PyRuntime} `{CacheTTL}.

(** The loop over [model.provider_model_aliases], up to its [break]. *)
Fixpoint alias_matches (entries : list PyVal) (normalized_name : string) : res bool :=
  match entries with
  | [] => Ok false
  | VDict alias_entry :: rest =>
      match dict_get_default "name" (VStr EmptyString) alias_entry with
      | VStr s =>
          if String.eqb (str_strip s) normalized_name then Ok true
          else alias_matches rest normalized_name
      | _ => Raise (AttributeError "object has no attribute 'strip'")
      end
  | _ :: rest => alias_matches rest normalized_name
  end.

(** Whether the loop over the aliases of [model] finds the name. *)
Definition alias_hit (normalized_name : string) (model : Model) : res bool :=
  if truthy (provider_model_aliases model) then
    (entries <- py_iter (provider_model_aliases model) ;;
     alias_matches entries normalized_name)%res
  else Ok false.

(** The body of [for model, gm in models_with_global]. *)
Definition match_row (normalized_name : string)
  (matched_models_dict : matched_dict) (row : Model * GlobalModel) : res matched_dict :=
  let '(model, gm) := row in
  let key := (model_id model, gm_id gm) in
  (hit <- alias_hit normalized_name model ;;
   let d :=
     if hit : bool then dict_set key (gm, "alias", 0) matched_models_dict
     else matched_models_dict in
   let not_alias :=
     match dict_get key d with
     | None => true
     | Some (_, match_type, _) => negb (String.eqb match_type "alias")
     end in
   Ok (if not_alias then
         if String.eqb (provider_model_name model) normalized_name then
           if negb (dict_mem key d)
           then dict_set key (gm, "provider_model_name", 1) d
           else d
         else d
       else d))%res.

(** A row matches the name by one of its aliases or by its provider-side
    name. *)
Definition row_matches (normalized_name : string) (row : Model * GlobalModel) : bool :=
  match alias_hit normalized_name (fst row) with
  | Ok true => true
  | _ => String.eqb (provider_model_name (fst row)) normalized_name
  end.

(** The key [k] of the dictionary holds an entry matched by alias. *)
Definition alias_at (k : string * string) (d : matched_dict) : Prop :=
  exists g p, dict_get k d = Some (g, "alias", p).

(** Every entry of the dictionary is the GlobalModel of one of [rows]
    that matches the name, under one of the two match types. *)
Definition from_rows (normalized_name : string) (rows : list (Model * GlobalModel))
  (d : matched_dict) : Prop :=
  forall k g mt p,
    In (k, (g, mt, p)) d ->
    exists m,
      In (m, g) rows /\ row_matches normalized_name (m, g) = true
      /\ (mt = "alias" \/ mt = "provider_model_name").

(** Every entry of the dictionary sits under the key of one of [rows],
    holds the GlobalModel of that row, and has the match type of the way
    that row matches. *)
Definition keyed_by_rows (normalized_name : string) (rows : list (Model * GlobalModel))
  (d : matched_dict) : Prop :=
  forall k g mt p,
    In (k, (g, mt, p)) d ->
    exists m,
      In (m, g) rows /\ k = (model_id m, gm_id g)
      /\ ((mt = "alias" /\ alias_hit normalized_name m = Ok true)
          \/ (mt = "provider_model_name" /\ provider_model_name m = normalized_name)).

(** The sort key [(0 if item[1] == "alias" else 1, item[0].name)] and the
    order of such tuples. *)
Definition sort_key (it : GlobalModel * string) : Z * string :=
  (if String.eqb (snd it) "alias" then 0 else 1, gm_name (fst it)).

Definition key_lt (a b : Z * string) : bool :=
  (fst a <? fst b) || ((fst a =? fst b) && String.ltb (snd a) (snd b)).

(** [list.sort(key=...)], a stable sort: an element goes before the first
    one that is not smaller than it. *)
Fixpoint insert_sorted (x : GlobalModel * string) (l : list (GlobalModel * string))
  : list (GlobalModel * string) :=
  match l with
  | [] => [x]
  | y :: l' =>
      if key_lt (sort_key y) (sort_key x) then y :: insert_sorted x l' else x :: l
  end.

Definition sort (l : list (GlobalModel * string)) : list (GlobalModel * string) :=
  foldr insert_sorted [] l.

(** [{gm.id: gm for gm, _ in matched_global_models}]. *)
Definition unique_models (l : list (GlobalModel * string)) : list (string * GlobalModel) :=
  fold_left (fun d it => dict_set (gm_id (fst it)) (fst it) d) l [].

(** The outcome of the [try] block: the value or exception, and the two
    locals [resolution_method] and [cache_hit] the [finally] block reads. *)
Abbreviation outcome := (res (option GlobalModel) * string * bool * state)%type.

(** Steps 2 to 4 of the [try] block: the datastore. The sorted list has
    the elements of [matched_models_dict], so it is empty exactly when
    the dictionary is, which is what [if matched_models_dict:] tests. *)
Definition resolve_from_db (db : Db) (normalized_name cache_key : string) (st : state)
  : outcome :=
  let '(models_with_global, st) := query_rows db normalized_name st in
  match res_fold (match_row normalized_name) models_with_global [] with
  | Raise e => (Raise e, "not_found", false, st)
  | Ok matched_models_dict =>
      let matched_global_models :=
        sort (map (fun '(gm, match_type, _) => (gm, match_type))
                (dict_values matched_models_dict)) in
      match matched_global_models with
      | (result_global_model, resolution_method) :: _ =>
          let st :=
            if (1 <? Z.of_nat (List.length matched_global_models))
               && (1 <? Z.of_nat (List.length (unique_models matched_global_models)))
            then emit ConflictInc st else st in
          let st :=
            cache_set cache_key (VDict (_global_model_to_dict result_global_model))
              CACHE_TTL st in
          (Ok (Some result_global_model), resolution_method, false, st)
      | [] =>
          let '(global_model, st) :=
            db_first (QActiveGlobalModelByName normalized_name)
              (fun g => String.eqb (gm_name g) normalized_name && is_true (gm_is_active g))
              (global_models db) st in
          match global_model with
          | Some g =>
              let st := cache_set cache_key (VDict (_global_model_to_dict g)) CACHE_TTL st in
              (Ok (Some g), "direct_match", false, st)
          | None =>
              let st := cache_set cache_key (VStr "NOT_FOUND") CACHE_TTL st in
              (Ok None, "not_found", false, st)
          end
      end
  end.

(** [cached_data == "NOT_FOUND"]. *)
Definition is_not_found (v : PyVal) : bool :=
  match v with
  | VStr s => String.eqb s "NOT_FOUND"
  | _ => false
  end.

(** [isinstance(cached_data, dict) and "supported_capabilities" not in cached_data]. *)
Definition schema_stale (v : PyVal) : bool :=
  match v with
  | VDict d => negb (dict_mem "supported_capabilities" d)
  | _ => false
  end.

(** The [try] block. *)
Definition resolve_try (db : Db) (normalized_name cache_key : string) (st : state)
  : outcome :=
  let '(cached_data, st) := cache_get cache_key st in
  if truthy cached_data then
    if is_not_found cached_data then (Ok None, "not_found", true, st)
    else if schema_stale cached_data then
      resolve_from_db db normalized_name cache_key st
    else
      (res_bind (_dict_to_global_model cached_data) (fun g => Ok (Some g)),
       "direct_match", true, st)
  else resolve_from_db db normalized_name cache_key st.

Definition resolve_global_model_by_name_or_alias
  (db : Db) (model_name : string) (st : state) : res (option GlobalModel) * state :=
  let normalized_name := str_strip model_name in
  if String.eqb normalized_name EmptyString then (Ok None, st)
  else
    let cache_key := "global_model:resolve:" ++ normalized_name in
    let '(r, resolution_method, cache_hit, st) :=
      resolve_try db normalized_name cache_key st in
    (* finally *)
    let st := emit (ResolutionInc resolution_method cache_hit) st in
    let st := emit (DurationObserve resolution_method) st in
    (r, st).
End Resolve.

(** *** invalidate_model_cache, invalidate_global_model_cache *)

(** Modelled from the spec: [CacheService.delete(key)], of the CacheBackend
    contract, on the cache map; the keys deleted are recorded in order. *)
Definition cache_delete (key : string) (st : gmap string PyVal * list string)
  : gmap string PyVal * list string :=
  (delete key (fst st), (snd st ++ [key])%list).

(** The cache after some deletions is the cache [c] they started from
    without the keys recorded. *)
Definition minus (c : gmap string PyVal) (st : gmap string PyVal * list string) : Prop :=
  forall k, (In k (snd st) -> fst st !! k = None)
            /\ (~ In k (snd st) -> fst st !! k = c !! k).

(** Truth value of an [Optional[str]] argument. *)
Definition given (o : option string) : bool :=
  match o with
  | Some s => negb (String.eqb s EmptyString)
  | None => false
  end.

Section Invalidate.
Context `{PyRuntime}.

(** The names the loop over [provider_model_aliases] appends to
    [resolve_keys_to_clear]. *)
Fixpoint alias_names (entries : list PyVal) : res (list string) :=
  match entries with
  | [] => Ok []
  | VDict alias_entry :: rest =>
      match dict_get_default "name" (VStr EmptyString) alias_entry with
      | VStr s =>
          let alias_name := str_strip s in
          (names <- alias_names rest ;;
           Ok (if String.eqb alias_name EmptyString then names
               else alias_name :: names))%res
      | _ => Raise (AttributeError "object has no attribute 'strip'")
      end
  | _ :: rest => alias_names rest
  end.

(** The alias part of [resolve_keys_to_clear]. *)
Definition collected (aliases : PyVal) : res (list string) :=
  (if truthy aliases then entries <- py_iter aliases ;; alias_names entries
   else Ok [])%res.

Definition invalidate_model_cache (id : string)
  (provider global_model name : option string) (aliases : PyVal)
  (st : gmap string PyVal * list string)
  : res unit * (gmap string PyVal * list string) :=
  let st := cache_delete ("model:id:" ++ id) st in
  let st :=
    match provider, global_model with
    | Some p, Some g =>
        if given provider && given global_model
        then cache_delete ("model:provider_global:" ++ p ++ ":" ++ g) st
        else st
    | _, _ => st
    end in
  let resolve_keys_to_clear :=
    match name with
    | Some n => if given name then [n] else []
    | None => []
    end in
  match collected aliases with
  | Raise e => (Raise e, st)
  | Ok names =>
      (Ok tt,
       fold_left (fun st key => cache_delete ("global_model:resolve:" ++ key) st)
         (resolve_keys_to_clear ++ names)%list st)
  end.

Definition invalidate_global_model_cache (global_model_id : string)
  (name : option string) (st : gmap string PyVal * list string)
  : gmap string PyVal * list string :=
  let st := cache_delete ("global_model:id:" ++ global_model_id) st in
  match name with
  | Some n =>
      if given name then
        cache_delete ("global_model:resolve:" ++ n)
          (cache_delete ("global_model:name:" ++ n) st)
      else st
  | None => st
  end.

End Invalidate.

(** *** Snapshots and datastores, as the properties speak of them *)

Section Views.
Context `{PyRuntime}.

(** A GlobalModel once through the cache: what [_dict_to_global_model]
    makes of the snapshot [_global_model_to_dict] writes. *)
Definition reloaded (g : GlobalModel) : GlobalModel :=
  {| gm_id := gm_id g;
     gm_name := gm_name g;
     display_name := display_name g;
     default_supports_vision := default_supports_vision g;
     default_supports_function_calling := default_supports_function_calling g;
     default_supports_streaming := default_supports_streaming g;
     default_supports_extended_thinking := default_supports_extended_thinking g;
     default_supports_image_generation := default_supports_image_generation g;
     supported_capabilities :=
       (if truthy (supported_capabilities g) then supported_capabilities g
        else VList []);
     gm_is_active := gm_is_active g;
     description := description g |}.

(** The datastore [db] with or without the JSONB operator. *)
Definition with_jsonb (b : bool) (db : Db) : Db :=
  {| providers := providers db;
     models := models db;
     global_models := global_models db;
     jsonb_supported := b |}.

(** An alias entry whose name is stored as [str.strip] leaves it. *)
Definition alias_entry_stripped (e : PyVal) : Prop :=
  match e with
  | VDict d => exists s, dict_get "name" d = Some (VStr s) /\ str_strip s = s
  | _ => True
  end.

(** The alias column of [m] is null or a list of such entries. *)
Definition aliases_stripped (m : Model) : Prop :=
  provider_model_aliases m = VNone
  \/ exists l, provider_model_aliases m = VList l /\ Forall alias_entry_stripped l.
End Views.

End ModelCache.

(** ** A runtime for the examples

    ASCII text, and the fragment of [re] whose patterns hold no unescaped
    metacharacter: a pattern of the fragment matches itself, any other
    pattern is rejected, as [re] rejects the pattern of the single character
    [[], an unterminated character set; a repetition count too large is
    rejected with [OverflowError], as [re] rejects [a{4294967295}]. *)

Module AsciiRuntime.

Definition lower_ascii (c : ascii) : ascii :=
  let n := N_of_ascii c in
  if ((65 <=? n) && (n <=? 90))%N then ascii_of_N (n + 32) else c.

Fixpoint lower (s : string) : string :=
  match s with
  | EmptyString => EmptyString
  | String c s' => String (lower_ascii c) (lower s')
  end.

Definition is_space (c : ascii) : bool :=
  let n := N_of_ascii c in
  (((9 <=? n) && (n <=? 13)) || ((28 <=? n) && (n <=? 32)))%N.

Fixpoint lstrip (s : string) : string :=
  match s with
  | EmptyString => EmptyString
  | String c s' => if is_space c then lstrip s' else s
  end.

Definition rev_string (s : string) : string :=
  string_of_list_ascii (rev (list_ascii_of_string s)).

Definition strip (s : string) : string :=
  rev_string (lstrip (rev_string (lstrip s))).

(** [s.startswith(p)], characters compared by [eqc]. *)
Fixpoint starts_with (eqc : ascii -> ascii -> bool) (p s : string) : bool :=
  match p, s with
  | EmptyString, _ => true
  | String a p', String b s' => eqc a b && starts_with eqc p' s'
  | String _ _, EmptyString => false
  end.

(** Replace the occurrences of a non-empty [old], left to right, without
    overlap; [skip] characters of a match are still to be dropped. *)
Fixpoint replace_from (eqc : ascii -> ascii -> bool) (old new s : string) (skip : nat)
  : string :=
  match s with
  | EmptyString => EmptyString
  | String c s' =>
      match skip with
      | S k => replace_from eqc old new s' k
      | O =>
          if starts_with eqc old s
          then new ++ replace_from eqc old new s' (String.length old - 1)
          else String c (replace_from eqc old new s' 0)
      end
  end%string.

(** An empty [old] matches before every character and at the end. *)
Fixpoint intersperse (new s : string) : string :=
  match s with
  | EmptyString => new
  | String c s' => new ++ String c (intersperse new s')
  end%string.

Definition replace_all (eqc : ascii -> ascii -> bool) (s old new : string) : string :=
  match old with
  | EmptyString => intersperse new s
  | _ => replace_from eqc old new s 0
  end.

Definition digit (c : ascii) : option Z :=
  let n := N_of_ascii c in
  if ((48 <=? n) && (n <=? 57))%N then Some (Z.of_N n - 48) else None.

(** Decimal digits, single underscores allowed between two digits. *)
Fixpoint digits (s : string) (acc : Z) (after_digit : bool) : option Z :=
  match s with
  | EmptyString => if after_digit then Some acc else None
  | String c s' =>
      match digit c with
      | Some d => digits s' (10 * acc + d) true
      | None =>
          if Ascii.eqb c "_" && after_digit then digits s' acc false else None
      end
  end.

Definition parse_int (s : string) : option Z :=
  match strip s with
  | String "-" s' => option_map Z.opp (digits s' 0 false)
  | String "+" s' => digits s' 0 false
  | s' => digits s' 0 false
  end.

Definition backslash : ascii := ascii_of_N 92.

Definition is_meta (c : ascii) : bool :=
  existsb (Ascii.eqb c) (backslash :: list_ascii_of_string ".^$*+?{}[]|()").

(** The text a pattern of the fragment denotes. *)
Fixpoint literal_of (p : string) : option string :=
  match p with
  | EmptyString => Some EmptyString
  | String c p' =>
      if Ascii.eqb c backslash then
        match p' with
        | String c' p'' =>
            if is_meta c' then option_map (String c') (literal_of p'') else None
        | EmptyString => None
        end
      else if is_meta c then None
      else option_map (String c) (literal_of p')
  end.

Fixpoint escape (s : string) : string :=
  match s with
  | EmptyString => EmptyString
  | String c s' => if is_meta c then String backslash (String c (escape s')) else String c (escape s')
  end.

Definition char_eq (ignorecase : bool) (a b : ascii) : bool :=
  if ignorecase then Ascii.eqb (lower_ascii a) (lower_ascii b) else Ascii.eqb a b.

(** [MAXREPEAT] of [_sre]. *)
Definition MAXREPEAT : Z := 4294967295.

(** The count [n] of a text [n}] that ends the pattern. *)
Fixpoint count_to_brace (s : string) (acc : Z) (after_digit : bool) : option Z :=
  match s with
  | EmptyString => None
  | String c s' =>
      match digit c with
      | Some d => count_to_brace s' (10 * acc + d) true
      | None =>
          if Ascii.eqb c "}" && after_digit && String.eqb s' EmptyString
          then Some acc else None
      end
  end.

(** The count of a pattern [c{n}], one plain character repeated. *)
Definition repeat_count (p : string) : option Z :=
  match p with
  | String c (String "{" rest) => if is_meta c then None else count_to_brace rest 0 false
  | _ => None
  end.

(** A repetition count of [MAXREPEAT] or more is refused with
    [OverflowError], not with [re.error]. *)
Definition compile (p : string) (ignorecase : bool) : re_res (string * bool) :=
  match literal_of p with
  | Some l => ReOk (l, ignorecase)
  | None =>
      match repeat_count p with
      | Some n =>
          if MAXREPEAT <=? n
          then ReRaise (OverflowError "the repetition number is too large")
          else ReErr "pattern outside the literal fragment"
      | None => ReErr "pattern outside the literal fragment"
      end
  end.

(** A replacement template with a backslash is outside the fragment. *)
Definition sub (p : string * bool) (repl s : string) : re_res string :=
  if existsb (Ascii.eqb backslash) (list_ascii_of_string repl)
  then ReErr "template outside the literal fragment"
  else ReOk (replace_all (char_eq (snd p)) s (fst p) repl).

Definition runtime (builds_model : bool) : PyRuntime := {|
  str_lower := lower;
  str_strip := strip;
  str_replace := replace_all Ascii.eqb;
  int_of_str := parse_int;
  re_pattern := string * bool;
  re_compile := compile;
  pattern_sub := sub;
  re_escape := escape;
  union_builds_model := fun _ => builds_model
|}.

(** The runtime of the worked examples: mappings are kept as mappings. *)
Definition example : PyRuntime := runtime false.

Definition ttl : CacheTTL := {| MODEL := 300 |}.

End AsciiRuntime.

(** ** Inputs of the examples *)

Module UtilsExamples.
(** The payload of [test_nested_has_priority_over_flat]. *)
Definition nested_flat_legacy : pydict :=
  [ ("cache_creation",
      VDict [ ("ephemeral_5m_input_tokens", VInt 100);
              ("ephemeral_1h_input_tokens", VInt 200) ]);
    ("claude_cache_creation_5_m_tokens", VInt 999);
    ("claude_cache_creation_1_h_tokens", VInt 888);
    ("cache_creation_input_tokens", VInt 777) ].

(** The payload of [test_nested_cache_creation_with_old_format_fallback]. *)
Definition nested_zero_legacy_549 : pydict :=
  [ ("cache_creation",
      VDict [ ("ephemeral_5m_input_tokens", VInt 0);
              ("ephemeral_1h_input_tokens", VInt 0) ]);
    ("cache_creation_input_tokens", VInt 549) ].

(** A nested block that sums to zero beside a negative legacy field. *)
Definition nested_zero_legacy_negative : pydict :=
  [ ("cache_creation",
      VDict [ ("ephemeral_5m_input_tokens", VInt 0);
              ("ephemeral_1h_input_tokens", VInt 0) ]);
    ("cache_creation_input_tokens", VInt (-5)) ].
End UtilsExamples.

Module HeaderExamples.
Definition x_h_abc : HeaderRules.headers := [("X-H", "abc")].

(** [{"replace_value": {"X-H": {"search": "a"}}}]: the entry has no
    [replace]. *)
Definition rules_missing_replace : PyVal :=
  VDict [("replace_value", VDict [("X-H", VDict [("search", VStr "a")])])].

(** [{"replace_value": {"X-H": {"search": "[", "regex": true}}}]. *)
Definition rules_bad_regex_no_replace : PyVal :=
  VDict [("replace_value",
           VDict [("X-H", VDict [("search", VStr "["); ("regex", VBool true)])])].

(** [{"search": "[", "replace": "y", "regex": true}]. *)
Definition entry_bad_regex : pydict :=
  [("search", VStr "["); ("replace", VStr "y"); ("regex", VBool true)].

(** [{"replace_value": {"X-H": {"search": "[", "replace": "y", "regex": true}}}]. *)
Definition rules_bad_regex : PyVal :=
  VDict [("replace_value", VDict [("X-H", VDict entry_bad_regex)])].


(** [{"A": "1", "B": "2"}]. *)
Definition a_b : HeaderRules.headers := [("A", "1"); ("B", "2")].
End HeaderExamples.

Module ModelCacheExamples.
Import ModelCache.

Definition mk_provider (id : string) : Provider :=
  {| provider_id := id; provider_is_active := true |}.

Definition mk_model (id provider global_model name : string) (aliases : PyVal) : Model :=
  {| model_id := id;
     model_provider_id := provider;
     model_global_model_id := global_model;
     provider_model_name := name;
     provider_model_aliases := aliases;
     model_is_active := VBool true;
     is_available := VBool true;
     price_per_request := VNone;
     tiered_pricing := VNone;
     supports_vision := VNone;
     supports_function_calling := VNone;
     supports_streaming := VNone;
     supports_extended_thinking := VNone;
     supports_image_generation := VNone;
     config := VNone |}.

Definition mk_global_model (id name : string) : GlobalModel :=
  {| gm_id := id;
     gm_name := name;
     display_name := VStr name;
     default_supports_vision := VBool false;
     default_supports_function_calling := VBool false;
     default_supports_streaming := VBool true;
     default_supports_extended_thinking := VBool false;
     default_supports_image_generation := VBool false;
     supported_capabilities := VList [];
     gm_is_active := VBool true;
     description := VNone |}.

Definition model_a : GlobalModel := mk_global_model "ga" "model-a".
Definition model_b : GlobalModel := mk_global_model "gb" "model-b".

(** Two active Models of two Providers, both with the alias ["dup"]; the
    one of ["model-b"] comes first in the store. *)
Definition dup_db (jsonb : bool) : Db :=
  {| providers := [mk_provider "p1"; mk_provider "p2"];
     models :=
       [ mk_model "m1" "p1" "gb" "b-upstream" (VList [VDict [("name", VStr "dup")]]);
         mk_model "m2" "p2" "ga" "a-upstream" (VList [VDict [("name", VStr "dup")]]) ];
     global_models := [model_b; model_a];
     jsonb_supported := jsonb |}.

Definition empty_db : Db :=
  {| providers := []; models := []; global_models := []; jsonb_supported := true |}.

Definition fresh : state := {| cache := ∅; trace := [] |}.

(** The sentinel of an earlier miss under the resolve key of ["dup"]. *)
Definition sentinel_cached : state :=
  {| cache := {["global_model:resolve:dup" := VStr "NOT_FOUND"]}; trace := [] |}.

(** One active Model named ["foo"] whose alias list holds an entry with a
    number for a name. *)
Definition malformed_alias_db : Db :=
  {| providers := [mk_provider "p1"];
     models := [mk_model "m1" "p1" "ga" "foo" (VList [VDict [("name", VInt 5)]])];
     global_models := [model_a];
     jsonb_supported := true |}.

(** A snapshot of ["gpt-4"] written before [display_name], [description]
    and the capability defaults were part of it. *)
Definition partial_snapshot : PyVal :=
  VDict [("id", VStr "g4"); ("name", VStr "gpt-4");
         ("supported_capabilities", VList [])].

(** What the reconstructor makes of it. *)
Definition partial_model : GlobalModel :=
  {| gm_id := "g4";
     gm_name := "gpt-4";
     display_name := VNone;
     default_supports_vision := VBool false;
     default_supports_function_calling := VBool false;
     default_supports_streaming := VBool true;
     default_supports_extended_thinking := VBool false;
     default_supports_image_generation := VBool false;
     supported_capabilities := VList [];
     gm_is_active := VBool true;
     description := VNone |}.

Definition partial_cached : state :=
  {| cache := {["global_model:resolve:gpt-4" := partial_snapshot]}; trace := [] |}.

(** A snapshot with [supported_capabilities] and without [id]. *)
Definition no_id_cached : state :=
  {| cache :=
       {["global_model:resolve:gpt-4" :=
           VDict [("name", VStr "gpt-4"); ("supported_capabilities", VList [])]]};
     trace := [] |}.

(** A snapshot without [supported_capabilities]. *)
Definition stale_snapshot : PyVal :=
  VDict [("id", VStr "ga"); ("name", VStr "model-old")].

Definition stale_cached : state :=
  {| cache := {["global_model:resolve:dup" := stale_snapshot]}; trace := [] |}.
End ModelCacheExamples.

Module MoreExamples.
(** The payload of [test_flat_new_format_with_old_format_fallback]. *)
Definition flat_zero_legacy_549 : pydict :=
  [ ("claude_cache_creation_5_m_tokens", VInt 0);
    ("claude_cache_creation_1_h_tokens", VInt 0);
    ("cache_creation_input_tokens", VInt 549) ].

(** The payload of [test_flat_new_format_still_works]. *)
Definition flat_100_200 : pydict :=
  [ ("claude_cache_creation_5_m_tokens", VInt 100);
    ("claude_cache_creation_1_h_tokens", VInt 200) ].

(** A nested block with an explicit null beside a legacy field. *)
Definition nested_null_legacy : pydict :=
  [ ("cache_creation", VDict [("ephemeral_5m_input_tokens", VNone)]);
    ("cache_creation_input_tokens", VInt 5) ].

(** The argument of [test_merge_extra_headers]. *)
Definition sse_extra : list (string * string) :=
  [("X-Test", "1"); ("Cache-Control", "custom")].

(** Rules with an [add] map and a [remove] list, and legacy headers. *)
Definition rules_add_remove : pydict :=
  [ ("remove", VList [VStr "x"]);
    ("add", VDict [("X-A", VStr "0"); ("X-B", VStr "2")]) ].

Definition legacy_x_a : HeaderRules.headers := [("X-A", "1")].

(** Rules whose [add] is null. *)
Definition rules_add_null : pydict := [("add", VNone)].

(** The alias list [[{"name": "y"}]] and a cache that holds a sentinel
    under the resolve key of ["y"] and a snapshot under another key. *)
Definition aliases_y : PyVal := VList [VDict [("name", VStr "y")]].

Definition cache_y : gmap string PyVal :=
  {[ "global_model:resolve:y" := VStr "NOT_FOUND";
     "global_model:id:g4" := ModelCacheExamples.partial_snapshot ]}.

(** An alias list whose second entry has a number for a name. *)
Definition aliases_malformed : PyVal :=
  VList [VDict [("name", VStr "y")]; VDict [("name", VInt 5)]].





(** A GlobalModel with one capability. *)
Definition model_vision : ModelCache.GlobalModel :=
  {| ModelCache.gm_id := "gv";
     ModelCache.gm_name := "model-v";
     ModelCache.display_name := VStr "Model V";
     ModelCache.default_supports_vision := VBool true;
     ModelCache.default_supports_function_calling := VBool false;
     ModelCache.default_supports_streaming := VBool true;
     ModelCache.default_supports_extended_thinking := VBool false;
     ModelCache.default_supports_image_generation := VBool false;
     ModelCache.supported_capabilities := VList [VStr "vision"];
     ModelCache.gm_is_active := VBool true;
     ModelCache.description := VNone |}.
End MoreExamples.

(** * Properties *)

#[local] Open Scope list_scope.

(** ** Dictionaries and folds *)

Section DictFacts.
Context {K V : Type} `{EqDecision K}.
Implicit Types (k : K) (v : V) (d : list (K * V)).

Lemma dict_get_set_eq k v d : dict_get k (dict_set k v d) = Some v.
Proof.
  induction d as [|[k' v'] d IH]; simpl.
  - rewrite bool_decide_eq_true_2; done.
  - destruct (bool_decide (k' = k)) eqn:E; simpl; rewrite E; done.
Qed.

Lemma dict_get_set_ne k k' v d :
  k <> k' -> dict_get k' (dict_set k v d) = dict_get k' d.
Proof.
  intros Hne. induction d as [|[k0 v0] d IH]; simpl.
  - rewrite bool_decide_eq_false_2; done.
  - destruct (bool_decide (k0 = k)) eqn:E; simpl.
    + apply bool_decide_eq_true_1 in E. subst k0.
      rewrite bool_decide_eq_false_2; done.
    + rewrite IH. done.
Qed.


Lemma dict_get_del_ne k k' d :
  k <> k' -> dict_get k' (dict_del k d) = dict_get k' d.
Proof.
  intros Hne. induction d as [|[k0 v0] d IH]; simpl; [done |].
  destruct (bool_decide (k0 = k)) eqn:E; simpl.
  - apply bool_decide_eq_true_1 in E. subst k0.
    rewrite bool_decide_eq_false_2; done.
  - rewrite IH. done.
Qed.

Lemma length_dict_set_mem k v v' d :
  dict_get k d = Some v' -> List.length (dict_set k v d) = List.length d.
Proof.
  revert v'. induction d as [|[k0 v0] d IH]; simpl; [done |].
  intros v'. destruct (bool_decide (k0 = k)); simpl; [done |].
  intros Hg. erewrite IH; done.
Qed.

Lemma length_dict_del_mem k v d :
  dict_get k d = Some v -> S (List.length (dict_del k d)) = List.length d.
Proof.
  induction d as [|[k0 v0] d IH]; simpl; [done |].
  destruct (bool_decide (k0 = k)); simpl; [done |].
  intros Hg. rewrite IH; done.
Qed.

(** A key picked out of [d.keys()] is bound in [d]. *)
Lemma find_keys_bound (p : K -> bool) k d :
  List.find p (dict_keys d) = Some k -> exists v, dict_get k d = Some v.
Proof.
  induction d as [|[k0 v0] d IH]; simpl; [done |].
  destruct (p k0).
  - intros [= ->]. rewrite bool_decide_eq_true_2; eauto.
  - intros Hf. destruct (bool_decide (k0 = k)); eauto.
Qed.

End DictFacts.


(** ** The usage field extractor *)

Section UtilsFacts.
Context `{PyRuntime}.

(** The nested tier, once both of its fields coerce. *)
Lemma extract_nested usage cache_creation a b :
  dict_get "cache_creation" usage = Some (VDict cache_creation) ->
  py_int (dict_get_default "ephemeral_5m_input_tokens" (VInt 0) cache_creation) = Ok a ->
  py_int (dict_get_default "ephemeral_1h_input_tokens" (VInt 0) cache_creation) = Ok b ->
  Utils.extract_cache_creation_tokens usage =
    if 0 <? a + b then Ok (a + b)
    else res_bind (py_int (dict_get_default "cache_creation_input_tokens" (VInt 0) usage))
           (fun old_format => if 0 <? old_format then Ok old_format else Ok 0).
Proof.
  intros Hcc Ha Hb. unfold Utils.extract_cache_creation_tokens.
  rewrite Hcc, Ha. cbn [res_bind]. rewrite Hb. reflexivity.
Qed.
End UtilsFacts.

(** C5: when [usage.cache_creation] is a mapping and the sum of its two
    ephemeral fields, coerced by [int], is strictly positive, the extractor
    returns that sum, whatever the flat and legacy fields of [usage] hold. *)
Theorem extract_nested_positive `{PyRuntime} (usage cache_creation : pydict) (a b : Z) :
  dict_get "cache_creation" usage = Some (VDict cache_creation) ->
  py_int (dict_get_default "ephemeral_5m_input_tokens" (VInt 0) cache_creation) = Ok a ->
  py_int (dict_get_default "ephemeral_1h_input_tokens" (VInt 0) cache_creation) = Ok b ->
  0 < a + b ->
  Utils.extract_cache_creation_tokens usage = Ok (a + b).
Proof.
  intros Hcc Ha Hb Hpos.
  rewrite (extract_nested _ _ _ _ Hcc Ha Hb).
  destruct (Z.ltb_spec 0 (a + b)); [reflexivity | lia].
Qed.

Lemma extract_nested_positive_witness :
  @Utils.extract_cache_creation_tokens (AsciiRuntime.runtime false)
    UtilsExamples.nested_flat_legacy = Ok 300.
Proof.
  apply (@extract_nested_positive (AsciiRuntime.runtime false)
           UtilsExamples.nested_flat_legacy
           [ ("ephemeral_5m_input_tokens", VInt 100);
             ("ephemeral_1h_input_tokens", VInt 200) ] 100 200);
    [reflexivity | reflexivity | reflexivity | lia].
Defined.

(** C6, as the code has it: when [usage.cache_creation] is a mapping whose
    coerced sum is not strictly positive, the extractor returns the legacy
    field [cache_creation_input_tokens] (0 when absent) if it is strictly
    positive, and 0 otherwise; a legacy value that is not negative is
    therefore returned as it is. *)
Theorem extract_nested_fallback `{PyRuntime} (usage cache_creation : pydict) (a b z : Z) :
  dict_get "cache_creation" usage = Some (VDict cache_creation) ->
  py_int (dict_get_default "ephemeral_5m_input_tokens" (VInt 0) cache_creation) = Ok a ->
  py_int (dict_get_default "ephemeral_1h_input_tokens" (VInt 0) cache_creation) = Ok b ->
  a + b <= 0 ->
  py_int (dict_get_default "cache_creation_input_tokens" (VInt 0) usage) = Ok z ->
  Utils.extract_cache_creation_tokens usage = Ok (Z.max 0 z)
  /\ (0 <= z -> Utils.extract_cache_creation_tokens usage = Ok z).
Proof.
  intros Hcc Ha Hb Hsum Hz.
  rewrite (extract_nested _ _ _ _ Hcc Ha Hb), Hz. cbn [res_bind].
  destruct (Z.ltb_spec 0 (a + b)); [lia |].
  destruct (Z.ltb_spec 0 z); split; intros; f_equal; lia.
Qed.

Lemma extract_nested_fallback_witness :
  @Utils.extract_cache_creation_tokens (AsciiRuntime.runtime false)
    UtilsExamples.nested_zero_legacy_549 = Ok 549.
Proof.
  apply (@extract_nested_fallback (AsciiRuntime.runtime false)
           UtilsExamples.nested_zero_legacy_549
           [ ("ephemeral_5m_input_tokens", VInt 0);
             ("ephemeral_1h_input_tokens", VInt 0) ] 0 0 549);
    [reflexivity | reflexivity | reflexivity | lia | reflexivity | lia].
Defined.

(** The legacy field holds -5 beside a nested block that sums to zero: the
    extractor returns 0, not the -5 the field holds. *)
Lemma extract_nested_negative_legacy :
  dict_get "cache_creation" UtilsExamples.nested_zero_legacy_negative
    = Some (VDict [ ("ephemeral_5m_input_tokens", VInt 0);
                    ("ephemeral_1h_input_tokens", VInt 0) ])
  /\ @py_int (AsciiRuntime.runtime false)
       (dict_get_default "cache_creation_input_tokens" (VInt 0)
          UtilsExamples.nested_zero_legacy_negative) = Ok (-5)
  /\ @Utils.extract_cache_creation_tokens (AsciiRuntime.runtime false)
       UtilsExamples.nested_zero_legacy_negative = Ok 0
  /\ @Utils.extract_cache_creation_tokens (AsciiRuntime.runtime false)
       UtilsExamples.nested_zero_legacy_negative <> Ok (-5).
Proof. repeat split; try reflexivity; discriminate. Qed.

(** ** The header rule engine *)

Section HeaderFacts.
Context `{PyRuntime}.
Import HeaderRules.

Lemma lower_eq_refl k : lower_eq k k = true.
Proof. apply String.eqb_refl. Qed.

(** A mapping that is no [ReplaceValueRule] is kept as it is. *)
Lemma validate_rv_entry_kept e err :
  ReplaceValueRule_init e = Raise err -> validate_rv_entry (VDict e) = Ok (RvDict e).
Proof. intros He. unfold validate_rv_entry. rewrite He. reflexivity. Qed.

(** Rules made of one [replace_value] entry that is no [ReplaceValueRule]
    parse, to that entry kept as a mapping. *)
Lemma parse_single_kept name e err :
  ReplaceValueRule_init e = Raise err ->
  HeaderRules_init [("replace_value", VDict [(name, VDict e)])]
  = Ok {| add := None; remove := None; replace_name := None;
          replace_value := Some [(name, RvDict e)] |}.
Proof.
  intros He. pose proof (validate_rv_entry_kept _ _ He) as Hv.
  unfold HeaderRules_init.
  change (optional_field validate_str_dict "add" _) with (@Ok (option headers) None).
  change (optional_field validate_str_list "remove" _) with (@Ok (option (list string)) None).
  change (optional_field validate_str_dict "replace_name" _)
    with (@Ok (option headers) None).
  change (optional_field validate_rv_dict "replace_value" _)
    with (res_bind (rv_items [(name, VDict e)]) (fun x => Ok (Some x))).
  cbn [res_bind rv_items]. rewrite Hv. reflexivity.
Qed.

(** Step 3 builds the rule of such an entry once a header matches its
    name, and the failure is not handled. *)
Lemma apply_raises_on_kept_entry (hs : headers) name key e err :
  List.find (fun k => lower_eq k name) (dict_keys hs) = Some key ->
  ReplaceValueRule_init e = Raise err ->
  apply_header_rules hs (VDict [("replace_value", VDict [(name, VDict e)])]) = Raise err.
Proof.
  intros Hf He. unfold apply_header_rules, parse_rules. cbn [truthy negb].
  replace (existsb _ structural_keys) with true by reflexivity. cbn [negb].
  rewrite (parse_single_kept _ _ _ He). cbn [is_empty add remove replace_name
    replace_value nonempty orb negb].
  unfold run_rules. cbn [items add remove replace_name replace_value fold_left res_fold].
  unfold replace_value_one. rewrite Hf, He. reflexivity.
Qed.

(** C1 fails on the code: with a header named as the entry, an entry that
    lacks [replace] is kept as a plain mapping by the parser and only
    built into a [ReplaceValueRule] in step 3, outside the [try]: the
    [ValidationError] reaches the caller. *)
Theorem apply_raises_on_malformed_entry :
  apply_header_rules HeaderExamples.x_h_abc HeaderExamples.rules_missing_replace
  = Raise (ValidationError "replace: Field required").
Proof.
  apply (apply_raises_on_kept_entry _ "X-H" "X-H").
  - simpl. rewrite lower_eq_refl. reflexivity.
  - reflexivity.
Qed.

(** The loop of [validate_header_rules] compiles nothing of the entries
    kept as mappings. *)
Lemma check_regexes_mappings (rv : list (string * rv_entry)) :
  Forall (fun it => exists d, snd it = RvDict d) rv -> check_regexes rv = (true, None).
Proof.
  induction 1 as [|[name e] rv [d Hd] _ IH]; simpl; [reflexivity |].
  simpl in Hd. subst e. exact IH.
Qed.

Lemma validate_accepts_kept_entry name e err :
  ReplaceValueRule_init e = Raise err ->
  validate_header_rules (VDict [("replace_value", VDict [(name, VDict e)])]) = (true, None).
Proof.
  intros He. unfold validate_header_rules. rewrite (parse_single_kept _ _ _ He).
  apply check_regexes_mappings. repeat constructor. simpl. eauto.
Qed.

(** C3 fails on the code: an entry with [regex] true and a search string
    that is no regular expression, here ["["], and that lacks [replace] is
    kept as a plain mapping, which the loop of [validate_header_rules]
    skips: the outcome is success. *)
Theorem validate_accepts_bad_regex :
  validate_header_rules HeaderExamples.rules_bad_regex_no_replace = (true, None).
Proof.
  apply (validate_accepts_kept_entry "X-H" _ (ValidationError "replace: Field required")).
  reflexivity.
Qed.

(** Where pydantic keeps every mapping as a mapping, no entry is compiled:
    rules that parse are valid, the entry of the specification's example
    among them. *)
Lemma rv_items_mappings d l :
  (forall e, union_builds_model e = false) ->
  rv_items d = Ok l -> Forall (fun it => exists d', snd it = RvDict d') l.
Proof.
  intros Hu. revert l. induction d as [|[k v] d IH]; intros l; simpl.
  - intros [= <-]. constructor.
  - destruct (validate_rv_entry v) as [e|] eqn:Ev; simpl; [| discriminate].
    destruct (rv_items d) as [rest|]; simpl; [| discriminate].
    intros [= <-]. constructor; [| by apply IH].
    unfold validate_rv_entry, stored_as in Ev.
    destruct v; try discriminate. rewrite Hu in Ev.
    destruct (ReplaceValueRule_init d0); injection Ev as <-; simpl; eauto.
Qed.

Lemma validate_accepts_where_mappings_kept (d : pydict) hr :
  (forall e, union_builds_model e = false) ->
  HeaderRules_init d = Ok hr ->
  validate_header_rules (VDict d) = (true, None).
Proof.
  intros Hu Hi. unfold validate_header_rules. rewrite Hi.
  apply check_regexes_mappings.
  unfold HeaderRules_init in Hi.
  destruct (optional_field validate_str_dict "add" d); [| discriminate Hi].
  destruct (optional_field validate_str_list "remove" d); [| discriminate Hi].
  destruct (optional_field validate_str_dict "replace_name" d); [| discriminate Hi].
  cbn [res_bind] in Hi.
  destruct (optional_field validate_rv_dict "replace_value" d) as [rv|] eqn:Erv;
    [| discriminate Hi].
  injection Hi as <-. cbn [replace_value].
  unfold optional_field in Erv.
  destruct (dict_get "replace_value" d) as [v|]; [| injection Erv as <-; constructor].
  destruct v; try (injection Erv as <-; constructor); try discriminate Erv.
  cbn [validate_rv_dict] in Erv.
  destruct (rv_items d0) as [l|] eqn:El; [| discriminate Erv].
  injection Erv as <-. exact (rv_items_mappings _ _ Hu El).
Qed.

Lemma validate_accepts_bad_regex_full :
  (forall e, union_builds_model e = false) ->
  validate_header_rules HeaderExamples.rules_bad_regex = (true, None).
Proof.
  intros Hu. eapply validate_accepts_where_mappings_kept; [exact Hu | reflexivity].
Qed.
End HeaderFacts.

Section ReplaceValueFacts.
Context `{PyRuntime}.
Import HeaderRules.

Lemma validate_rv_entry_ok e rule :
  ReplaceValueRule_init e = Ok rule ->
  validate_rv_entry (VDict e) = Ok (stored_as e rule).
Proof. intros He. unfold validate_rv_entry. rewrite He. reflexivity. Qed.


(** The rule of an entry, as step 3 obtains it. *)
Lemma stored_rule e rule :
  ReplaceValueRule_init e = Ok rule ->
  match stored_as e rule with
  | RvDict d => ReplaceValueRule_init d
  | RvRule r => Ok r
  end = Ok rule.
Proof. intros He. unfold stored_as. destruct (union_builds_model e); done. Qed.







End ReplaceValueFacts.

Section ReplaceNameFacts.
Context `{PyRuntime}.
Import HeaderRules.

(** [apply] with a single [replace_name] pair is step 2 on that pair. *)
Lemma apply_single_replace_name (hs : headers) old_name new_name :
  apply_header_rules hs (VDict [("replace_name", VDict [(old_name, VStr new_name)])])
  = Ok (replace_name_one hs (old_name, new_name)).
Proof. reflexivity. Qed.

(** Step 4 leaves a header that is present as it is. *)
Lemma add_one_present (result : headers) key value other :
  dict_get key result = Some other -> add_one result (key, value) = result.
Proof. intros Hg. unfold add_one, dict_mem. rewrite Hg. reflexivity. Qed.
End ReplaceNameFacts.

(** C10: in step 2 of [apply], when the new name of a pair is the name of
    another header of the map, that header's value is replaced by the value
    of the renamed header and the map has one header less; step 4 on the
    same name would have left the present header as it is. *)
Theorem replace_name_overwrites_present `{PyRuntime}
  (result : HeaderRules.headers) (old_name new_name key value other : string) :
  List.find (fun k => HeaderRules.lower_eq k old_name) (dict_keys result) = Some key ->
  dict_get key result = Some value ->
  new_name <> key ->
  dict_get new_name result = Some other ->
  dict_get new_name (HeaderRules.replace_name_one result (old_name, new_name)) = Some value
  /\ S (List.length (HeaderRules.replace_name_one result (old_name, new_name)))
     = List.length result
  /\ HeaderRules.apply_header_rules result
       (VDict [("replace_name", VDict [(old_name, VStr new_name)])])
     = Ok (HeaderRules.replace_name_one result (old_name, new_name))
  /\ (forall v, HeaderRules.add_one result (new_name, v) = result).
Proof.
  intros Hf Hk Hne Hn. split; [| split; [| split]].
  - unfold HeaderRules.replace_name_one. rewrite Hf, Hk. apply dict_get_set_eq.
  - unfold HeaderRules.replace_name_one. rewrite Hf, Hk.
    rewrite (length_dict_set_mem new_name value other).
    + apply (length_dict_del_mem key value), Hk.
    + rewrite dict_get_del_ne by congruence. exact Hn.
  - apply apply_single_replace_name.
  - intros v. apply (add_one_present _ _ _ _ Hn).
Qed.

(** [apply({"A": "1", "B": "2"}, {"replace_name": {"a": "B"}}) = {"B": "1"}]. *)
Lemma replace_name_overwrites_present_witness :
  @HeaderRules.apply_header_rules (AsciiRuntime.runtime false) HeaderExamples.a_b
    (VDict [("replace_name", VDict [("a", VStr "B")])])
  = Ok [("B", "1")].
Proof.
  exact (proj1 (proj2 (proj2
    (@replace_name_overwrites_present (AsciiRuntime.runtime false)
       HeaderExamples.a_b "a" "B" "A" "1" "2"
       eq_refl eq_refl ltac:(discriminate) eq_refl)))).
Defined.

(** ** The model resolver *)

(** Both reads miss: the cache read and the datastore query are the only
    effects, and the trace is that of the two, in order. *)
Ltac miss_path Hc Hd :=
  unfold ModelCache.get_model_by_id, ModelCache.get_global_model_by_id,
    ModelCache.get_global_model_by_name,
    ModelCache.get_model_by_provider_and_global_model,
    ModelCache.cache_get, ModelCache.db_first;
  rewrite Hc, Hd; unfold ModelCache.emit; simpl;
  rewrite <- app_assoc; reflexivity.

(** C8: each of the four point lookups, when the cache has nothing true
    under its key and the datastore has no such row, returns [None] and
    leaves the cache as it was; its only effects are the cache read and the
    datastore query. *)
Theorem lookups_do_not_cache_a_miss `{CacheTTL}
  (db : ModelCache.Db) (st : ModelCache.state) :
  (forall id,
      truthy (default VNone (ModelCache.cache st !! ("model:id:" ++ id)%string)) = false ->
      List.find (fun m => String.eqb (ModelCache.model_id m) id) (ModelCache.models db) = None ->
      ModelCache.get_model_by_id db id st
      = (Ok None,
         {| ModelCache.cache := ModelCache.cache st;
            ModelCache.trace :=
              ModelCache.trace st
              ++ [ModelCache.CacheGet ("model:id:" ++ id)%string;
                  ModelCache.DbQuery (ModelCache.QModelById id)] |}))
  /\ (forall id,
      truthy (default VNone (ModelCache.cache st !! ("global_model:id:" ++ id)%string)) = false ->
      List.find (fun g => String.eqb (ModelCache.gm_id g) id) (ModelCache.global_models db)
        = None ->
      ModelCache.get_global_model_by_id db id st
      = (Ok None,
         {| ModelCache.cache := ModelCache.cache st;
            ModelCache.trace :=
              ModelCache.trace st
              ++ [ModelCache.CacheGet ("global_model:id:" ++ id)%string;
                  ModelCache.DbQuery (ModelCache.QGlobalModelById id)] |}))
  /\ (forall name,
      truthy (default VNone (ModelCache.cache st !! ("global_model:name:" ++ name)%string))
        = false ->
      List.find (fun g => String.eqb (ModelCache.gm_name g) name) (ModelCache.global_models db)
        = None ->
      ModelCache.get_global_model_by_name db name st
      = (Ok None,
         {| ModelCache.cache := ModelCache.cache st;
            ModelCache.trace :=
              ModelCache.trace st
              ++ [ModelCache.CacheGet ("global_model:name:" ++ name)%string;
                  ModelCache.DbQuery (ModelCache.QGlobalModelByName name)] |}))
  /\ (forall provider global_model,
      truthy (default VNone
                (ModelCache.cache st
                   !! ("model:provider_global:" ++ provider ++ ":" ++ global_model)%string))
        = false ->
      List.find (fun m => String.eqb (ModelCache.model_provider_id m) provider
                          && String.eqb (ModelCache.model_global_model_id m) global_model
                          && ModelCache.is_true (ModelCache.model_is_active m))
        (ModelCache.models db) = None ->
      ModelCache.get_model_by_provider_and_global_model db provider global_model st
      = (Ok None,
         {| ModelCache.cache := ModelCache.cache st;
            ModelCache.trace :=
              ModelCache.trace st
              ++ [ModelCache.CacheGet
                    ("model:provider_global:" ++ provider ++ ":" ++ global_model)%string;
                  ModelCache.DbQuery
                    (ModelCache.QModelByProviderAndGlobal provider global_model)] |})).
Proof.
  repeat split; intros * Hc Hd; miss_path Hc Hd.
Qed.

Lemma lookups_do_not_cache_a_miss_witness :
  @ModelCache.get_model_by_id AsciiRuntime.ttl
    ModelCacheExamples.empty_db "m1" ModelCacheExamples.fresh
  = (Ok None,
     {| ModelCache.cache := ∅;
        ModelCache.trace :=
          [ModelCache.CacheGet "model:id:m1";
           ModelCache.DbQuery (ModelCache.QModelById "m1")] |})
  /\ @ModelCache.get_global_model_by_id AsciiRuntime.ttl
       ModelCacheExamples.empty_db "g1" ModelCacheExamples.fresh
     = (Ok None,
        {| ModelCache.cache := ∅;
           ModelCache.trace :=
             [ModelCache.CacheGet "global_model:id:g1";
              ModelCache.DbQuery (ModelCache.QGlobalModelById "g1")] |})
  /\ @ModelCache.get_global_model_by_name AsciiRuntime.ttl
       ModelCacheExamples.empty_db "gpt-4" ModelCacheExamples.fresh
     = (Ok None,
        {| ModelCache.cache := ∅;
           ModelCache.trace :=
             [ModelCache.CacheGet "global_model:name:gpt-4";
              ModelCache.DbQuery (ModelCache.QGlobalModelByName "gpt-4")] |})
  /\ @ModelCache.get_model_by_provider_and_global_model AsciiRuntime.ttl
       ModelCacheExamples.empty_db "p1" "g1" ModelCacheExamples.fresh
     = (Ok None,
        {| ModelCache.cache := ∅;
           ModelCache.trace :=
             [ModelCache.CacheGet "model:provider_global:p1:g1";
              ModelCache.DbQuery (ModelCache.QModelByProviderAndGlobal "p1" "g1")] |}).
Proof.
  pose proof (@lookups_do_not_cache_a_miss AsciiRuntime.ttl
                ModelCacheExamples.empty_db ModelCacheExamples.fresh)
    as (H1 & H2 & H3 & H4).
  split; [| split; [| split]].
  - exact (H1 "m1" eq_refl eq_refl).
  - exact (H2 "g1" eq_refl eq_refl).
  - exact (H3 "gpt-4" eq_refl eq_refl).
  - exact (H4 "p1" "g1" eq_refl eq_refl).
Defined.

(** C9: a name that is empty once stripped resolves to [None] at once: the
    state, that is the cache and the trace of cache reads, cache writes,
    datastore queries and metrics, is the one the call started from. *)
Theorem resolve_empty_name_is_pure `{PyRuntime} `{CacheTTL}
  (db : ModelCache.Db) (model_name : string) (st : ModelCache.state) :
  str_strip model_name = EmptyString ->
  ModelCache.resolve_global_model_by_name_or_alias db model_name st = (Ok None, st).
Proof.
  intros Hs. unfold ModelCache.resolve_global_model_by_name_or_alias.
  rewrite Hs. reflexivity.
Qed.

Lemma resolve_empty_name_is_pure_witness :
  @ModelCache.resolve_global_model_by_name_or_alias
    (AsciiRuntime.runtime false) AsciiRuntime.ttl
    (ModelCacheExamples.dup_db true) "   " ModelCacheExamples.partial_cached
  = (Ok None, ModelCacheExamples.partial_cached).
Proof.
  exact (@resolve_empty_name_is_pure (AsciiRuntime.runtime false) AsciiRuntime.ttl
           (ModelCacheExamples.dup_db true) "   " ModelCacheExamples.partial_cached eq_refl).
Defined.

Section ResolveFacts.
Context `{PyRuntime} `{CacheTTL}.
Import ModelCache.

(** The rows the candidate query returns do not depend on the state. *)
Lemma query_rows_state db n st st' :
  fst (query_rows db n st) = fst (query_rows db n st').
Proof. unfold query_rows. destruct (jsonb_supported db); reflexivity. Qed.

(** The datastore stage reads nothing of the cache: from two states with
    the same trace it gives the same value, the same locals and the same
    trace, and its first effect is the candidate query. *)
Lemma resolve_from_db_cache db n key st st' :
  trace st = trace st' ->
  exists r method hit out out' rest,
    resolve_from_db db n key st = (r, method, hit, out)
    /\ resolve_from_db db n key st' = (r, method, hit, out')
    /\ trace out = trace out'
    /\ trace out = trace st ++ DbQuery (QJoinedByNameOrAlias n) :: rest.
Proof.
  intros Ht. unfold resolve_from_db, query_rows.
  destruct (jsonb_supported db);
    (destruct (res_fold _ _ _) as [d|e];
     [ destruct (sort _) as [|[g m] l] eqn:Hs;
       [ unfold db_first; destruct (List.find _ _)
       | destruct (_ && _) ]
     | ]);
    do 6 eexists; (split; [reflexivity |]); (split; [reflexivity |]);
    unfold cache_set, emit; simpl; rewrite <- Ht;
    (split; [reflexivity |]);
    repeat rewrite <- app_assoc; simpl; reflexivity.
Qed.

(** A mapping without [supported_capabilities], and a key with nothing
    true under it, both send [resolve_try] to the datastore stage. *)
Lemma resolve_try_reaches_db db n key st :
  (truthy (default VNone (cache st !! key)) = false
   \/ schema_stale (default VNone (cache st !! key)) = true) ->
  resolve_try db n key st = resolve_from_db db n key (emit (CacheGet key) st).
Proof.
  intros Hc. unfold resolve_try, cache_get.
  destruct (truthy _) eqn:Ht; [| reflexivity].
  destruct Hc as [Hc | Hc]; [discriminate |]. rewrite Hc.
  destruct (default VNone (cache st !! key)); try discriminate. reflexivity.
Qed.
End ResolveFacts.

(** C2 fails as stated: the snapshot under the resolve key has no
    [display_name], no [description] and no capability default, fields the
    reconstructor reads, yet it is returned from the cache and the datastore
    is not queried. *)
Lemma partial_snapshot_is_trusted :
  ModelCache.cache ModelCacheExamples.partial_cached !! "global_model:resolve:gpt-4"
    = Some ModelCacheExamples.partial_snapshot
  /\ ModelCache.get "display_name" (VStr "absent") ModelCacheExamples.partial_snapshot
     = VStr "absent"
  /\ fst (@ModelCache.resolve_global_model_by_name_or_alias
            (AsciiRuntime.runtime false) AsciiRuntime.ttl
            (ModelCacheExamples.dup_db true) "gpt-4" ModelCacheExamples.partial_cached)
     = Ok (Some ModelCacheExamples.partial_model)
  /\ ModelCache.trace
       (snd (@ModelCache.resolve_global_model_by_name_or_alias
               (AsciiRuntime.runtime false) AsciiRuntime.ttl
               (ModelCacheExamples.dup_db true) "gpt-4" ModelCacheExamples.partial_cached))
     = [ ModelCache.CacheGet "global_model:resolve:gpt-4";
         ModelCache.ResolutionInc "direct_match" true;
         ModelCache.DurationObserve "direct_match" ].
Proof. repeat split; vm_compute; reflexivity. Qed.

(** C2, as the code has it: the staleness probe looks for one field,
    [supported_capabilities]. A cached mapping under the resolve key that
    lacks it is treated as a miss: the call gives the value and performs the
    effects it would with nothing under the key, the first of them after the
    cache read being the candidate query to the datastore. A cached mapping
    that has it is never a miss, whatever else it lacks: the cache is left
    as it is and the effects are the cache read and the two metrics of a
    [direct_match] cache hit, without a datastore query; without [id], or
    with [id] and without [name], the call raises [KeyError], and with both
    it returns the GlobalModel rebuilt from the mapping, every other missing
    field taking the default of the reconstructor. *)
Theorem resolve_on_cached_snapshot `{PyRuntime} `{CacheTTL}
  (db : ModelCache.Db) (model_name : string) (st : ModelCache.state) (d : pydict) :
  str_strip model_name <> EmptyString ->
  ModelCache.cache st !! ("global_model:resolve:" ++ str_strip model_name)%string
    = Some (VDict d) ->
  let key := ("global_model:resolve:" ++ str_strip model_name)%string in
  let absent :=
    {| ModelCache.cache := delete key (ModelCache.cache st);
       ModelCache.trace := ModelCache.trace st |} in
  let out := ModelCache.resolve_global_model_by_name_or_alias db model_name st in
  (dict_mem "supported_capabilities" d = false ->
   fst out = fst (ModelCache.resolve_global_model_by_name_or_alias db model_name absent)
   /\ ModelCache.trace (snd out)
      = ModelCache.trace
          (snd (ModelCache.resolve_global_model_by_name_or_alias db model_name absent))
   /\ exists rest,
        ModelCache.trace (snd out)
        = ModelCache.trace st
          ++ ModelCache.CacheGet key
          :: ModelCache.DbQuery (ModelCache.QJoinedByNameOrAlias (str_strip model_name))
          :: rest)
  /\ (dict_mem "supported_capabilities" d = true ->
      snd out
      = {| ModelCache.cache := ModelCache.cache st;
           ModelCache.trace :=
             ModelCache.trace st
             ++ [ ModelCache.CacheGet key;
                  ModelCache.ResolutionInc "direct_match" true;
                  ModelCache.DurationObserve "direct_match" ] |}
      /\ (dict_get "id" d = None -> fst out = Raise (KeyError "id"))
      /\ (forall id,
            dict_get "id" d = Some (VStr id) -> dict_get "name" d = None ->
            fst out = Raise (KeyError "name"))
      /\ forall id name,
           dict_get "id" d = Some (VStr id) -> dict_get "name" d = Some (VStr name) ->
           fst out
           = Ok (Some
                   {| ModelCache.gm_id := id;
                      ModelCache.gm_name := name;
                      ModelCache.display_name := dict_get_default "display_name" VNone d;
                      ModelCache.default_supports_vision :=
                        dict_get_default "default_supports_vision" (VBool false) d;
                      ModelCache.default_supports_function_calling :=
                        dict_get_default "default_supports_function_calling" (VBool false) d;
                      ModelCache.default_supports_streaming :=
                        dict_get_default "default_supports_streaming" (VBool true) d;
                      ModelCache.default_supports_extended_thinking :=
                        dict_get_default "default_supports_extended_thinking" (VBool false) d;
                      ModelCache.default_supports_image_generation :=
                        dict_get_default "default_supports_image_generation" (VBool false) d;
                      ModelCache.supported_capabilities :=
                        (if truthy (dict_get_default "supported_capabilities" VNone d)
                         then dict_get_default "supported_capabilities" VNone d
                         else VList []);
                      ModelCache.gm_is_active := dict_get_default "is_active" (VBool true) d;
                      ModelCache.description := dict_get_default "description" VNone d |})).
Proof.
  intros Hn Hc key absent out. split.
  - intros Hd. unfold out.
    unfold ModelCache.resolve_global_model_by_name_or_alias.
    destruct (String.eqb_spec (str_strip model_name) EmptyString) as [He | _]; [done |].
    fold key.
    rewrite (resolve_try_reaches_db db _ key st).
    2: { right. fold key in Hc. rewrite Hc. simpl. rewrite Hd. reflexivity. }
    rewrite (resolve_try_reaches_db db _ key absent).
    2: { left. unfold absent. simpl. rewrite lookup_delete_eq. reflexivity. }
    destruct (resolve_from_db_cache db (str_strip model_name) key
                (ModelCache.emit (ModelCache.CacheGet key) st)
                (ModelCache.emit (ModelCache.CacheGet key) absent) eq_refl)
      as (r & method & hit & out1 & out2 & rest & E1 & E2 & Et & Erest).
    rewrite E1, E2. simpl. rewrite <- Et. repeat split.
    exists (rest ++ [ModelCache.ResolutionInc method hit; ModelCache.DurationObserve method]).
    rewrite Erest. simpl. repeat rewrite <- app_assoc. simpl. reflexivity.
  - intros Hd.
    assert (Hout : out
                   = (res_bind (ModelCache._dict_to_global_model (VDict d))
                        (fun g => Ok (Some g)),
                      ModelCache.emit (ModelCache.DurationObserve "direct_match")
                        (ModelCache.emit (ModelCache.ResolutionInc "direct_match" true)
                           (ModelCache.emit (ModelCache.CacheGet key) st)))).
    { unfold out, ModelCache.resolve_global_model_by_name_or_alias.
      destruct (String.eqb_spec (str_strip model_name) EmptyString) as [He | _]; [done |].
      fold key. unfold ModelCache.resolve_try, ModelCache.cache_get.
      fold key in Hc. rewrite Hc. change (default VNone (Some (VDict d))) with (VDict d).
      assert (Ht : truthy (VDict d) = true).
      { destruct d; [discriminate Hd | reflexivity]. }
      rewrite Ht. cbn [ModelCache.is_not_found ModelCache.schema_stale].
      rewrite Hd. reflexivity. }
    rewrite Hout. cbn [fst snd]. split; [| split; [| split]].
    + unfold ModelCache.emit. cbn [ModelCache.cache ModelCache.trace].
      by rewrite <- !app_assoc.
    + intros Hid. unfold ModelCache._dict_to_global_model, ModelCache.item.
      rewrite Hid. reflexivity.
    + intros id Hid Hname. unfold ModelCache._dict_to_global_model, ModelCache.item.
      rewrite Hid, Hname. reflexivity.
    + intros id name Hid Hname. unfold ModelCache._dict_to_global_model, ModelCache.item.
      rewrite Hid, Hname. reflexivity.
Qed.

(** A snapshot without [supported_capabilities] under the key of ["dup"] is
    passed over for the datastore; the snapshot with the field and without
    [display_name] is rebuilt with the defaults; the snapshot with the field
    and without [id] makes the call raise. *)
Lemma resolve_on_cached_snapshot_witness :
  fst (@ModelCache.resolve_global_model_by_name_or_alias
         (AsciiRuntime.runtime false) AsciiRuntime.ttl
         (ModelCacheExamples.dup_db true) "dup" ModelCacheExamples.stale_cached)
  = fst (@ModelCache.resolve_global_model_by_name_or_alias
           (AsciiRuntime.runtime false) AsciiRuntime.ttl
           (ModelCacheExamples.dup_db true) "dup"
           {| ModelCache.cache :=
                delete "global_model:resolve:dup"
                  (ModelCache.cache ModelCacheExamples.stale_cached);
              ModelCache.trace := [] |})
  /\ fst (@ModelCache.resolve_global_model_by_name_or_alias
            (AsciiRuntime.runtime false) AsciiRuntime.ttl
            (ModelCacheExamples.dup_db true) "gpt-4" ModelCacheExamples.partial_cached)
     = Ok (Some ModelCacheExamples.partial_model)
  /\ fst (@ModelCache.resolve_global_model_by_name_or_alias
            (AsciiRuntime.runtime false) AsciiRuntime.ttl
            (ModelCacheExamples.dup_db true) "gpt-4" ModelCacheExamples.no_id_cached)
     = Raise (KeyError "id").
Proof.
  split; [| split].
  - exact (proj1 (proj1 (@resolve_on_cached_snapshot
                           (AsciiRuntime.runtime false) AsciiRuntime.ttl
                           (ModelCacheExamples.dup_db true) "dup"
                           ModelCacheExamples.stale_cached
                           [("id", VStr "ga"); ("name", VStr "model-old")]
                           ltac:(discriminate) eq_refl) eq_refl)).
  - exact (proj2 (proj2 (proj2 (proj2 (@resolve_on_cached_snapshot
                           (AsciiRuntime.runtime false) AsciiRuntime.ttl
                           (ModelCacheExamples.dup_db true) "gpt-4"
                           ModelCacheExamples.partial_cached
                           [("id", VStr "g4"); ("name", VStr "gpt-4");
                            ("supported_capabilities", VList [])]
                           ltac:(discriminate) eq_refl) eq_refl)))
             "g4" "gpt-4" eq_refl eq_refl).
  - exact (proj1 (proj2 (proj2 (@resolve_on_cached_snapshot
                           (AsciiRuntime.runtime false) AsciiRuntime.ttl
                           (ModelCacheExamples.dup_db true) "gpt-4"
                           ModelCacheExamples.no_id_cached
                           [("name", VStr "gpt-4"); ("supported_capabilities", VList [])]
                           ltac:(discriminate) eq_refl) eq_refl))
             eq_refl).
Defined.

(** *** The order of strings and of sort keys *)

Lemma ascii_compare_lt_trans (a b c : ascii) :
  Ascii.compare a b = Lt -> Ascii.compare b c = Lt -> Ascii.compare a c = Lt.
Proof.
  unfold Ascii.compare. rewrite !N.compare_lt_iff. intros. etransitivity; eassumption.
Qed.

Lemma string_compare_lt_trans (a b c : string) :
  String.compare a b = Lt -> String.compare b c = Lt -> String.compare a c = Lt.
Proof.
  revert b c. induction a as [|x a IH]; intros [|y b] [|z c]; simpl; try done.
  destruct (Ascii.compare x y) eqn:Exy; try done.
  - apply Ascii.compare_eq_iff in Exy. subst y.
    destruct (Ascii.compare x z); try done. apply IH.
  - destruct (Ascii.compare y z) eqn:Eyz; try done.
    + apply Ascii.compare_eq_iff in Eyz. subst z. rewrite Exy. done.
    + rewrite (ascii_compare_lt_trans _ _ _ Exy Eyz). done.
Qed.

Lemma string_compare_refl (a : string) : String.compare a a = Eq.
Proof.
  pose proof (String.compare_antisym a a) as Ha.
  destruct (String.compare a a); simpl in Ha; congruence.
Qed.

Lemma string_ltb_irrefl (a : string) : String.ltb a a = false.
Proof. unfold String.ltb. rewrite string_compare_refl. reflexivity. Qed.

(** If [a < c] then any [b] is above [a] or below [c]. *)
Lemma string_ltb_cotrans (a b c : string) :
  String.ltb a c = true -> String.ltb a b = true \/ String.ltb b c = true.
Proof.
  unfold String.ltb. destruct (String.compare a c) eqn:Eac; try done. intros _.
  destruct (String.compare a b) eqn:Eab; [| by left |].
  - apply String.compare_eq_iff in Eab. subst b. rewrite Eac. by right.
  - right. rewrite String.compare_antisym in Eab.
    destruct (String.compare b a) eqn:Eba; try done.
    rewrite (string_compare_lt_trans _ _ _ Eba Eac). done.
Qed.

Lemma string_ltb_asym (a b : string) : String.ltb a b = true -> String.ltb b a = false.
Proof.
  unfold String.ltb. rewrite (String.compare_antisym b a).
  destruct (String.compare a b); done.
Qed.

Lemma string_ltb_false_leb (a b : string) : String.ltb a b = false -> String.leb b a = true.
Proof.
  unfold String.ltb, String.leb. rewrite (String.compare_antisym b a).
  destruct (String.compare a b); done.
Qed.

Section SortFacts.
Context `{PyRuntime} `{CacheTTL}.
Import ModelCache.

Lemma key_lt_irrefl k : key_lt k k = false.
Proof.
  unfold key_lt. rewrite Z.ltb_irrefl, string_ltb_irrefl, andb_false_r. reflexivity.
Qed.

Lemma key_lt_asym a b : key_lt a b = true -> key_lt b a = false.
Proof.
  unfold key_lt. destruct a as [ra na], b as [rb nb]. simpl.
  rewrite orb_true_iff, andb_true_iff, Z.ltb_lt, Z.eqb_eq.
  intros [Hlt | [-> Hn]].
  - destruct (Z.ltb_spec rb ra); [lia |]. destruct (Z.eqb_spec rb ra); [lia | done].
  - rewrite Z.ltb_irrefl, (string_ltb_asym _ _ Hn), andb_false_r. done.
Qed.

Lemma key_lt_cotrans a b c :
  key_lt a c = true -> key_lt a b = true \/ key_lt b c = true.
Proof.
  unfold key_lt. destruct a as [ra na], b as [rb nb], c as [rc nc]. simpl.
  rewrite !orb_true_iff, !andb_true_iff, !Z.ltb_lt, !Z.eqb_eq.
  intros [Hlt | [Heq Hn]].
  - destruct (Z.lt_trichotomy ra rb) as [? | [? | ?]]; [tauto | | right; left; lia].
    right. left. lia.
  - subst rc. destruct (Z.lt_trichotomy ra rb) as [? | [? | ?]]; [tauto | | tauto].
    subst rb. destruct (string_ltb_cotrans _ nb _ Hn); tauto.
Qed.

Lemma in_insert_sorted x y l : In y (insert_sorted x l) <-> y = x \/ In y l.
Proof.
  induction l as [|z l IH]; simpl; [intuition congruence |].
  destruct (key_lt _ _); simpl; rewrite ?IH; intuition congruence.
Qed.

Lemma in_sort y l : In y (sort l) <-> In y l.
Proof.
  induction l as [|x l IH]; simpl; [tauto |].
  rewrite in_insert_sorted, IH. intuition congruence.
Qed.

(** The head of the sorted list has a key that none of the elements is
    below. *)
Lemma sort_head_least l h t :
  sort l = h :: t -> forall y, In y l -> key_lt (sort_key y) (sort_key h) = false.
Proof.
  revert h t. induction l as [|x l IH]; intros h t Hs y Hy; [done |].
  simpl in Hs. destruct (sort l) as [|h0 t0] eqn:E.
  - assert (l = []) as ->.
    { destruct l as [|z l]; [done |]. exfalso.
      assert (In z (sort (z :: l))) as Hz by (apply in_sort; left; done).
      rewrite E in Hz. done. }
    simpl in Hs. injection Hs as <- <-. destruct Hy as [<- | []].
    apply key_lt_irrefl.
  - specialize (IH h0 t0 eq_refl). simpl in Hs.
    destruct (key_lt (sort_key h0) (sort_key x)) eqn:Ehx; injection Hs as <- <-.
    + destruct Hy as [<- | Hy]; [| by apply IH].
      by apply key_lt_asym.
    + destruct Hy as [<- | Hy]; [apply key_lt_irrefl |].
      destruct (key_lt (sort_key y) (sort_key x)) eqn:Eyx; [| done].
      destruct (key_lt_cotrans _ (sort_key h0) _ Eyx) as [C | C].
      * rewrite (IH y Hy) in C. done.
      * congruence.
Qed.

(** What "no key below" says of the match type and of the name. *)
Lemma key_not_below (g g' : GlobalModel) (mt mt' : string) :
  key_lt (sort_key (g', mt')) (sort_key (g, mt)) = false ->
  (mt' = "alias" -> mt = "alias")
  /\ ((mt = "alias" <-> mt' = "alias") -> String.leb (gm_name g) (gm_name g') = true).
Proof.
  unfold key_lt, sort_key. simpl.
  destruct (String.eqb_spec mt "alias") as [-> | Hm];
    destruct (String.eqb_spec mt' "alias") as [-> | Hm']; simpl;
    rewrite ?orb_false_iff; intros Hk.
  - split; [done |]. intros _. by apply string_ltb_false_leb.
  - split; [done |]. intros [Hc _]. exfalso. by apply Hm', Hc.
  - discriminate.
  - split; [done |]. intros _. by apply string_ltb_false_leb.
Qed.

Lemma in_candidates (d : matched_dict) (g : GlobalModel) (mt : string) :
  In (g, mt) (map (fun '(gm, match_type, _) => (gm, match_type)) (dict_values d))
  <-> exists key prio, In (key, (g, mt, prio)) d.
Proof.
  unfold dict_values. rewrite map_map, in_map_iff. split.
  - intros [[key [[g0 mt0] prio]] [[= <- <-] Hin]]. eauto.
  - intros (key & prio & Hin). exists (key, (g, mt, prio)). split; done.
Qed.
End SortFacts.

(** Once the datastore is reached and the loop leaves candidates, the value
    is a candidate whose sort key none of the candidates is below. *)
Lemma resolve_least_of_candidates `{PyRuntime} `{CacheTTL}
  (db : ModelCache.Db) (model_name : string) (st : ModelCache.state)
  (d : ModelCache.matched_dict) :
  str_strip model_name <> EmptyString ->
  (let cached :=
     default VNone
       (ModelCache.cache st !! ("global_model:resolve:" ++ str_strip model_name)%string) in
   truthy cached = false \/ ModelCache.schema_stale cached = true) ->
  res_fold (ModelCache.match_row (str_strip model_name))
    (fst (ModelCache.query_rows db (str_strip model_name) st)) [] = Ok d ->
  d <> [] ->
  exists key gm match_type priority,
    In (key, (gm, match_type, priority)) d
    /\ fst (ModelCache.resolve_global_model_by_name_or_alias db model_name st) = Ok (Some gm)
    /\ forall key' gm' match_type' priority',
         In (key', (gm', match_type', priority')) d ->
         (match_type' = "alias" -> match_type = "alias")
         /\ ((match_type = "alias" <-> match_type' = "alias") ->
             String.leb (ModelCache.gm_name gm) (ModelCache.gm_name gm') = true).
Proof.
  intros Hn Hc Hd Hne.
  unfold ModelCache.resolve_global_model_by_name_or_alias.
  destruct (String.eqb_spec (str_strip model_name) EmptyString) as [He | _]; [done |].
  rewrite (resolve_try_reaches_db db _ _ st Hc).
  unfold ModelCache.resolve_from_db.
  destruct (ModelCache.query_rows db (str_strip model_name) (ModelCache.emit _ st))
    as [rows st1] eqn:Eq.
  assert (rows = fst (ModelCache.query_rows db (str_strip model_name) st)) as ->.
  { rewrite (query_rows_state db _ st (ModelCache.emit
      (ModelCache.CacheGet ("global_model:resolve:" ++ str_strip model_name)%string) st)).
    rewrite Eq. reflexivity. }
  rewrite Hd.
  destruct (ModelCache.sort _) as [|[g mt] t] eqn:Es.
  - exfalso. destruct d as [|[key [[g0 mt0] p0]] d]; [done |].
    assert (In (g0, mt0) (ModelCache.sort
      (map (fun '(gm, match_type, _) => (gm, match_type))
         (dict_values ((key, (g0, mt0, p0)) :: d))))) as Hin.
    { apply in_sort. left. reflexivity. }
    rewrite Es in Hin. done.
  - assert (In (g, mt) (ModelCache.sort
      (map (fun '(gm, match_type, _) => (gm, match_type)) (dict_values d)))) as Hin.
    { rewrite Es. left. reflexivity. }
    apply in_sort, in_candidates in Hin. destruct Hin as (key & prio & Hin).
    exists key, g, mt, prio. split; [exact Hin |]. split; [reflexivity |].
    intros key' g' mt' prio' Hin'.
    apply key_not_below.
    apply (sort_head_least _ _ _ Es).
    apply in_candidates. eauto.
Qed.

(** *** The candidates and the rows *)

Section DictMembership.
Context {K V : Type} `{EqDecision K}.
Implicit Types (k : K) (v : V) (d : list (K * V)).

Lemma dict_get_in k v d : dict_get k d = Some v -> In (k, v) d.
Proof.
  induction d as [|[k0 v0] d IH]; simpl; [done |].
  destruct (bool_decide (k0 = k)) eqn:E.
  - apply bool_decide_eq_true_1 in E. intros [= ->]. left. congruence.
  - intros Hg. right. by apply IH.
Qed.

Lemma in_dict_set (e : K * V) k v d : In e (dict_set k v d) -> e = (k, v) \/ In e d.
Proof.
  induction d as [|[k0 v0] d IH]; simpl; [intuition congruence |].
  destruct (bool_decide (k0 = k)) eqn:E; simpl.
  - apply bool_decide_eq_true_1 in E. subst k0. intuition congruence.
  - intros [He | Hin]; [tauto |]. destruct (IH Hin); tauto.
Qed.

Lemma dict_mem_set_eq k v d : dict_mem k (dict_set k v d) = true.
Proof. unfold dict_mem. rewrite dict_get_set_eq. reflexivity. Qed.

Lemma dict_mem_set k k' v d : dict_mem k d = true -> dict_mem k (dict_set k' v d) = true.
Proof.
  destruct (decide (k' = k)) as [-> | Hne]; [intros _; apply dict_mem_set_eq |].
  unfold dict_mem. rewrite dict_get_set_ne; done.
Qed.
End DictMembership.

Section MatchFacts.
Context `{PyRuntime}.
Import ModelCache.

(** The shape of one step of the loop. *)
Lemma match_row_cases n d m g d' :
  match_row n d (m, g) = Ok d' ->
  exists hit,
    alias_hit n m = Ok hit
    /\ let k := (model_id m, gm_id g) in
       if hit then d' = dict_set k (g, "alias", 0) d
       else if String.eqb (provider_model_name m) n && negb (dict_mem k d)
            then d' = dict_set k (g, "provider_model_name", 1) d
            else d' = d.
Proof.
  unfold match_row. destruct (alias_hit n m) as [hit|]; [| discriminate].
  cbn [res_bind]. intros [= <-]. exists hit. split; [reflexivity |]. cbv zeta.
  destruct hit.
  - rewrite dict_get_set_eq. reflexivity.
  - unfold dict_mem.
    destruct (dict_get (model_id m, gm_id g) d) as [[[g0 mt0] p0]|]; simpl.
    + rewrite andb_false_r. destruct (negb _); [destruct (String.eqb _ _) |]; reflexivity.
    + rewrite andb_true_r. destruct (String.eqb _ _); reflexivity.
Qed.

Lemma match_row_from_rows n rows d m g d' :
  In (m, g) rows ->
  from_rows n rows d -> match_row n d (m, g) = Ok d' -> from_rows n rows d'.
Proof.
  intros Hin Hd Hm. destruct (match_row_cases _ _ _ _ _ Hm) as (hit & Ha & Hc).
  cbv zeta in Hc. intros k g' mt p He. destruct hit.
  - subst d'. apply in_dict_set in He as [[= -> -> -> ->] | He]; [| by eapply Hd].
    exists m. split; [done |]. split; [| by left].
    unfold row_matches. simpl. rewrite Ha. reflexivity.
  - destruct (String.eqb _ _ && _) eqn:E; subst d'; [| by eapply Hd].
    apply in_dict_set in He as [[= -> -> -> ->] | He]; [| by eapply Hd].
    exists m. split; [done |]. split; [| by right].
    unfold row_matches. simpl. rewrite Ha. apply andb_true_iff in E. tauto.
Qed.

Lemma match_rows_from_rows n all rows d d' :
  (forall row, In row rows -> In row all) ->
  from_rows n all d -> res_fold (match_row n) rows d = Ok d' -> from_rows n all d'.
Proof.
  revert d. induction rows as [|[m g] rows IH]; intros d Hsub Hd Hf; cbn [res_fold] in Hf.
  - injection Hf as <-. exact Hd.
  - destruct (match_row n d (m, g)) as [d1|] eqn:E; simpl in Hf; [| discriminate].
    apply (IH d1); [| | exact Hf].
    + intros row Hr. apply Hsub. by right.
    + eapply match_row_from_rows; [apply Hsub; by left | exact Hd | exact E].
Qed.

(** Keys stay, and an alias entry stays an alias entry. *)
Lemma match_row_mem n d row d' k :
  match_row n d row = Ok d' -> dict_mem k d = true -> dict_mem k d' = true.
Proof.
  destruct row as [m g]. intros Hm Hk.
  destruct (match_row_cases _ _ _ _ _ Hm) as (hit & _ & Hc). cbv zeta in Hc.
  destruct hit; [subst d'; by apply dict_mem_set |].
  destruct (_ && _); subst d'; [by apply dict_mem_set | done].
Qed.

Lemma match_row_alias_at n d row d' k :
  match_row n d row = Ok d' -> alias_at k d -> alias_at k d'.
Proof.
  destruct row as [m g]. intros Hm (g0 & p0 & Hk).
  destruct (match_row_cases _ _ _ _ _ Hm) as (hit & _ & Hc). cbv zeta in Hc.
  destruct hit.
  - subst d'. destruct (decide ((model_id m, gm_id g) = k)) as [<- | Hne].
    + exists g, 0. apply dict_get_set_eq.
    + exists g0, p0. rewrite dict_get_set_ne; done.
  - destruct (_ && _) eqn:E; subst d'; [| by exists g0, p0].
    apply andb_true_iff in E as [_ E]. apply negb_true_iff in E.
    destruct (decide ((model_id m, gm_id g) = k)) as [<- | Hne].
    + unfold dict_mem in E. rewrite Hk in E. discriminate.
    + exists g0, p0. rewrite dict_get_set_ne; done.
Qed.

Lemma match_rows_mem n rows d d' k :
  res_fold (match_row n) rows d = Ok d' -> dict_mem k d = true -> dict_mem k d' = true.
Proof.
  revert d. induction rows as [|row rows IH]; intros d Hf Hk; cbn [res_fold] in Hf.
  - by injection Hf as <-.
  - destruct (match_row n d row) as [d1|] eqn:E; simpl in Hf; [| discriminate].
    apply (IH d1 Hf). eapply match_row_mem; eassumption.
Qed.

Lemma match_rows_alias_at n rows d d' k :
  res_fold (match_row n) rows d = Ok d' -> alias_at k d -> alias_at k d'.
Proof.
  revert d. induction rows as [|row rows IH]; intros d Hf Hk; cbn [res_fold] in Hf.
  - by injection Hf as <-.
  - destruct (match_row n d row) as [d1|] eqn:E; simpl in Hf; [| discriminate].
    apply (IH d1 Hf). eapply match_row_alias_at; eassumption.
Qed.

(** A row that matches leaves its key in the dictionary, as an alias entry
    if it matches by alias. *)
Lemma match_row_hit n d m g d' :
  match_row n d (m, g) = Ok d' ->
  (row_matches n (m, g) = true -> dict_mem (model_id m, gm_id g) d' = true)
  /\ (alias_hit n m = Ok true -> alias_at (model_id m, gm_id g) d').
Proof.
  intros Hm. destruct (match_row_cases _ _ _ _ _ Hm) as (hit & Ha & Hc).
  cbv zeta in Hc. unfold row_matches. simpl. rewrite Ha. destruct hit.
  - subst d'. split; intros _; [apply dict_mem_set_eq |].
    exists g, 0. apply dict_get_set_eq.
  - split; [| discriminate]. intros Hn. rewrite Hn in Hc. simpl in Hc.
    destruct (dict_mem _ d) eqn:Ek; simpl in Hc; subst d'; [done |].
    apply dict_mem_set_eq.
Qed.

Lemma match_rows_hit n rows d d' m g :
  res_fold (match_row n) rows d = Ok d' ->
  In (m, g) rows ->
  (row_matches n (m, g) = true -> dict_mem (model_id m, gm_id g) d' = true)
  /\ (alias_hit n m = Ok true -> alias_at (model_id m, gm_id g) d').
Proof.
  revert d. induction rows as [|row rows IH]; intros d Hf Hin; [done |].
  cbn [res_fold] in Hf. destruct (match_row n d row) as [d1|] eqn:E; simpl in Hf;
    [| discriminate].
  destruct Hin as [-> | Hin]; [| by apply (IH d1)].
  destruct (match_row_hit _ _ _ _ _ E) as [Hk Ha]. split; intros Hh.
  - eapply match_rows_mem; [exact Hf | by apply Hk].
  - eapply match_rows_alias_at; [exact Hf | by apply Ha].
Qed.

Lemma dict_mem_in {K V} `{EqDecision K} (k : K) (d : list (K * V)) :
  dict_mem k d = true -> exists v, In (k, v) d.
Proof.
  unfold dict_mem. destruct (dict_get k d) as [v|] eqn:E; [| discriminate].
  intros _. exists v. by apply dict_get_in.
Qed.
End MatchFacts.

Section CandidateFacts.
Context `{PyRuntime}.
Import ModelCache.

(** The loop keeps every entry under the key of its row. *)
Lemma match_row_keyed n rows d m g d' :
  In (m, g) rows ->
  keyed_by_rows n rows d -> match_row n d (m, g) = Ok d' -> keyed_by_rows n rows d'.
Proof.
  intros Hin Hd Hm. destruct (match_row_cases _ _ _ _ _ Hm) as (hit & Ha & Hc).
  cbv zeta in Hc. intros k g' mt p He. destruct hit.
  - subst d'. apply in_dict_set in He as [[= -> -> -> ->] | He]; [| by eapply Hd].
    exists m. split; [done |]. split; [done |]. by left.
  - destruct (String.eqb _ _ && _) eqn:E; subst d'; [| by eapply Hd].
    apply in_dict_set in He as [[= -> -> -> ->] | He]; [| by eapply Hd].
    exists m. split; [done |]. split; [done |]. right. split; [done |].
    apply andb_true_iff in E as [E _]. by apply String.eqb_eq.
Qed.

Lemma match_rows_keyed n all rows d d' :
  (forall row, In row rows -> In row all) ->
  keyed_by_rows n all d -> res_fold (match_row n) rows d = Ok d' -> keyed_by_rows n all d'.
Proof.
  revert d. induction rows as [|[m g] rows IH]; intros d Hsub Hd Hf; cbn [res_fold] in Hf.
  - injection Hf as <-. exact Hd.
  - destruct (match_row n d (m, g)) as [d1|] eqn:E; simpl in Hf; [| discriminate].
    apply (IH d1); [| | exact Hf].
    + intros row Hr. apply Hsub. by right.
    + eapply match_row_keyed; [apply Hsub; by left | exact Hd | exact E].
Qed.

(** The loop completes when the alias loop does on every row. *)
Lemma match_rows_complete n rows d :
  (forall row, In row rows -> exists b, alias_hit n (fst row) = Ok b) ->
  exists d', res_fold (match_row n) rows d = Ok d'.
Proof.
  revert d. induction rows as [|[m g] rows IH]; intros d Hr; cbn [res_fold].
  - by exists d.
  - destruct (Hr (m, g) (or_introl eq_refl)) as [b Hb]. cbn [fst] in Hb.
    unfold match_row at 1. rewrite Hb. cbn [res_bind].
    apply IH. intros row Hin. apply Hr. by right.
Qed.

(** The GlobalModel of a candidate row is one of the datastore. *)
Lemma rows_global db n st m g :
  In (m, g) (fst (query_rows db n st)) -> In g (global_models db).
Proof.
  assert (Hj : forall p, In (p, m, g) (joined db) -> In g (global_models db)).
  { intros p. unfold joined. rewrite in_flat_map. intros (m' & _ & Hin).
    apply in_flat_map in Hin as (p' & _ & Hin).
    destruct (String.eqb _ _); [| done].
    apply in_flat_map in Hin as (g' & Hg & Hin).
    destruct (String.eqb _ _); [| done].
    destruct Hin as [[= <- <- <-] | []]. exact Hg. }
  unfold query_rows. destruct (jsonb_supported db); cbn [fst];
    rewrite in_map_iff; intros ([[p m'] g'] & [= -> ->] & Hin);
    apply filter_In in Hin as [Hin _]; by apply (Hj p).
Qed.
End CandidateFacts.

(** C4 fails as stated: with two matching candidate rows for ["dup"] in the
    datastore, a call that finds the sentinel of an earlier miss under the
    resolve key returns [None]; and with a candidate row that matches
    ["foo"] by its provider-side name, a call raises when an alias entry of
    that row has a number for a name. *)
Lemma matching_row_is_not_enough :
  (exists row,
      In row (fst (@ModelCache.query_rows
                     (ModelCacheExamples.dup_db true) "dup" ModelCacheExamples.sentinel_cached))
      /\ @ModelCache.alias_hit (AsciiRuntime.runtime false) "dup" (fst row) = Ok true)
  /\ fst (@ModelCache.resolve_global_model_by_name_or_alias
            (AsciiRuntime.runtime false) AsciiRuntime.ttl
            (ModelCacheExamples.dup_db true) "dup" ModelCacheExamples.sentinel_cached)
     = Ok None
  /\ (exists row,
        In row (fst (@ModelCache.query_rows
                       ModelCacheExamples.malformed_alias_db "foo" ModelCacheExamples.fresh))
        /\ @ModelCache.row_matches (AsciiRuntime.runtime false) "foo" row = true)
  /\ fst (@ModelCache.resolve_global_model_by_name_or_alias
            (AsciiRuntime.runtime false) AsciiRuntime.ttl
            ModelCacheExamples.malformed_alias_db "foo" ModelCacheExamples.fresh)
     = Raise (AttributeError "object has no attribute 'strip'").
Proof.
  split; [eexists; split; [left; reflexivity | vm_compute; reflexivity] |].
  split; [vm_compute; reflexivity |]. split; [| vm_compute; reflexivity].
  eexists. split; [left; reflexivity | vm_compute; reflexivity].
Qed.

(** C4, as the code has it: when the call reaches the datastore (nothing
    true under the resolve key, or a stale snapshot), GlobalModel ids are
    unique, the alias loop completes on every row of the candidate query and
    some row matches the name, the call returns the GlobalModel of a
    matching row. If a row matches by alias, the GlobalModel returned is
    that of a row matching by alias, and its name is not after the name of
    the GlobalModel of any row matching by alias; if no row matches by
    alias, its name is not after the name of the GlobalModel of any matching
    row. *)
Theorem resolve_picks_least_candidate `{PyRuntime} `{CacheTTL}
  (db : ModelCache.Db) (model_name : string) (st : ModelCache.state) :
  let n := str_strip model_name in
  let rows := fst (ModelCache.query_rows db n st) in
  n <> EmptyString ->
  (let cached :=
     default VNone (ModelCache.cache st !! ("global_model:resolve:" ++ n)%string) in
   truthy cached = false \/ ModelCache.schema_stale cached = true) ->
  (forall g1 g2,
      In g1 (ModelCache.global_models db) -> In g2 (ModelCache.global_models db) ->
      ModelCache.gm_id g1 = ModelCache.gm_id g2 -> g1 = g2) ->
  (forall row, In row rows -> exists b, ModelCache.alias_hit n (fst row) = Ok b) ->
  (exists row, In row rows /\ ModelCache.row_matches n row = true) ->
  exists m gm,
    In (m, gm) rows
    /\ ModelCache.row_matches n (m, gm) = true
    /\ fst (ModelCache.resolve_global_model_by_name_or_alias db model_name st) = Ok (Some gm)
    /\ (forall m' g',
          In (m', g') rows ->
          ModelCache.alias_hit n m' = Ok true ->
          (exists m0, In (m0, gm) rows /\ ModelCache.alias_hit n m0 = Ok true)
          /\ String.leb (ModelCache.gm_name gm) (ModelCache.gm_name g') = true)
    /\ ((forall m' g', In (m', g') rows -> ModelCache.alias_hit n m' <> Ok true) ->
        forall m' g',
          In (m', g') rows ->
          ModelCache.provider_model_name m' = n ->
          String.leb (ModelCache.gm_name gm) (ModelCache.gm_name g') = true).
Proof.
  intros n rows Hn Hc Huniq Hloop ([m0 g0] & Hin0 & Hm0).
  destruct (match_rows_complete n rows [] Hloop) as [d Hd].
  assert (Hne : d <> []).
  { destruct (match_rows_hit _ _ _ _ _ _ Hd Hin0) as [Hk _].
    destruct (dict_mem_in _ _ (Hk Hm0)) as [v Hv]. intros ->. done. }
  assert (Hkeyed : ModelCache.keyed_by_rows n rows d).
  { eapply match_rows_keyed; [| | exact Hd]; [done | intros ? ? ? ? []]. }
  (* the GlobalModel under the key of a row is the one of the row *)
  assert (Hsame : forall m' g' g'' mt'' p'',
             In (m', g') rows ->
             In ((ModelCache.model_id m', ModelCache.gm_id g'), (g'', mt'', p'')) d ->
             g'' = g').
  { intros m' g' g'' mt'' p'' Hin' Hin''.
    destruct (Hkeyed _ _ _ _ Hin'') as (m'' & Hr'' & [= _ Hid] & _).
    apply Huniq; [| | done].
    - eapply rows_global. exact Hr''.
    - eapply rows_global. exact Hin'. }
  destruct (resolve_least_of_candidates db model_name st d Hn Hc Hd Hne)
    as (key & gm & mt & prio & Hin & Hres & Hleast).
  destruct (Hkeyed _ _ _ _ Hin) as (m & Hm & Hkey & Hmt).
  exists m, gm. split; [exact Hm |]. split; [| split; [exact Hres |]].
  { unfold ModelCache.row_matches. cbn [fst].
    destruct Hmt as [[_ Ha] | [_ Hp]]; [by rewrite Ha |].
    rewrite Hp, String.eqb_refl. by destruct (ModelCache.alias_hit n m) as [[|]|]. }
  split.
  - intros m' g' Hin' Ha'.
    destruct (match_rows_hit _ _ _ _ _ _ Hd Hin') as [_ Hal].
    destruct (Hal Ha') as (g'' & p'' & Hg). apply dict_get_in in Hg.
    pose proof (Hsame _ _ _ _ _ Hin' Hg) as ->.
    destruct (Hleast _ _ _ _ Hg) as [Hrank Hname].
    specialize (Hrank eq_refl). subst mt.
    split; [| by apply Hname].
    destruct Hmt as [[_ Ha] | [Hmt _]]; [eauto | discriminate Hmt].
  - intros Hnoalias m' g' Hin' Hp'.
    assert (Hrm : ModelCache.row_matches n (m', g') = true).
    { unfold ModelCache.row_matches. cbn [fst]. rewrite Hp', String.eqb_refl.
      by destruct (ModelCache.alias_hit n m') as [[|]|]. }
    destruct (match_rows_hit _ _ _ _ _ _ Hd Hin') as [Hk _].
    destruct (dict_mem_in _ _ (Hk Hrm)) as [[[g'' mt''] p''] Hg].
    pose proof (Hsame _ _ _ _ _ Hin' Hg) as ->.
    destruct (Hleast _ _ _ _ Hg) as [_ Hname]. apply Hname.
    assert (Hpm : forall k g1 mt1 p1,
               In (k, (g1, mt1, p1)) d -> mt1 <> "alias").
    { intros k g1 mt1 p1 H1. destruct (Hkeyed _ _ _ _ H1) as (m1 & Hr1 & _ & Hmt1).
      destruct Hmt1 as [[_ Ha1] | [-> _]]; [| discriminate].
      by destruct (Hnoalias _ _ Hr1). }
    split; intros He; exfalso.
    + by apply (Hpm _ _ _ _ Hin).
    + by apply (Hpm _ _ _ _ Hg).
Qed.

(** Two active Models of two Providers carry the alias ["dup"] and point to
    ["model-b"] and ["model-a"]: ["dup"] resolves to ["model-a"]. *)
Lemma resolve_picks_least_candidate_witness :
  fst (@ModelCache.resolve_global_model_by_name_or_alias
         (AsciiRuntime.runtime false) AsciiRuntime.ttl
         (ModelCacheExamples.dup_db true) "dup" ModelCacheExamples.fresh)
  = Ok (Some ModelCacheExamples.model_a).
Proof.
  assert (Hb : @ModelCache.alias_hit (AsciiRuntime.runtime false) "dup"
                 (ModelCacheExamples.mk_model "m2" "p2" "ga" "a-upstream"
                    (VList [VDict [("name", VStr "dup")]])) = Ok true) by reflexivity.
  destruct (@resolve_picks_least_candidate (AsciiRuntime.runtime false) AsciiRuntime.ttl
              (ModelCacheExamples.dup_db true) "dup" ModelCacheExamples.fresh)
    as (m & gm & Hin & _ & Hres & Halias & _).
  - discriminate.
  - left. reflexivity.
  - intros g1 g2 [<- | [<- | []]] [<- | [<- | []]] Hid;
      reflexivity || discriminate Hid.
  - intros row [<- | [<- | []]]; exists true; reflexivity.
  - eexists. split; [left; reflexivity | reflexivity].
  - destruct (Halias _ ModelCacheExamples.model_a (or_intror (or_introl eq_refl)) Hb)
      as [_ Hname].
    destruct Hin as [Hr | [Hr | []]]; injection Hr; intros; subst gm.
    + discriminate Hname.
    + exact Hres.
Defined.

(** ** The worked examples of the specification, on the example runtime *)

Section SpecExamples.
#[local] Existing Instance AsciiRuntime.example.
#[local] Existing Instance AsciiRuntime.ttl.

Example extract_empty : Utils.extract_cache_creation_tokens [] = Ok 0.
Proof. reflexivity. Qed.

Example extract_nested_556 :
  Utils.extract_cache_creation_tokens
    [("cache_creation",
       VDict [("ephemeral_5m_input_tokens", VInt 456);
              ("ephemeral_1h_input_tokens", VInt 100)])]
  = Ok 556.
Proof. reflexivity. Qed.

Example extract_flat_zero_legacy :
  Utils.extract_cache_creation_tokens
    [("claude_cache_creation_5_m_tokens", VInt 0);
     ("claude_cache_creation_1_h_tokens", VInt 0);
     ("cache_creation_input_tokens", VInt 549)]
  = Ok 549.
Proof. reflexivity. Qed.

Example extract_numeric_string :
  Utils.extract_cache_creation_tokens [("cache_creation_input_tokens", VStr " 12 ")]
  = Ok 12.
Proof. reflexivity. Qed.

Example apply_no_rules (hs : HeaderRules.headers) :
  HeaderRules.apply_header_rules hs VNone = Ok hs.
Proof. reflexivity. Qed.

Example apply_add_keeps_present :
  HeaderRules.apply_header_rules [("X-Test", "1")]
    (VDict [("add", VDict [("X-Test", VStr "2")])])
  = Ok [("X-Test", "1")].
Proof. reflexivity. Qed.

Example apply_flat_map_is_add :
  HeaderRules.apply_header_rules [("X-Test", "1")] (VDict [("X-New", VStr "2")])
  = Ok [("X-Test", "1"); ("X-New", "2")].
Proof. reflexivity. Qed.

Example apply_remove_ignores_case :
  HeaderRules.apply_header_rules [("X-Foo", "1")]
    (VDict [("remove", VList [VStr "x-foo"])])
  = Ok [].
Proof. reflexivity. Qed.

Example apply_literal_replace_ignoring_case :
  HeaderRules.apply_header_rules [("X-H", "abc")]
    (VDict [("replace_value",
              VDict [("x-h", VDict [("search", VStr "B"); ("replace", VStr "y");
                                    ("case_sensitive", VBool false)])])])
  = Ok [("X-H", "ayc")].
Proof. reflexivity. Qed.

Example apply_unparseable_rules :
  HeaderRules.apply_header_rules [("X-H", "abc")] (VDict [("remove", VStr "X-H")])
  = Ok [("X-H", "abc")].
Proof. reflexivity. Qed.

Example validate_unparseable_rules :
  HeaderRules.validate_header_rules (VDict [("remove", VStr "X-H")])
  = (false, Some "Input should be a valid list").
Proof. reflexivity. Qed.

(** The second call is served from the cache: no datastore query. *)
Example resolve_twice :
  let first :=
    ModelCache.resolve_global_model_by_name_or_alias
      (ModelCacheExamples.dup_db false) "dup" ModelCacheExamples.fresh in
  let second :=
    ModelCache.resolve_global_model_by_name_or_alias
      (ModelCacheExamples.dup_db false) "dup"
      {| ModelCache.cache := ModelCache.cache (snd first); ModelCache.trace := [] |} in
  fst first = Ok (Some ModelCacheExamples.model_a)
  /\ fst second = Ok (Some ModelCacheExamples.model_a)
  /\ ModelCache.trace (snd second)
     = [ ModelCache.CacheGet "global_model:resolve:dup";
         ModelCache.ResolutionInc "direct_match" true;
         ModelCache.DurationObserve "direct_match" ].
Proof. repeat split; vm_compute; reflexivity. Qed.

(** The conflict counter goes up once for the two GlobalModels of ["dup"]. *)
Example resolve_dup_conflict :
  List.filter
    (fun e => match e with ModelCache.ConflictInc => true | _ => false end)
    (ModelCache.trace
       (snd (ModelCache.resolve_global_model_by_name_or_alias
               (ModelCacheExamples.dup_db true) "dup" ModelCacheExamples.fresh)))
  = [ModelCache.ConflictInc].
Proof. vm_compute. reflexivity. Qed.

Example resolve_unknown_caches_sentinel :
  let out :=
    ModelCache.resolve_global_model_by_name_or_alias
      (ModelCacheExamples.dup_db true) "nope" ModelCacheExamples.fresh in
  fst out = Ok None
  /\ ModelCache.cache (snd out) !! "global_model:resolve:nope" = Some (VStr "NOT_FOUND").
Proof. split; vm_compute; reflexivity. Qed.
End SpecExamples.

(** * Further properties *)

(** ** More on dictionaries: [update] *)

Section DictUpdateFacts.
Context {K V : Type} `{EqDecision K}.
Implicit Types (k : K) (v : V) (d e : list (K * V)).

Lemma dict_get_set k k' v d :
  dict_get k' (dict_set k v d) = if bool_decide (k = k') then Some v else dict_get k' d.
Proof.
  destruct (bool_decide (k = k')) eqn:E.
  - apply bool_decide_eq_true_1 in E. subst k'. apply dict_get_set_eq.
  - apply bool_decide_eq_false_1 in E. by apply dict_get_set_ne.
Qed.

Lemma dict_get_app k d e :
  dict_get k (d ++ e) = match dict_get k d with Some v => Some v | None => dict_get k e end.
Proof.
  induction d as [|[k0 v0] d IH]; simpl; [done |].
  destruct (bool_decide (k0 = k)); done.
Qed.

(** After [d.update(e)] a key has the value of its last binding in [e],
    or the one it had in [d]. *)
Lemma dict_get_update_last k d e :
  dict_get k (dict_update d e)
  = match dict_get k (rev e) with Some v => Some v | None => dict_get k d end.
Proof.
  unfold dict_update. revert d. induction e as [|[k0 v0] e IH]; intros d; simpl; [done |].
  rewrite IH, dict_get_app, dict_get_set. simpl.
  destruct (dict_get k (rev e)); [done |]. destruct (bool_decide (k0 = k)); done.
Qed.

Lemma dict_get_not_key k d : ~ In k (dict_keys d) -> dict_get k d = None.
Proof.
  induction d as [|[k0 v0] d IH]; simpl; [done |]. intros Hn.
  rewrite bool_decide_eq_false_2 by (intros ->; apply Hn; by left).
  apply IH. intros Hin. apply Hn. by right.
Qed.

(** In a dictionary, where keys are unique, the last binding is the only one. *)
Lemma dict_get_rev k d : NoDup (dict_keys d) -> dict_get k (rev d) = dict_get k d.
Proof.
  induction d as [|[k0 v0] d IH]; simpl; [done |].
  intros Hnd. apply NoDup_cons in Hnd as [Hk0 Hnd].
  rewrite dict_get_app, (IH Hnd). simpl.
  destruct (bool_decide (k0 = k)) eqn:E; [| by destruct (dict_get k d)].
  apply bool_decide_eq_true_1 in E. subst k0.
  rewrite dict_get_not_key; [done |]. by rewrite <- list_elem_of_In.
Qed.

Lemma dict_get_update k d e :
  NoDup (dict_keys e) ->
  dict_get k (dict_update d e)
  = match dict_get k e with Some v => Some v | None => dict_get k d end.
Proof. intros Hnd. by rewrite dict_get_update_last, dict_get_rev. Qed.
End DictUpdateFacts.

(** ** More on the usage field extractor *)

Section UtilsMoreFacts.
Context `{PyRuntime}.

(** Without a nested mapping the flat tier or the legacy tier decides. *)
Lemma extract_not_nested usage :
  (forall cc, dict_get "cache_creation" usage <> Some (VDict cc)) ->
  Utils.extract_cache_creation_tokens usage =
    if dict_mem "claude_cache_creation_5_m_tokens" usage
       || dict_mem "claude_cache_creation_1_h_tokens" usage
    then
      (cache_5m <- py_int (dict_get_default "claude_cache_creation_5_m_tokens" (VInt 0) usage) ;;
       cache_1h <- py_int (dict_get_default "claude_cache_creation_1_h_tokens" (VInt 0) usage) ;;
       if 0 <? cache_5m + cache_1h then Ok (cache_5m + cache_1h)
       else
         old_format <- py_int (dict_get_default "cache_creation_input_tokens" (VInt 0) usage) ;;
         if 0 <? old_format then Ok old_format else Ok 0)%res
    else py_int (dict_get_default "cache_creation_input_tokens" (VInt 0) usage).
Proof.
  intros Hn. unfold Utils.extract_cache_creation_tokens.
  destruct (dict_get "cache_creation" usage) as [v|]; [| reflexivity].
  destruct v; try reflexivity. exfalso. by eapply Hn.
Qed.
End UtilsMoreFacts.

(** X1: without a nested mapping under [cache_creation] (absent, or any
    other kind of value) and with one of the two flat keys present, the
    extractor returns the sum of the two flat fields when it is strictly
    positive, and otherwise the legacy field if that is strictly positive,
    else 0. *)
Theorem extract_flat_tier `{PyRuntime} (usage : pydict) (a b : Z) :
  (forall cc, dict_get "cache_creation" usage <> Some (VDict cc)) ->
  dict_mem "claude_cache_creation_5_m_tokens" usage
  || dict_mem "claude_cache_creation_1_h_tokens" usage = true ->
  py_int (dict_get_default "claude_cache_creation_5_m_tokens" (VInt 0) usage) = Ok a ->
  py_int (dict_get_default "claude_cache_creation_1_h_tokens" (VInt 0) usage) = Ok b ->
  (0 < a + b -> Utils.extract_cache_creation_tokens usage = Ok (a + b))
  /\ (a + b <= 0 ->
      forall z,
        py_int (dict_get_default "cache_creation_input_tokens" (VInt 0) usage) = Ok z ->
        Utils.extract_cache_creation_tokens usage = Ok (Z.max 0 z)).
Proof.
  intros Hn Hflat Ha Hb. rewrite (extract_not_nested _ Hn), Hflat, Ha. cbn [res_bind].
  rewrite Hb. cbn [res_bind]. split.
  - intros Hpos. destruct (Z.ltb_spec 0 (a + b)); [reflexivity | lia].
  - intros Hle z Hz. destruct (Z.ltb_spec 0 (a + b)); [lia |].
    rewrite Hz. cbn [res_bind]. destruct (Z.ltb_spec 0 z); f_equal; lia.
Qed.

Lemma extract_flat_tier_witness :
  @Utils.extract_cache_creation_tokens AsciiRuntime.example MoreExamples.flat_100_200 = Ok 300
  /\ @Utils.extract_cache_creation_tokens AsciiRuntime.example
       MoreExamples.flat_zero_legacy_549 = Ok 549.
Proof.
  split.
  - exact (proj1 (@extract_flat_tier AsciiRuntime.example MoreExamples.flat_100_200 100 200
                    ltac:(intros cc; discriminate) eq_refl eq_refl eq_refl)
             ltac:(lia)).
  - exact (proj2 (@extract_flat_tier AsciiRuntime.example MoreExamples.flat_zero_legacy_549 0 0
                    ltac:(intros cc; discriminate) eq_refl eq_refl eq_refl)
             ltac:(lia) 549 eq_refl).
Defined.

(** X2: a result is negative only in the legacy tier: whenever [usage] has a
    mapping under [cache_creation] or one of the two flat keys, a value the
    extractor returns is not negative. *)
Theorem extract_marked_nonnegative `{PyRuntime} (usage : pydict) (r : Z) :
  (exists cc, dict_get "cache_creation" usage = Some (VDict cc))
  \/ dict_mem "claude_cache_creation_5_m_tokens" usage
     || dict_mem "claude_cache_creation_1_h_tokens" usage = true ->
  Utils.extract_cache_creation_tokens usage = Ok r ->
  0 <= r.
Proof.
  assert (Htier : forall x y : res Z,
    (a <- x ;; b <- y ;;
     if 0 <? a + b then Ok (a + b)
     else old <- py_int (dict_get_default "cache_creation_input_tokens" (VInt 0) usage) ;;
          if 0 <? old then Ok old else Ok 0)%res = Ok r -> 0 <= r).
  { intros [a|] [b|]; simpl; try discriminate.
    destruct (Z.ltb_spec 0 (a + b)); [intros [= <-]; lia |].
    destruct (py_int _) as [z|]; simpl; [| discriminate].
    destruct (Z.ltb_spec 0 z); intros [= <-]; lia. }
  intros Hmark. unfold Utils.extract_cache_creation_tokens.
  destruct (dict_get "cache_creation" usage) as [v|] eqn:Ecc.
  - destruct v; try apply Htier;
      (destruct Hmark as [[cc Hcc] | Hflat]; [discriminate Hcc | rewrite Hflat; apply Htier]).
  - destruct Hmark as [[cc Hcc] | Hflat]; [discriminate Hcc | rewrite Hflat; apply Htier].
Qed.

Lemma extract_marked_nonnegative_witness : 0 <= 549.
Proof.
  exact (@extract_marked_nonnegative AsciiRuntime.example
           MoreExamples.flat_zero_legacy_549 549 (or_intror eq_refl) eq_refl).
Defined.

(** X3: with a mapping under [cache_creation], only that mapping and the
    legacy field count: storing any value under any other key of [usage],
    the flat keys among them, leaves the outcome as it is. *)
Theorem extract_nested_ignores_other_keys `{PyRuntime}
  (usage cache_creation : pydict) (k : string) (v : PyVal) :
  dict_get "cache_creation" usage = Some (VDict cache_creation) ->
  k <> "cache_creation" ->
  k <> "cache_creation_input_tokens" ->
  Utils.extract_cache_creation_tokens (dict_set k v usage)
  = Utils.extract_cache_creation_tokens usage.
Proof.
  intros Hcc Hk1 Hk2. unfold Utils.extract_cache_creation_tokens, dict_get_default.
  rewrite (dict_get_set_ne k "cache_creation") by done. rewrite Hcc.
  rewrite (dict_get_set_ne k "cache_creation_input_tokens") by done.
  reflexivity.
Qed.

Lemma extract_nested_ignores_other_keys_witness :
  @Utils.extract_cache_creation_tokens AsciiRuntime.example
    (dict_set "claude_cache_creation_5_m_tokens" (VInt 4000) UtilsExamples.nested_flat_legacy)
  = Ok 300.
Proof.
  exact (@extract_nested_ignores_other_keys AsciiRuntime.example
           UtilsExamples.nested_flat_legacy _ "claude_cache_creation_5_m_tokens" (VInt 4000)
           eq_refl ltac:(discriminate) ltac:(discriminate)).
Defined.

(** X4: a field of the nested mapping that [int] refuses (an explicit null,
    a list, a mapping, a string that is no number) makes the extractor raise
    what [int] raises: the default 0 stands in for an absent key only, and
    the legacy field is not consulted. *)
Theorem extract_nested_coercion_raises `{PyRuntime}
  (usage cache_creation : pydict) (e : exn) :
  dict_get "cache_creation" usage = Some (VDict cache_creation) ->
  py_int (dict_get_default "ephemeral_5m_input_tokens" (VInt 0) cache_creation) = Raise e
  \/ (exists a,
        py_int (dict_get_default "ephemeral_5m_input_tokens" (VInt 0) cache_creation) = Ok a
        /\ py_int (dict_get_default "ephemeral_1h_input_tokens" (VInt 0) cache_creation)
           = Raise e) ->
  Utils.extract_cache_creation_tokens usage = Raise e.
Proof.
  intros Hcc Hr. unfold Utils.extract_cache_creation_tokens. rewrite Hcc.
  destruct Hr as [H5 | (a & H5 & H1)]; rewrite H5; cbn [res_bind]; [done |].
  rewrite H1. reflexivity.
Qed.

Lemma extract_nested_coercion_raises_witness :
  @Utils.extract_cache_creation_tokens AsciiRuntime.example MoreExamples.nested_null_legacy
  = Raise (TypeError "int() argument must be a string or a number").
Proof.
  exact (@extract_nested_coercion_raises AsciiRuntime.example
           MoreExamples.nested_null_legacy [("ephemeral_5m_input_tokens", VNone)] _
           eq_refl (or_introl eq_refl)).
Defined.

(** X5: [build_sse_headers(extra)] maps a key of [extra] to its value there
    and any other key to what the base mapping holds, so the two base
    headers are always present, overridden or not. *)
Theorem build_sse_headers_lookup (extra : list (string * string)) (k : string) :
  NoDup (dict_keys extra) ->
  dict_get k (Utils.build_sse_headers (Some extra))
  = match dict_get k extra with
    | Some v => Some v
    | None => dict_get k (Utils.build_sse_headers None)
    end
  /\ dict_mem "Cache-Control" (Utils.build_sse_headers (Some extra)) = true
  /\ dict_mem "X-Accel-Buffering" (Utils.build_sse_headers (Some extra)) = true.
Proof.
  intros Hnd.
  assert (Hget : forall k',
    dict_get k' (Utils.build_sse_headers (Some extra))
    = match dict_get k' extra with
      | Some v => Some v
      | None => dict_get k' (Utils.build_sse_headers None)
      end).
  { intros k'. destruct extra as [|kv extra]; [reflexivity |].
    change (Utils.build_sse_headers (Some (kv :: extra)))
      with (dict_update (Utils.build_sse_headers None) (kv :: extra)).
    apply (dict_get_update k' _ (kv :: extra) Hnd). }
  split; [apply Hget |].
  unfold dict_mem. rewrite !Hget.
  split; destruct (dict_get _ extra); reflexivity.
Qed.

Lemma build_sse_headers_lookup_witness :
  dict_get "Cache-Control" (Utils.build_sse_headers (Some MoreExamples.sse_extra))
  = Some "custom".
Proof.
  exact (proj1 (build_sse_headers_lookup MoreExamples.sse_extra "Cache-Control"
                  ltac:(compute_done))).
Defined.

(** ** More on the header rule engine *)

Section DictAbsent.
Context {K V : Type} `{EqDecision K}.
Implicit Types (k : K) (v : V) (d : list (K * V)).

(** Storing under a key that is not bound appends the binding. *)
Lemma dict_set_absent k v d : dict_get k d = None -> dict_set k v d = d ++ [(k, v)].
Proof.
  induction d as [|[k0 v0] d IH]; simpl; [done |].
  destruct (bool_decide (k0 = k)); [done |]. intros Hg. by rewrite IH.
Qed.

(** Deleting a key that heads no binding yet commutes with a binding of
    another key in front. *)
Lemma fold_del_cons (ks : list K) k0 v0 d :
  Forall (fun k => k <> k0) ks ->
  fold_left (fun r k => dict_del k r) ks ((k0, v0) :: d)
  = (k0, v0) :: fold_left (fun r k => dict_del k r) ks d.
Proof.
  intros Hks. revert d. induction Hks as [|k ks Hk _ IH]; intros d; simpl; [done |].
  rewrite bool_decide_eq_false_2 by congruence. apply IH.
Qed.

Lemma filter_filter {A} (f g : A -> bool) (l : list A) :
  List.filter f (List.filter g l) = List.filter (fun x => g x && f x) l.
Proof.
  induction l as [|x l IH]; simpl; [done |].
  destruct (g x); simpl; [destruct (f x) |]; by rewrite IH.
Qed.

Lemma dict_keys_set_present k v v' d :
  dict_get k d = Some v' -> dict_keys (dict_set k v d) = dict_keys d.
Proof.
  revert v'. induction d as [|[k0 v0] d IH]; simpl; [done |]. intros v'.
  destruct (bool_decide (k0 = k)); simpl; [done |]. intros Hg. by erewrite IH.
Qed.
End DictAbsent.

Section HeaderStepFacts.
Context `{PyRuntime}.
Import HeaderRules.

(** Step 1 for one name keeps, in order, the headers that do not match it. *)
Lemma remove_one_filter (result : headers) (key : string) :
  remove_one result key = List.filter (fun kv => negb (lower_eq (fst kv) key)) result.
Proof.
  unfold remove_one. induction result as [|[k0 v0] result IH]; [done |].
  cbn [dict_keys map fst List.filter].
  destruct (lower_eq k0 key) eqn:E; cbn [negb fold_left].
  - cbn [dict_del]. rewrite bool_decide_eq_true_2 by done. exact IH.
  - rewrite fold_del_cons; [by rewrite <- IH |].
    apply List.Forall_forall. intros k Hk. apply filter_In in Hk as [_ Hk].
    intros ->. congruence.
Qed.

Lemma remove_all_filter (names : list string) (hs : headers) :
  fold_left remove_one names hs
  = List.filter (fun kv => forallb (fun n => negb (lower_eq (fst kv) n)) names) hs.
Proof.
  revert hs. induction names as [|n names IH]; intros hs; simpl.
  - induction hs as [|kv hs IHh]; simpl; [done |]. by rewrite <- IHh.
  - rewrite IH, remove_one_filter, filter_filter. reflexivity.
Qed.

Lemma str_elems_strings (names : list string) : str_elems (map VStr names) = Ok names.
Proof. induction names as [|n names IH]; simpl; [done |]. by rewrite IH. Qed.

Lemma str_items_strings (adds : headers) :
  str_items (map (fun kv => (fst kv, VStr (snd kv))) adds) = Ok adds.
Proof. induction adds as [|[k v] adds IH]; simpl; [done |]. by rewrite IH. Qed.

(** Step 4: present headers stay, in place; new ones follow them. *)
Lemma add_all_prefix (adds hs : headers) :
  exists new, fold_left add_one adds hs = hs ++ new.
Proof.
  revert hs. induction adds as [|[k v] adds IH]; intros hs; simpl.
  - exists []. by rewrite app_nil_r.
  - unfold dict_mem. destruct (dict_get k hs) eqn:E; [apply IH |].
    rewrite (dict_set_absent _ _ _ E). destruct (IH (hs ++ [(k, v)])) as [new ->].
    exists ((k, v) :: new). by rewrite <- app_assoc.
Qed.

Lemma add_all_lookup (adds hs : headers) k :
  dict_get k (fold_left add_one adds hs)
  = match dict_get k hs with Some v => Some v | None => dict_get k adds end.
Proof.
  revert hs. induction adds as [|[k0 v0] adds IH]; intros hs; simpl.
  - by destruct (dict_get k hs).
  - rewrite IH. unfold dict_mem. destruct (dict_get k0 hs) eqn:E0.
    + destruct (dict_get k hs) eqn:Ek; [done |].
      rewrite bool_decide_eq_false_2; [done | congruence].
    + rewrite dict_get_set. destruct (bool_decide (k0 = k)) eqn:Eb.
      * apply bool_decide_eq_true_1 in Eb. subst k0. by rewrite E0.
      * by destruct (dict_get k hs).
Qed.

(** [apply] on rules whose only field is [remove], and on rules whose only
    field is [add]. *)
Lemma apply_remove_only (hs : headers) (names : list string) :
  apply_header_rules hs (VDict [("remove", VList (map VStr names))])
  = Ok (fold_left remove_one names hs).
Proof.
  unfold apply_header_rules, parse_rules. cbn [truthy negb].
  replace (existsb _ structural_keys) with true by reflexivity. cbn [negb].
  unfold HeaderRules_init.
  change (optional_field validate_str_dict "add" _) with (@Ok (option headers) None).
  change (optional_field validate_str_list "remove" _)
    with (res_bind (str_elems (map VStr names)) (fun x => Ok (Some x))).
  change (optional_field validate_str_dict "replace_name" _)
    with (@Ok (option headers) None).
  change (optional_field validate_rv_dict "replace_value" _)
    with (@Ok (option (list (string * rv_entry))) None).
  rewrite str_elems_strings. cbn [res_bind].
  destruct names as [|n names]; reflexivity.
Qed.

Lemma apply_add_only (hs adds : headers) :
  apply_header_rules hs (VDict [("add", VDict (map (fun kv => (fst kv, VStr (snd kv))) adds))])
  = Ok (fold_left add_one adds hs).
Proof.
  unfold apply_header_rules, parse_rules. cbn [truthy negb].
  replace (existsb _ structural_keys) with true by reflexivity. cbn [negb].
  unfold HeaderRules_init.
  change (optional_field validate_str_dict "add" _)
    with (res_bind (str_items (map (fun kv => (fst kv, VStr (snd kv))) adds))
            (fun x => Ok (Some x))).
  change (optional_field validate_str_list "remove" _)
    with (@Ok (option (list string)) None).
  change (optional_field validate_str_dict "replace_name" _)
    with (@Ok (option headers) None).
  change (optional_field validate_rv_dict "replace_value" _)
    with (@Ok (option (list (string * rv_entry))) None).
  rewrite str_items_strings. cbn [res_bind].
  destruct adds as [|a adds]; reflexivity.
Qed.
End HeaderStepFacts.

(** X6: [apply] with only a [remove] list keeps, in their order, exactly the
    headers whose name matches none of the listed names when both are
    lower-cased; no header is changed or moved. *)
Theorem apply_remove_is_filter `{PyRuntime} (hs : HeaderRules.headers) (names : list string) :
  HeaderRules.apply_header_rules hs (VDict [("remove", VList (map VStr names))])
  = Ok (List.filter
          (fun kv => forallb (fun n => negb (HeaderRules.lower_eq (fst kv) n)) names) hs).
Proof. rewrite apply_remove_only, remove_all_filter. reflexivity. Qed.

(** X7: [apply] with only an [add] map never overwrites and never reorders:
    the given headers are a prefix of the result, and a name has the value
    it had, or else the value [add] gives it. *)
Theorem apply_add_extends `{PyRuntime} (hs adds : HeaderRules.headers) :
  exists result new,
    HeaderRules.apply_header_rules hs
      (VDict [("add", VDict (map (fun kv => (fst kv, VStr (snd kv))) adds))]) = Ok result
    /\ result = hs ++ new
    /\ forall k,
         dict_get k result
         = match dict_get k hs with Some v => Some v | None => dict_get k adds end.
Proof.
  destruct (add_all_prefix adds hs) as [new Hnew].
  exists (fold_left HeaderRules.add_one adds hs), new.
  split; [apply apply_add_only |]. split; [exact Hnew |].
  intros k. apply add_all_lookup.
Qed.

Section HeaderParseFacts.
Context `{PyRuntime}.
Import HeaderRules.

Lemma no_structural_key (d : pydict) :
  existsb (fun key => dict_mem key d) structural_keys = false ->
  dict_get "add" d = None /\ dict_get "remove" d = None
  /\ dict_get "replace_name" d = None /\ dict_get "replace_value" d = None.
Proof.
  unfold structural_keys, dict_mem. cbn [existsb].
  destruct (dict_get "add" d); [discriminate |].
  destruct (dict_get "remove" d); [discriminate |].
  destruct (dict_get "replace_name" d); [discriminate |].
  destruct (dict_get "replace_value" d); [discriminate |]. done.
Qed.

Lemma lower_not_self_filtered (hs : headers) (n : string) :
  dict_get n (List.filter (fun kv => negb (lower_eq (fst kv) n)) hs) = None.
Proof.
  induction hs as [|[k v] hs IH]; simpl; [done |].
  destruct (lower_eq k n) eqn:E; simpl; [exact IH |].
  rewrite bool_decide_eq_false_2; [exact IH |].
  intros ->. rewrite lower_eq_refl in E. discriminate.
Qed.
End HeaderParseFacts.

(** X8: a rules mapping with none of the four structural keys is sugar for
    [add]: [apply] treats it as the rules [{"add": that mapping}], whatever
    its values are. *)
Theorem flat_rules_are_add_rules `{PyRuntime} (hs : HeaderRules.headers) (d : pydict) :
  existsb (fun key => dict_mem key d) HeaderRules.structural_keys = false ->
  HeaderRules.apply_header_rules hs (VDict d)
  = HeaderRules.apply_header_rules hs (VDict [("add", VDict d)]).
Proof.
  intros Hflat. unfold HeaderRules.apply_header_rules, HeaderRules.parse_rules.
  destruct d as [|kv d]; [reflexivity |].
  cbn [truthy negb]. rewrite Hflat.
  replace (existsb _ HeaderRules.structural_keys) with true by reflexivity.
  reflexivity.
Qed.

Lemma flat_rules_are_add_rules_witness :
  @HeaderRules.apply_header_rules AsciiRuntime.example
    [("X-Test", "1")] (VDict [("X-New", VStr "2")])
  = @HeaderRules.apply_header_rules AsciiRuntime.example
      [("X-Test", "1")] (VDict [("add", VDict [("X-New", VStr "2")])]).
Proof.
  exact (@flat_rules_are_add_rules AsciiRuntime.example
           [("X-Test", "1")] [("X-New", VStr "2")] eq_refl).
Defined.

(** X9: structured rules that do not parse are ignored by [apply], which
    returns the headers it was given, and are reported by
    [validate_header_rules] as a failure carrying the parser's message. *)
Theorem unparseable_rules_ignored_and_reported `{PyRuntime}
  (hs : HeaderRules.headers) (d : pydict) (e : exn) :
  existsb (fun key => dict_mem key d) HeaderRules.structural_keys = true ->
  HeaderRules.HeaderRules_init d = Raise e ->
  HeaderRules.apply_header_rules hs (VDict d) = Ok hs
  /\ HeaderRules.validate_header_rules (VDict d) = (false, Some (exn_str e)).
Proof.
  intros Hs He. split.
  - unfold HeaderRules.apply_header_rules, HeaderRules.parse_rules.
    destruct (truthy (VDict d)); [| reflexivity]. cbn [negb].
    rewrite Hs. cbn [negb]. rewrite He. reflexivity.
  - unfold HeaderRules.validate_header_rules. rewrite He. reflexivity.
Qed.

Lemma unparseable_rules_ignored_and_reported_witness :
  @HeaderRules.apply_header_rules AsciiRuntime.example
    [("X-H", "abc")] (VDict [("remove", VStr "X-H")]) = Ok [("X-H", "abc")]
  /\ @HeaderRules.validate_header_rules AsciiRuntime.example (VDict [("remove", VStr "X-H")])
     = (false, Some "Input should be a valid list").
Proof.
  exact (@unparseable_rules_ignored_and_reported AsciiRuntime.example
           [("X-H", "abc")] [("remove", VStr "X-H")]
           (ValidationError "Input should be a valid list") eq_refl eq_refl).
Defined.

(** X10: [validate_header_rules] accepts every mapping that has none of the
    four structural keys, whatever its values: the flat form, which [apply]
    reads as [add] and drops as a whole if one value is no string, is not
    checked at all. *)
Theorem validate_accepts_flat_map `{PyRuntime} (d : pydict) :
  existsb (fun key => dict_mem key d) HeaderRules.structural_keys = false ->
  HeaderRules.validate_header_rules (VDict d) = (true, None).
Proof.
  intros Hflat. destruct (no_structural_key d Hflat) as (Ha & Hr & Hn & Hv).
  unfold HeaderRules.validate_header_rules, HeaderRules.HeaderRules_init,
    HeaderRules.optional_field.
  rewrite Ha, Hr, Hn, Hv. reflexivity.
Qed.

Lemma validate_accepts_flat_map_witness :
  @HeaderRules.validate_header_rules AsciiRuntime.example (VDict [("X-A", VInt 5)])
  = (true, None)
  /\ @HeaderRules.apply_header_rules AsciiRuntime.example [("X-H", "abc")]
       (VDict [("X-A", VInt 5)]) = Ok [("X-H", "abc")].
Proof.
  split; [| reflexivity].
  exact (@validate_accepts_flat_map AsciiRuntime.example [("X-A", VInt 5)] eq_refl).
Defined.

(** X11: the steps run in the order remove, then add: rules that remove a
    name and add the same name replace every header of that name, in any
    letter case, by one header with the added value, placed last. *)
Theorem apply_remove_then_add `{PyRuntime} (hs : HeaderRules.headers) (n v : string) :
  HeaderRules.apply_header_rules hs
    (VDict [("remove", VList [VStr n]); ("add", VDict [(n, VStr v)])])
  = Ok (List.filter (fun kv => negb (HeaderRules.lower_eq (fst kv) n)) hs ++ [(n, v)]).
Proof.
  unfold HeaderRules.apply_header_rules, HeaderRules.parse_rules. cbn [truthy negb].
  replace (existsb _ HeaderRules.structural_keys) with true by reflexivity. cbn [negb].
  change (HeaderRules.HeaderRules_init _)
    with (@Ok HeaderRules.HeaderRules
            {| HeaderRules.add := Some [(n, v)]; HeaderRules.remove := Some [n];
               HeaderRules.replace_name := None; HeaderRules.replace_value := None |}).
  cbn [HeaderRules.is_empty HeaderRules.add HeaderRules.remove HeaderRules.nonempty orb negb].
  unfold HeaderRules.run_rules.
  cbn [HeaderRules.items HeaderRules.add HeaderRules.remove HeaderRules.replace_name
         HeaderRules.replace_value fold_left res_fold res_bind].
  rewrite remove_one_filter. unfold HeaderRules.add_one, dict_mem.
  rewrite lower_not_self_filtered. cbn [negb].
  rewrite dict_set_absent by apply lower_not_self_filtered. reflexivity.
Qed.

(** X12: in step 2, when the new name is not yet a header, the renamed
    header leaves its place and goes last with its value; the other headers
    keep their order and the map its size. *)
Theorem replace_name_moves_last `{PyRuntime}
  (result : HeaderRules.headers) (old_name new_name key value : string) :
  List.find (fun k => HeaderRules.lower_eq k old_name) (dict_keys result) = Some key ->
  dict_get key result = Some value ->
  dict_get new_name result = None ->
  HeaderRules.replace_name_one result (old_name, new_name)
  = dict_del key result ++ [(new_name, value)]
  /\ List.length (HeaderRules.replace_name_one result (old_name, new_name))
     = List.length result.
Proof.
  intros Hf Hk Hn.
  assert (HeaderRules.replace_name_one result (old_name, new_name)
          = dict_del key result ++ [(new_name, value)]) as ->.
  { unfold HeaderRules.replace_name_one. rewrite Hf, Hk.
    apply dict_set_absent. rewrite dict_get_del_ne; [exact Hn | congruence]. }
  split; [reflexivity |].
  rewrite length_app. simpl. rewrite <- (length_dict_del_mem key value result Hk). lia.
Qed.

Lemma replace_name_moves_last_witness :
  @HeaderRules.replace_name_one AsciiRuntime.example HeaderExamples.a_b ("a", "C")
  = [("B", "2"); ("C", "1")].
Proof.
  exact (proj1 (@replace_name_moves_last AsciiRuntime.example HeaderExamples.a_b
                  "a" "C" "A" "1" eq_refl eq_refl eq_refl)).
Defined.

Section LiteralReplaceFacts.
Context `{PyRuntime}.
Import HeaderRules.

Lemma literal_rule_init (s r : string) :
  ReplaceValueRule_init [("search", VStr s); ("replace", VStr r)]
  = Ok {| search := s; replace := r; regex := false; case_sensitive := true |}.
Proof. reflexivity. Qed.

Lemma replace_value_one_literal (hs : headers) name s r :
  replace_value_one hs
    (name, stored_as [("search", VStr s); ("replace", VStr r)]
             {| search := s; replace := r; regex := false; case_sensitive := true |})
  = Ok match List.find (fun k => lower_eq k name) (dict_keys hs) with
       | Some key =>
           match dict_get key hs with
           | Some original => dict_set key (str_replace original s r) hs
           | None => hs
           end
       | None => hs
       end.
Proof.
  unfold replace_value_one. destruct (List.find _ _) as [key|] eqn:Hf; [| reflexivity].
  rewrite (stored_rule _ _ (literal_rule_init s r)). cbn [res_bind].
  destruct (find_keys_bound _ _ _ Hf) as [original Ho]. rewrite Ho. reflexivity.
Qed.

Lemma apply_literal_replace (hs : headers) name s r :
  apply_header_rules hs
    (VDict [("replace_value",
              VDict [(name, VDict [("search", VStr s); ("replace", VStr r)])])])
  = replace_value_one hs
      (name, stored_as [("search", VStr s); ("replace", VStr r)]
               {| search := s; replace := r; regex := false; case_sensitive := true |}).
Proof.
  unfold apply_header_rules, parse_rules. cbn [truthy negb].
  replace (existsb _ structural_keys) with true by reflexivity. cbn [negb].
  unfold HeaderRules_init.
  change (optional_field validate_str_dict "add" _) with (@Ok (option headers) None).
  change (optional_field validate_str_list "remove" _)
    with (@Ok (option (list string)) None).
  change (optional_field validate_str_dict "replace_name" _)
    with (@Ok (option headers) None).
  change (optional_field validate_rv_dict "replace_value" _)
    with (res_bind
            (rv_items [(name, VDict [("search", VStr s); ("replace", VStr r)])])
            (fun x => Ok (Some x))).
  cbn [res_bind rv_items].
  rewrite (validate_rv_entry_ok _ _ (literal_rule_init s r)). cbn [res_bind].
  unfold run_rules.
  cbn [is_empty add remove replace_name replace_value nonempty orb negb items
         fold_left res_fold].
  destruct (replace_value_one _ _); reflexivity.
Qed.
End LiteralReplaceFacts.

(** X13: a [replace_value] entry with only [search] and [replace] is a
    literal, case-sensitive replacement: [apply] never raises on it, keeps
    the names and the order of the headers, rewrites with [str.replace] the
    value of the first header whose lower-cased name is that of the entry,
    and leaves every other header, later ones of a matching name among them,
    as it was. *)
Theorem apply_literal_replace_first_match `{PyRuntime}
  (hs : HeaderRules.headers) (name s r : string) :
  exists result,
    HeaderRules.apply_header_rules hs
      (VDict [("replace_value",
                VDict [(name, VDict [("search", VStr s); ("replace", VStr r)])])])
    = Ok result
    /\ dict_keys result = dict_keys hs
    /\ (List.find (fun k => HeaderRules.lower_eq k name) (dict_keys hs) = None ->
        result = hs)
    /\ forall key original,
         List.find (fun k => HeaderRules.lower_eq k name) (dict_keys hs) = Some key ->
         dict_get key hs = Some original ->
         dict_get key result = Some (str_replace original s r)
         /\ forall k, k <> key -> dict_get k result = dict_get k hs.
Proof.
  rewrite apply_literal_replace, replace_value_one_literal.
  eexists. split; [reflexivity |].
  destruct (List.find _ _) as [key|] eqn:Hf.
  - destruct (find_keys_bound _ _ _ Hf) as [original Ho]. rewrite Ho.
    split; [by apply (dict_keys_set_present _ _ original) |].
    split; [discriminate |].
    intros key' original' [= <-] Ho'. rewrite Ho in Ho'. injection Ho' as <-.
    split; [apply dict_get_set_eq |].
    intros k Hk. by apply dict_get_set_ne.
  - split; [reflexivity |]. split; [reflexivity |]. discriminate.
Qed.

Lemma apply_literal_replace_first_match_witness :
  exists result,
    @HeaderRules.apply_header_rules AsciiRuntime.example HeaderExamples.x_h_abc
      (VDict [("replace_value",
                VDict [("x-h", VDict [("search", VStr "a"); ("replace", VStr "z")])])])
    = Ok result
    /\ dict_get "X-H" result = Some (@str_replace AsciiRuntime.example "abc" "a" "z").
Proof.
  destruct (@apply_literal_replace_first_match AsciiRuntime.example
              HeaderExamples.x_h_abc "x-h" "a" "z") as (result & Hr & _ & _ & Hk).
  exists result. split; [exact Hr |]. apply (Hk "X-H" "abc"); reflexivity.
Defined.

Section MergeFacts.
Context {K V : Type} `{EqDecision K}.
Implicit Types (k : K) (d e : list (K * V)).

(** A copy made by [update] into an empty dictionary has the bindings of
    the original. *)
Lemma dict_get_copy k e :
  NoDup (dict_keys e) -> dict_get k (dict_update [] e) = dict_get k e.
Proof. intros Hnd. rewrite dict_get_update by done. by destruct (dict_get k e). Qed.

Lemma dict_get_map_values {W} (f : V -> W) k d :
  dict_get k (map (fun kv => (fst kv, f (snd kv))) d) = option_map f (dict_get k d).
Proof.
  induction d as [|[k0 v0] d IH]; simpl; [done |].
  destruct (bool_decide (k0 = k)); done.
Qed.

Lemma dict_set_map_values {W} (f : V -> W) k v d :
  dict_set k (f v) (map (fun kv => (fst kv, f (snd kv))) d)
  = map (fun kv => (fst kv, f (snd kv))) (dict_set k v d).
Proof.
  induction d as [|[k0 v0] d IH]; simpl; [done |].
  destruct (bool_decide (k0 = k)); simpl; [done |]. by rewrite IH.
Qed.

(** [update] goes through a change of the values. *)
Lemma dict_update_map_values {W} (f : V -> W) d e :
  dict_update (map (fun kv => (fst kv, f (snd kv))) d)
    (map (fun kv => (fst kv, f (snd kv))) e)
  = map (fun kv => (fst kv, f (snd kv))) (dict_update d e).
Proof.
  unfold dict_update. revert d. induction e as [|[k v] e IH]; intros d; simpl; [done |].
  rewrite dict_set_map_values. apply IH.
Qed.

Lemma dict_keys_map_values {W} (f : V -> W) d :
  dict_keys (map (fun kv => (fst kv, f (snd kv))) d) = dict_keys d.
Proof. unfold dict_keys. rewrite map_map. reflexivity. Qed.
End MergeFacts.

Section MergeLegacyFacts.
Import HeaderRules.

(** [result] once [rules] is copied into it. *)
Lemma merge_copy (legacy : headers) (r : pydict) k :
  NoDup (dict_keys r) ->
  dict_get k match r with [] => [] | _ :: _ => dict_update [] r end = dict_get k r.
Proof. intros Hnd. destruct r; [done |]. by apply dict_get_copy. Qed.
End MergeLegacyFacts.

(** X14: [merge_legacy_headers] with legacy headers and rules whose [add] is
    absent or a mapping succeeds; in the result, [add] holds every legacy
    header, over the entries the rules had under [add], and every other key
    holds what the rules hold under it. *)
Theorem merge_legacy_lookup (legacy : HeaderRules.headers) (r : pydict) :
  NoDup (dict_keys legacy) ->
  NoDup (dict_keys r) ->
  legacy <> [] ->
  dict_get "add" r = None \/ (exists a, dict_get "add" r = Some (VDict a)) ->
  exists result merged after,
    HeaderRules.merge_legacy_headers (Some legacy) (Some r) = Ok (result, after)
    /\ dict_get "add" result = Some (VDict merged)
    /\ (forall k,
          dict_get k merged
          = match dict_get k legacy with
            | Some v => Some (VStr v)
            | None =>
                match dict_get "add" r with
                | Some (VDict a) => dict_get k a
                | _ => None
                end
            end)
    /\ forall key, key <> "add" -> dict_get key result = dict_get key r.
Proof.
  intros Hl Hr Hne Hadd.
  unfold HeaderRules.merge_legacy_headers.
  destruct legacy as [|l0 legacy]; [done |].
  set (new := map (fun kv => (fst kv, VStr (snd kv))) (l0 :: legacy)).
  set (result := match r with [] => [] | _ :: _ => dict_update [] r end).
  assert (Hres : forall k, dict_get k result = dict_get k r)
    by (intros k; by apply (merge_copy (l0 :: legacy))).
  assert (Hnew : NoDup (dict_keys new))
    by (unfold new; by rewrite (dict_keys_map_values VStr)).
  assert (Hgn : forall k, dict_get k new = option_map VStr (dict_get k (l0 :: legacy)))
    by (intros k; apply (dict_get_map_values VStr)).
  rewrite Hres. destruct Hadd as [Hnone | [a Ha]].
  - rewrite Hnone. do 3 eexists. split; [reflexivity |].
    split; [apply dict_get_set_eq |]. split.
    + intros k. rewrite dict_get_copy, Hgn by done.
      by destruct (dict_get k (l0 :: legacy)).
    + intros key Hk. rewrite dict_get_set_ne by done. apply Hres.
  - rewrite Ha. do 3 eexists. split; [reflexivity |].
    split; [apply dict_get_set_eq |]. split.
    + intros k. rewrite dict_get_update, Hgn by done.
      by destruct (dict_get k (l0 :: legacy)).
    + intros key Hk. rewrite dict_get_set_ne by done. apply Hres.
Qed.

Lemma merge_legacy_lookup_witness :
  HeaderRules.merge_legacy_headers (Some MoreExamples.legacy_x_a)
    (Some MoreExamples.rules_add_remove)
  = Ok ([ ("remove", VList [VStr "x"]);
          ("add", VDict [("X-A", VStr "1"); ("X-B", VStr "2")]) ],
        Some [ ("remove", VList [VStr "x"]);
               ("add", VDict [("X-A", VStr "1"); ("X-B", VStr "2")]) ]).
Proof.
  destruct (merge_legacy_lookup MoreExamples.legacy_x_a MoreExamples.rules_add_remove
              ltac:(compute_done) ltac:(compute_done) ltac:(discriminate)
              (or_intror (ex_intro _ _ eq_refl)))
    as (result & merged & after & Hm & _).
  reflexivity.
Defined.

(** X15: [merge_legacy_headers] changes its argument: when the rules have a
    mapping under [add] and legacy headers are given, the rules the caller
    holds end with the merged mapping under [add], the same the result has,
    and with every other key as before; rules without [add] are left as
    they were. *)
Theorem merge_legacy_mutates_rules (legacy : HeaderRules.headers) (r : pydict) :
  NoDup (dict_keys r) ->
  legacy <> [] ->
  (forall a,
      dict_get "add" r = Some (VDict a) ->
      exists result after,
        HeaderRules.merge_legacy_headers (Some legacy) (Some r) = Ok (result, Some after)
        /\ dict_get "add" after = dict_get "add" result
        /\ dict_get "add" after
           = Some (VDict (dict_update a (map (fun kv => (fst kv, VStr (snd kv))) legacy)))
        /\ forall key, key <> "add" -> dict_get key after = dict_get key r)
  /\ (dict_get "add" r = None ->
      exists result,
        HeaderRules.merge_legacy_headers (Some legacy) (Some r) = Ok (result, Some r)).
Proof.
  intros Hr Hne. unfold HeaderRules.merge_legacy_headers.
  destruct legacy as [|l0 legacy]; [done |].
  set (new := map (fun kv => (fst kv, VStr (snd kv))) (l0 :: legacy)).
  set (result := match r with [] => [] | _ :: _ => dict_update [] r end).
  assert (Hres : forall k, dict_get k result = dict_get k r)
    by (intros k; by apply (merge_copy (l0 :: legacy))).
  rewrite Hres. split.
  - intros a Ha. rewrite Ha. do 2 eexists. split; [reflexivity |].
    cbn [option_map]. rewrite !dict_get_set_eq. split; [reflexivity |].
    split; [reflexivity |]. intros key Hk. by rewrite dict_get_set_ne.
  - intros Hnone. rewrite Hnone. eexists. reflexivity.
Qed.

Lemma merge_legacy_mutates_rules_witness :
  exists result after,
    HeaderRules.merge_legacy_headers (Some MoreExamples.legacy_x_a)
      (Some MoreExamples.rules_add_remove) = Ok (result, Some after)
    /\ dict_get "add" after = Some (VDict [("X-A", VStr "1"); ("X-B", VStr "2")])
    /\ dict_get "add" MoreExamples.rules_add_remove
       = Some (VDict [("X-A", VStr "0"); ("X-B", VStr "2")]).
Proof.
  destruct (proj1 (merge_legacy_mutates_rules MoreExamples.legacy_x_a
                     MoreExamples.rules_add_remove
                     ltac:(compute_done) ltac:(discriminate)) _ eq_refl)
    as (result & after & Hm & _ & Ha & _).
  exists result, after. split; [exact Hm |]. split; [exact Ha | reflexivity].
Defined.

(** X16: [merge_legacy_headers] raises exactly when legacy headers are given
    and the rules hold under [add] something that is no mapping, a null
    among them: [AttributeError], the value having no [update]. *)
Theorem merge_legacy_raises_iff (hs : option HeaderRules.headers) (r : pydict) :
  NoDup (dict_keys r) ->
  (exists e, HeaderRules.merge_legacy_headers hs (Some r) = Raise e)
  <-> (HeaderRules.nonempty hs = true
       /\ exists v, dict_get "add" r = Some v /\ forall a, v <> VDict a).
Proof.
  intros Hr. unfold HeaderRules.merge_legacy_headers.
  set (result := match r with [] => [] | _ :: _ => dict_update [] r end).
  assert (Hres : forall k, dict_get k result = dict_get k r)
    by (intros k; by apply (merge_copy [])).
  destruct hs as [[|l0 legacy]|]; cbn [HeaderRules.nonempty].
  - split; [intros [e He]; discriminate | intros [Hf _]; discriminate].
  - rewrite Hres. destruct (dict_get "add" r) as [v|].
    + destruct v; split;
        try (intros _; split; [reflexivity |]; eexists; split; [reflexivity |];
             intros a; discriminate);
        try (intros _; eexists; reflexivity).
      * intros [e He]. discriminate.
      * intros (_ & v & [= <-] & Hv). exfalso. by eapply Hv.
    + split; [intros [e He]; discriminate |].
      intros (_ & v & Hv & _). discriminate.
  - split; [intros [e He]; discriminate | intros [Hf _]; discriminate].
Qed.

Lemma merge_legacy_raises_iff_witness :
  exists e,
    HeaderRules.merge_legacy_headers (Some MoreExamples.legacy_x_a)
      (Some MoreExamples.rules_add_null) = Raise e.
Proof.
  apply (merge_legacy_raises_iff (Some MoreExamples.legacy_x_a) MoreExamples.rules_add_null).
  - compute_done.
  - split; [reflexivity |]. exists VNone. split; [reflexivity |]. intros a. discriminate.
Defined.

(** X17: legacy headers merged into no rules act as an [add] map: applying
    the merged rules leaves the headers that are present as they are and
    gives every other legacy name its legacy value. *)
Theorem merge_then_apply_fills_missing `{PyRuntime}
  (hs legacy : HeaderRules.headers) :
  NoDup (dict_keys legacy) ->
  legacy <> [] ->
  exists rules result,
    HeaderRules.merge_legacy_headers (Some legacy) None = Ok (rules, None)
    /\ HeaderRules.apply_header_rules hs (VDict rules) = Ok result
    /\ forall k,
         dict_get k result
         = match dict_get k hs with Some v => Some v | None => dict_get k legacy end.
Proof.
  intros Hl Hne. destruct legacy as [|l0 legacy]; [done |].
  set (new := map (fun kv => (fst kv, VStr (snd kv))) (l0 :: legacy)).
  assert (Hnew : NoDup (dict_keys new))
    by (unfold new; by rewrite (dict_keys_map_values VStr)).
  exists [("add", VDict (dict_update [] new))].
  assert (Hcopy : exists copy : HeaderRules.headers,
             dict_update [] new = map (fun kv => (fst kv, VStr (snd kv))) copy
             /\ forall k, dict_get k copy = dict_get k (l0 :: legacy)).
  { exists (dict_update [] (l0 :: legacy)). split.
    - apply (dict_update_map_values VStr [] (l0 :: legacy)).
    - intros k. by apply dict_get_copy. }
  destruct Hcopy as (copy & Hc & Hget). rewrite Hc.
  exists (fold_left HeaderRules.add_one copy hs).
  split; [unfold HeaderRules.merge_legacy_headers; cbn [dict_get]; fold new; by rewrite Hc |].
  split; [apply apply_add_only |].
  intros k. rewrite add_all_lookup, Hget. reflexivity.
Qed.

Lemma merge_then_apply_fills_missing_witness :
  exists rules result,
    HeaderRules.merge_legacy_headers (Some MoreExamples.legacy_x_a) None = Ok (rules, None)
    /\ @HeaderRules.apply_header_rules AsciiRuntime.example [("X-B", "2")] (VDict rules)
       = Ok result
    /\ dict_get "X-A" result = Some "1".
Proof.
  destruct (@merge_then_apply_fills_missing AsciiRuntime.example [("X-B", "2")]
              MoreExamples.legacy_x_a ltac:(compute_done) ltac:(discriminate))
    as (rules & result & Hm & Ha & Hget).
  exists rules, result. split; [exact Hm |]. split; [exact Ha |].
  rewrite Hget. reflexivity.
Defined.

(** ** More on the model resolver *)

Section SnapshotFacts.
Import ModelCache.

Lemma snapshot_roundtrip (g : GlobalModel) :
  _dict_to_global_model (VDict (_global_model_to_dict g)) = Ok (reloaded g).
Proof. reflexivity. Qed.

Lemma reloaded_idempotent (g : GlobalModel) : reloaded (reloaded g) = reloaded g.
Proof.
  unfold reloaded. simpl. destruct (truthy (supported_capabilities g)) eqn:E.
  - rewrite E. reflexivity.
  - reflexivity.
Qed.

(** A GlobalModel rebuilt from any cached value is as if reloaded. *)
Lemma rebuilt_is_reloaded (v : PyVal) (g : GlobalModel) :
  _dict_to_global_model v = Ok g -> reloaded g = g.
Proof.
  unfold _dict_to_global_model.
  destruct (res_bind (item "id" v) as_str) as [id|]; [| discriminate].
  destruct (res_bind (item "name" v) as_str) as [name|]; [| discriminate].
  cbn [res_bind]. intros [= <-]. unfold reloaded. simpl.
  destruct (truthy (get "supported_capabilities" VNone v)) eqn:E.
  - rewrite E. reflexivity.
  - reflexivity.
Qed.

Lemma snapshot_is_a_hit (g : GlobalModel) :
  truthy (VDict (_global_model_to_dict g)) = true
  /\ is_not_found (VDict (_global_model_to_dict g)) = false
  /\ schema_stale (VDict (_global_model_to_dict g)) = false.
Proof. repeat split. Qed.
End SnapshotFacts.

(** X18: a snapshot written by [_global_model_to_dict] is rebuilt by
    [_dict_to_global_model] into the GlobalModel it came from, except that
    capabilities that are null or empty come back as the empty list; going
    through the cache a second time changes nothing more. *)
Theorem global_model_snapshot_roundtrip (g : ModelCache.GlobalModel) :
  ModelCache._dict_to_global_model (VDict (ModelCache._global_model_to_dict g))
  = Ok (ModelCache.reloaded g)
  /\ (truthy (ModelCache.supported_capabilities g) = true -> ModelCache.reloaded g = g)
  /\ ModelCache._dict_to_global_model
       (VDict (ModelCache._global_model_to_dict (ModelCache.reloaded g)))
     = Ok (ModelCache.reloaded g).
Proof.
  split; [apply snapshot_roundtrip |]. split.
  - intros Ht. unfold ModelCache.reloaded. rewrite Ht. by destruct g.
  - rewrite snapshot_roundtrip, reloaded_idempotent. reflexivity.
Qed.

Lemma global_model_snapshot_roundtrip_witness :
  ModelCache.reloaded MoreExamples.model_vision = MoreExamples.model_vision.
Proof.
  apply (proj1 (proj2 (global_model_snapshot_roundtrip MoreExamples.model_vision))).
  reflexivity.
Defined.

Section CachingFacts.
Context `{PyRuntime} `{CacheTTL}.
Import ModelCache.

Lemma cache_get_set key v ttl st :
  cache_get key (cache_set key v ttl st)
  = (v, emit (CacheGet key) (cache_set key v ttl st)).
Proof. unfold cache_get, cache_set. simpl. by rewrite lookup_insert_eq. Qed.

(** What the datastore stage leaves in the cache. *)
Lemma resolve_from_db_cache_after db n key st r method hit out :
  resolve_from_db db n key st = (r, method, hit, out) ->
  hit = false
  /\ (forall k, k <> key -> cache out !! k = cache st !! k)
  /\ match r with
     | Ok (Some g) => cache out !! key = Some (VDict (_global_model_to_dict g))
     | Ok None => cache out !! key = Some (VStr "NOT_FOUND")
     | Raise _ => cache out = cache st
     end.
Proof.
  unfold resolve_from_db, query_rows.
  destruct (jsonb_supported db);
    (destruct (res_fold _ _ _) as [d|e];
     [ destruct (sort _) as [|[g m] l];
       [ unfold db_first; destruct (List.find _ _) | destruct (_ && _) ]
     | ]);
    intros [= <- <- <- <-]; simpl;
    (split; [reflexivity |]);
    (split; [intros k Hk; rewrite ?lookup_insert_ne by done; reflexivity |]);
    rewrite ?lookup_insert_eq; reflexivity.
Qed.

(** What the [try] block leaves in the cache, by the value it returns. *)
Lemma resolve_try_cache_after db n key st r method hit out :
  resolve_try db n key st = (r, method, hit, out) ->
  (forall k, k <> key -> cache out !! k = cache st !! k)
  /\ match r with
     | Ok (Some g) =>
         exists v, cache out !! key = Some v
                   /\ truthy v = true /\ is_not_found v = false /\ schema_stale v = false
                   /\ _dict_to_global_model v = Ok (reloaded g)
     | Ok None => cache out !! key = Some (VStr "NOT_FOUND")
     | Raise _ => True
     end.
Proof.
  unfold resolve_try, cache_get.
  destruct (truthy (default VNone (cache st !! key))) eqn:Ht.
  - destruct (is_not_found _) eqn:Enf.
    + intros [= <- <- <- <-]. split; [reflexivity |]. simpl.
      destruct (cache st !! key) as [v|]; [| discriminate Ht]. simpl in *.
      destruct v; try discriminate Enf. apply String.eqb_eq in Enf. by subst.
    + destruct (schema_stale _) eqn:Est.
      * intros Hdb. destruct (resolve_from_db_cache_after _ _ _ _ _ _ _ _ Hdb)
          as (_ & Hframe & Hkey).
        split; [exact Hframe |]. destruct r as [[g|]|e]; [| exact Hkey | exact I].
        exists (VDict (_global_model_to_dict g)). split; [exact Hkey |].
        repeat split.
      * intros [= <- <- <- <-]. split; [reflexivity |].
        destruct (_dict_to_global_model _) as [g|e] eqn:Eg; simpl; [| exact I].
        destruct (cache st !! key) as [v|] eqn:Ev; [| discriminate Ht]. simpl in *.
        exists v. rewrite (rebuilt_is_reloaded _ _ Eg). done.
  - intros Hdb. destruct (resolve_from_db_cache_after _ _ _ _ _ _ _ _ Hdb)
      as (_ & Hframe & Hkey).
    split; [exact Hframe |]. destruct r as [[g|]|e]; [| exact Hkey | exact I].
    exists (VDict (_global_model_to_dict g)). split; [exact Hkey |].
    repeat split.
Qed.

(** The two metrics of the [finally] block do not touch the cache. *)
Lemma resolve_unfold db model_name st :
  str_strip model_name <> EmptyString ->
  exists r method hit out,
    resolve_try db (str_strip model_name)
      ("global_model:resolve:" ++ str_strip model_name)%string st = (r, method, hit, out)
    /\ resolve_global_model_by_name_or_alias db model_name st
       = (r, emit (DurationObserve method) (emit (ResolutionInc method hit) out)).
Proof.
  intros Hn. unfold resolve_global_model_by_name_or_alias.
  destruct (String.eqb_spec (str_strip model_name) EmptyString) as [? | _]; [done |].
  destruct (resolve_try _ _ _ _) as [[[r method] hit] out]. by do 4 eexists.
Qed.
End CachingFacts.

(** X19: what a point lookup of a GlobalModel, by id or by name, finds in
    the datastore it writes to the cache, and the next call with the same
    argument is served from the cache: it returns that GlobalModel, as
    reloaded, after a cache read alone, whatever the datastore now holds. *)
Theorem global_model_lookup_then_hit `{CacheTTL}
  (db : ModelCache.Db) (st : ModelCache.state) (g : ModelCache.GlobalModel) :
  (forall id,
      truthy (default VNone (ModelCache.cache st !! ("global_model:id:" ++ id)%string)) = false ->
      List.find (fun g => String.eqb (ModelCache.gm_id g) id) (ModelCache.global_models db)
        = Some g ->
      fst (ModelCache.get_global_model_by_id db id st) = Ok (Some g)
      /\ forall db',
           ModelCache.get_global_model_by_id db' id
             (snd (ModelCache.get_global_model_by_id db id st))
           = (Ok (Some (ModelCache.reloaded g)),
              ModelCache.emit (ModelCache.CacheGet ("global_model:id:" ++ id)%string)
                (snd (ModelCache.get_global_model_by_id db id st))))
  /\ (forall name,
      truthy (default VNone (ModelCache.cache st !! ("global_model:name:" ++ name)%string))
        = false ->
      List.find (fun g => String.eqb (ModelCache.gm_name g) name) (ModelCache.global_models db)
        = Some g ->
      fst (ModelCache.get_global_model_by_name db name st) = Ok (Some g)
      /\ forall db',
           ModelCache.get_global_model_by_name db' name
             (snd (ModelCache.get_global_model_by_name db name st))
           = (Ok (Some (ModelCache.reloaded g)),
              ModelCache.emit (ModelCache.CacheGet ("global_model:name:" ++ name)%string)
                (snd (ModelCache.get_global_model_by_name db name st)))).
Proof.
  split; intros x Hc Hd.
  - unfold ModelCache.get_global_model_by_id at 1 3 4.
    unfold ModelCache.cache_get at 1 2 3, ModelCache.db_first.
    rewrite Hc, Hd. cbn [fst snd]. split; [reflexivity |]. intros db'.
    unfold ModelCache.get_global_model_by_id. rewrite cache_get_set.
    rewrite (proj1 (snapshot_is_a_hit g)), snapshot_roundtrip. reflexivity.
  - unfold ModelCache.get_global_model_by_name at 1 3 4.
    unfold ModelCache.cache_get at 1 2 3, ModelCache.db_first.
    rewrite Hc, Hd. cbn [fst snd]. split; [reflexivity |]. intros db'.
    unfold ModelCache.get_global_model_by_name. rewrite cache_get_set.
    rewrite (proj1 (snapshot_is_a_hit g)), snapshot_roundtrip. reflexivity.
Qed.

Lemma global_model_lookup_then_hit_witness :
  fst (@ModelCache.get_global_model_by_name AsciiRuntime.ttl
         (ModelCacheExamples.dup_db true) "model-a" ModelCacheExamples.fresh)
  = Ok (Some ModelCacheExamples.model_a)
  /\ fst (@ModelCache.get_global_model_by_name AsciiRuntime.ttl ModelCacheExamples.empty_db
            "model-a"
            (snd (@ModelCache.get_global_model_by_name AsciiRuntime.ttl
                    (ModelCacheExamples.dup_db true) "model-a" ModelCacheExamples.fresh)))
     = Ok (Some (ModelCache.reloaded ModelCacheExamples.model_a)).
Proof.
  destruct (proj2 (@global_model_lookup_then_hit AsciiRuntime.ttl
                     (ModelCacheExamples.dup_db true) ModelCacheExamples.fresh
                     ModelCacheExamples.model_a) "model-a" eq_refl eq_refl)
    as [Hfirst Hsecond].
  split; [exact Hfirst |]. rewrite (Hsecond ModelCacheExamples.empty_db). reflexivity.
Defined.

(** X20: a resolution that returned a GlobalModel is remembered: the next
    call for the same name returns it, as reloaded, after a cache read and
    the two metrics, labelled as a cache hit, without a datastore query and
    whatever the datastore now holds. *)
Theorem resolve_then_hit `{PyRuntime} `{CacheTTL}
  (db : ModelCache.Db) (model_name : string) (st : ModelCache.state)
  (g : ModelCache.GlobalModel) :
  str_strip model_name <> EmptyString ->
  fst (ModelCache.resolve_global_model_by_name_or_alias db model_name st) = Ok (Some g) ->
  forall db',
    ModelCache.resolve_global_model_by_name_or_alias db' model_name
      (snd (ModelCache.resolve_global_model_by_name_or_alias db model_name st))
    = (Ok (Some (ModelCache.reloaded g)),
       ModelCache.emit (ModelCache.DurationObserve "direct_match")
         (ModelCache.emit (ModelCache.ResolutionInc "direct_match" true)
            (ModelCache.emit
               (ModelCache.CacheGet ("global_model:resolve:" ++ str_strip model_name)%string)
               (snd (ModelCache.resolve_global_model_by_name_or_alias db model_name st))))).
Proof.
  intros Hn Hg db'.
  destruct (resolve_unfold db model_name st Hn) as (r & method & hit & out & Htry & Hres).
  rewrite Hres in *. cbn [fst snd] in *. subst r.
  destruct (resolve_try_cache_after _ _ _ _ _ _ _ _ Htry)
    as (_ & v & Hv & Ht & Hnf & Hst & Hre).
  unfold ModelCache.resolve_global_model_by_name_or_alias.
  destruct (String.eqb_spec (str_strip model_name) EmptyString) as [? | _]; [done |].
  unfold ModelCache.resolve_try, ModelCache.cache_get. cbn [ModelCache.emit ModelCache.cache].
  rewrite Hv. change (default VNone (Some v)) with v. rewrite Ht, Hnf, Hst, Hre. reflexivity.
Qed.

Lemma resolve_then_hit_witness :
  fst (@ModelCache.resolve_global_model_by_name_or_alias AsciiRuntime.example AsciiRuntime.ttl
         ModelCacheExamples.empty_db "dup"
         (snd (@ModelCache.resolve_global_model_by_name_or_alias
                 AsciiRuntime.example AsciiRuntime.ttl
                 (ModelCacheExamples.dup_db true) "dup" ModelCacheExamples.fresh)))
  = Ok (Some (ModelCache.reloaded ModelCacheExamples.model_a)).
Proof.
  rewrite (@resolve_then_hit AsciiRuntime.example AsciiRuntime.ttl
             (ModelCacheExamples.dup_db true) "dup" ModelCacheExamples.fresh
             ModelCacheExamples.model_a ltac:(discriminate) ltac:(vm_compute; reflexivity)
             ModelCacheExamples.empty_db).
  reflexivity.
Defined.

(** X21: a resolution that found nothing is remembered too: the next call
    for the same name returns [None] after a cache read and the two metrics,
    labelled [not_found] and cache hit, without a datastore query, even when
    the datastore now has a match. *)
Theorem resolve_not_found_is_remembered `{PyRuntime} `{CacheTTL}
  (db : ModelCache.Db) (model_name : string) (st : ModelCache.state) :
  str_strip model_name <> EmptyString ->
  fst (ModelCache.resolve_global_model_by_name_or_alias db model_name st) = Ok None ->
  forall db',
    ModelCache.resolve_global_model_by_name_or_alias db' model_name
      (snd (ModelCache.resolve_global_model_by_name_or_alias db model_name st))
    = (Ok None,
       ModelCache.emit (ModelCache.DurationObserve "not_found")
         (ModelCache.emit (ModelCache.ResolutionInc "not_found" true)
            (ModelCache.emit
               (ModelCache.CacheGet ("global_model:resolve:" ++ str_strip model_name)%string)
               (snd (ModelCache.resolve_global_model_by_name_or_alias db model_name st))))).
Proof.
  intros Hn Hg db'.
  destruct (resolve_unfold db model_name st Hn) as (r & method & hit & out & Htry & Hres).
  rewrite Hres in *. cbn [fst snd] in *. subst r.
  destruct (resolve_try_cache_after _ _ _ _ _ _ _ _ Htry) as (_ & Hv).
  unfold ModelCache.resolve_global_model_by_name_or_alias.
  destruct (String.eqb_spec (str_strip model_name) EmptyString) as [? | _]; [done |].
  unfold ModelCache.resolve_try, ModelCache.cache_get. cbn [ModelCache.emit ModelCache.cache].
  rewrite Hv. reflexivity.
Qed.

Lemma resolve_not_found_is_remembered_witness :
  fst (@ModelCache.resolve_global_model_by_name_or_alias AsciiRuntime.example AsciiRuntime.ttl
         (ModelCacheExamples.dup_db true) "dup"
         (snd (@ModelCache.resolve_global_model_by_name_or_alias
                 AsciiRuntime.example AsciiRuntime.ttl
                 ModelCacheExamples.empty_db "dup" ModelCacheExamples.fresh)))
  = Ok None.
Proof.
  rewrite (@resolve_not_found_is_remembered AsciiRuntime.example AsciiRuntime.ttl
             ModelCacheExamples.empty_db "dup" ModelCacheExamples.fresh
             ltac:(discriminate) ltac:(vm_compute; reflexivity)
             (ModelCacheExamples.dup_db true)).
  reflexivity.
Defined.

(** X22: a resolution writes to the cache under its own resolve key at most:
    every other key holds afterwards what it held before. *)
Theorem resolve_touches_only_its_key `{PyRuntime} `{CacheTTL}
  (db : ModelCache.Db) (model_name : string) (st : ModelCache.state) (k : string) :
  k <> ("global_model:resolve:" ++ str_strip model_name)%string ->
  ModelCache.cache (snd (ModelCache.resolve_global_model_by_name_or_alias db model_name st))
    !! k
  = ModelCache.cache st !! k.
Proof.
  intros Hk.
  destruct (String.eqb_spec (str_strip model_name) EmptyString) as [He | Hn].
  - unfold ModelCache.resolve_global_model_by_name_or_alias. rewrite He. reflexivity.
  - destruct (resolve_unfold db model_name st Hn) as (r & method & hit & out & Htry & Hres).
    rewrite Hres. cbn [snd ModelCache.emit ModelCache.cache].
    by apply (resolve_try_cache_after _ _ _ _ _ _ _ _ Htry).
Qed.

Lemma resolve_touches_only_its_key_witness :
  ModelCache.cache
    (snd (@ModelCache.resolve_global_model_by_name_or_alias
            AsciiRuntime.example AsciiRuntime.ttl
            (ModelCacheExamples.dup_db true) "dup" ModelCacheExamples.partial_cached))
    !! "global_model:resolve:gpt-4"
  = Some ModelCacheExamples.partial_snapshot.
Proof.
  rewrite (@resolve_touches_only_its_key AsciiRuntime.example AsciiRuntime.ttl
             (ModelCacheExamples.dup_db true) "dup" ModelCacheExamples.partial_cached
             "global_model:resolve:gpt-4" ltac:(discriminate)).
  reflexivity.
Defined.

Section DeleteFacts.
Import ModelCache.

Lemma minus_start c : minus c (c, []).
Proof. intros k. split; [intros [] | reflexivity]. Qed.

Lemma minus_delete c key st : minus c st -> minus c (cache_delete key st).
Proof.
  intros Hst k. unfold cache_delete. cbn [fst snd]. rewrite in_app_iff. simpl.
  destruct (decide (key = k)) as [-> | Hne].
  - split; [intros _; apply lookup_delete_eq | tauto].
  - rewrite lookup_delete_ne by done. destruct (Hst k) as [H1 H2].
    split; [intros [? | [? | []]]; [by apply H1 | done] | intros Hn; apply H2; tauto].
Qed.

Lemma minus_delete_all c (prefix : string) (ks : list string) st :
  minus c st ->
  minus c (fold_left (fun st key => cache_delete (prefix ++ key)%string st) ks st)
  /\ snd (fold_left (fun st key => cache_delete (prefix ++ key)%string st) ks st)
     = snd st ++ map (fun key => (prefix ++ key)%string) ks.
Proof.
  revert st. induction ks as [|key ks IH]; intros st Hst; simpl.
  - by rewrite app_nil_r.
  - destruct (IH (cache_delete (prefix ++ key)%string st) (minus_delete _ _ _ Hst))
      as [Hm Hs].
    split; [exact Hm |]. rewrite Hs. unfold cache_delete. cbn [snd].
    by rewrite <- app_assoc.
Qed.
End DeleteFacts.

(** X23: [invalidate_global_model_cache] deletes the id-keyed entry and,
    when a name is given, the name-keyed entry and the resolve-keyed entry
    of that name, in this order; the cache afterwards is the cache before
    without these keys, every other entry untouched. *)
Theorem invalidate_global_model_cache_effect
  (global_model_id : string) (name : option string) (c : gmap string PyVal) :
  snd (ModelCache.invalidate_global_model_cache global_model_id name (c, []))
  = ("global_model:id:" ++ global_model_id)%string
    :: match name with
       | Some n =>
           if ModelCache.given name
           then [("global_model:name:" ++ n)%string; ("global_model:resolve:" ++ n)%string]
           else []
       | None => []
       end
  /\ ModelCache.minus c
       (ModelCache.invalidate_global_model_cache global_model_id name (c, [])).
Proof.
  unfold ModelCache.invalidate_global_model_cache.
  destruct name as [n|]; [destruct (ModelCache.given (Some n)) |];
    (split; [reflexivity |]); repeat apply minus_delete; apply minus_start.
Qed.

Section InvalidateFacts.
Context `{PyRuntime}.
Import ModelCache.

Lemma given_spec (s : string) : given (Some s) = true <-> s <> EmptyString.
Proof.
  unfold given. destruct (String.eqb_spec s EmptyString); simpl; split; congruence.
Qed.

(** The names the alias loop collects are the stripped, non-empty names of
    the mapping entries. *)
Lemma alias_names_spec (l : list PyVal) (names : list string) :
  alias_names l = Ok names ->
  forall k,
    In k names <->
    exists d s, In (VDict d) l
                /\ dict_get_default "name" (VStr EmptyString) d = VStr s
                /\ str_strip s <> EmptyString /\ k = str_strip s.
Proof.
  revert names. induction l as [|e l IH]; intros names Hn k.
  - injection Hn as <-. split; [intros [] | intros (d & s & [] & _)].
  - assert (Hskip : (forall d, e <> VDict d) -> alias_names l = Ok names ->
                    In k names <->
                    exists d s, In (VDict d) (e :: l)
                                /\ dict_get_default "name" (VStr EmptyString) d = VStr s
                                /\ str_strip s <> EmptyString /\ k = str_strip s).
    { intros He Hl. rewrite (IH names Hl k). split.
      - intros (d & s & Hin & Hr). exists d, s. split; [by right | exact Hr].
      - intros (d & s & [Hin | Hin] & Hr); [by destruct (He d) |]. by exists d, s. }
    destruct e; try (apply Hskip; [discriminate | exact Hn]). clear Hskip.
    simpl in Hn.
    destruct (dict_get_default "name" (VStr EmptyString) d) as [| | | |s| |] eqn:Hd;
      try discriminate Hn.
    destruct (alias_names l) as [rest|] eqn:Hl; [| discriminate Hn]. simpl in Hn.
    specialize (IH rest eq_refl k).
    destruct (String.eqb_spec (str_strip s) EmptyString) as [He | He];
      injection Hn as <-.
    + rewrite IH. split.
      * intros (d' & s' & Hin & Hr). exists d', s'. split; [by right | exact Hr].
      * intros (d' & s' & [[= <-] | Hin] & Hd' & Hs' & Hk); [| by exists d', s'].
        rewrite Hd in Hd'. injection Hd' as <-. done.
    + simpl. rewrite IH. split.
      * intros [<- | (d' & s' & Hin & Hr)].
        -- exists d, s. split; [by left | done].
        -- exists d', s'. split; [by right | exact Hr].
      * intros (d' & s' & [[= <-] | Hin] & Hd' & Hs' & Hk).
        -- rewrite Hd in Hd'. injection Hd' as <-. by left.
        -- right. by exists d', s'.
Qed.

(** The keys deleted before the alias loop. *)
Lemma id_keys_deleted id provider global_model c :
  let st := match provider, global_model with
            | Some p, Some g =>
                if given provider && given global_model
                then cache_delete ("model:provider_global:" ++ p ++ ":" ++ g)%string
                       (cache_delete ("model:id:" ++ id)%string (c, []))
                else cache_delete ("model:id:" ++ id)%string (c, [])
            | _, _ => cache_delete ("model:id:" ++ id)%string (c, [])
            end in
  minus c st
  /\ snd st = [("model:id:" ++ id)%string]
              ++ match provider, global_model with
                 | Some p, Some g =>
                     if given provider && given global_model
                     then [("model:provider_global:" ++ p ++ ":" ++ g)%string] else []
                 | _, _ => []
                 end.
Proof.
  destruct provider as [p|], global_model as [g|];
    try destruct (given (Some p) && given (Some g));
    (split; [repeat apply minus_delete; apply minus_start | reflexivity]).
Qed.

(** A resolve key with nothing under it sends the resolution to the
    datastore: the value is the one an empty cache gives, and the effects
    start with the cache read and the candidate query. *)
Lemma resolve_on_cleared_key `{CacheTTL} db model_name st :
  str_strip model_name <> EmptyString ->
  cache st !! ("global_model:resolve:" ++ str_strip model_name)%string = None ->
  fst (resolve_global_model_by_name_or_alias db model_name st)
  = fst (resolve_global_model_by_name_or_alias db model_name
           {| cache := ∅; trace := trace st |})
  /\ exists rest,
       trace (snd (resolve_global_model_by_name_or_alias db model_name st))
       = trace st
         ++ CacheGet ("global_model:resolve:" ++ str_strip model_name)%string
         :: DbQuery (QJoinedByNameOrAlias (str_strip model_name)) :: rest.
Proof.
  intros Hn Hc. unfold resolve_global_model_by_name_or_alias.
  destruct (String.eqb_spec (str_strip model_name) EmptyString) as [? | _]; [done |].
  set (key := ("global_model:resolve:" ++ str_strip model_name)%string) in *.
  set (st0 := {| cache := ∅; trace := trace st |}).
  rewrite (resolve_try_reaches_db db _ key st) by (left; by rewrite Hc).
  rewrite (resolve_try_reaches_db db _ key st0) by (left; reflexivity).
  destruct (resolve_from_db_cache db (str_strip model_name) key
              (emit (CacheGet key) st) (emit (CacheGet key) st0) eq_refl)
    as (r & method & hit & out & out' & rest & E1 & E2 & Ht & Hq).
  rewrite E1, E2.
  split; [reflexivity |]. cbn [snd emit trace]. rewrite Hq. cbn [emit trace].
  exists (rest ++ [ResolutionInc method hit; DurationObserve method]).
  repeat rewrite <- app_assoc. reflexivity.
Qed.
End InvalidateFacts.

(** X24: when [invalidate_model_cache] returns, the keys it has deleted are
    the id key, the provider+global key if both ids are non-empty, the
    resolve key of the provider-side name if non-empty, and the resolve key
    of the stripped name of every mapping entry of the alias list whose
    stripped name is non-empty; the cache afterwards is the cache before
    without these keys, every other entry untouched. *)
Theorem invalidate_model_cache_effect `{PyRuntime}
  (id : string) (provider global_model name : option string) (l : list PyVal)
  (c : gmap string PyVal) :
  fst (ModelCache.invalidate_model_cache id provider global_model name (VList l) (c, []))
  = Ok tt ->
  ModelCache.minus c
    (snd (ModelCache.invalidate_model_cache id provider global_model name (VList l) (c, [])))
  /\ forall key,
       In key (snd (snd (ModelCache.invalidate_model_cache id provider global_model name
                           (VList l) (c, []))))
       <-> key = ("model:id:" ++ id)%string
           \/ (exists p g, provider = Some p /\ global_model = Some g
                           /\ p <> EmptyString /\ g <> EmptyString
                           /\ key = ("model:provider_global:" ++ p ++ ":" ++ g)%string)
           \/ (exists n, name = Some n /\ n <> EmptyString
                         /\ key = ("global_model:resolve:" ++ n)%string)
           \/ (exists d s, In (VDict d) l
                           /\ dict_get_default "name" (VStr EmptyString) d = VStr s
                           /\ str_strip s <> EmptyString
                           /\ key = ("global_model:resolve:" ++ str_strip s)%string).
Proof.
  unfold ModelCache.invalidate_model_cache.
  destruct (id_keys_deleted id provider global_model c) as [Hm1 Hs1].
  destruct (ModelCache.collected (VList l)) as [names|e] eqn:Hc; [| discriminate].
  intros _. cbn [fst snd].
  match goal with
  | |- context [fold_left _ ?ks ?st] =>
      destruct (minus_delete_all c "global_model:resolve:" ks st Hm1) as [Hm Hs]
  end.
  split; [exact Hm |]. intros key. rewrite Hs, Hs1.
  assert (Hnames : forall k, In k names <->
            exists d s, In (VDict d) l
                        /\ dict_get_default "name" (VStr EmptyString) d = VStr s
                        /\ str_strip s <> EmptyString /\ k = str_strip s).
  { unfold ModelCache.collected in Hc. destruct l as [|e l].
    - injection Hc as <-. intros k. split; [intros [] | intros (d & s & [] & _)].
    - cbn [truthy ModelCache.py_iter res_bind] in Hc.
      exact (alias_names_spec _ _ Hc). }
  rewrite !in_app_iff, in_map_iff. cbn [In].
  split.
  - intros [[[<- | []] | Hpg] | (k & <- & [Hk | Hk]%in_app_iff)].
    + by left.
    + right; left. destruct provider as [p|], global_model as [g|]; try by destruct Hpg.
      destruct (ModelCache.given (Some p)) eqn:Hp, (ModelCache.given (Some g)) eqn:Hg;
        try by destruct Hpg.
      destruct Hpg as [<- | []]. exists p, g.
      apply given_spec in Hp, Hg. done.
    + right; right; left. destruct name as [n|]; [| by destruct Hk].
      destruct (ModelCache.given (Some n)) eqn:Hn; [| by destruct Hk].
      destruct Hk as [<- | []]. exists n. apply given_spec in Hn. done.
    + right; right; right. apply Hnames in Hk as (d & s & Hin & Hd & Hs' & ->).
      by exists d, s.
  - intros [-> | [(p & g & -> & -> & Hp & Hg & ->) | [(n & -> & Hn & ->)
                                                     | (d & s & Hin & Hd & Hs' & ->)]]].
    + left; left; by left.
    + left; right. apply given_spec in Hp, Hg. rewrite Hp, Hg. by left.
    + right. exists n. split; [reflexivity |]. apply in_app_iff. left.
      apply given_spec in Hn. rewrite Hn. by left.
    + right. exists (str_strip s). split; [reflexivity |]. apply in_app_iff. right.
      apply Hnames. by exists d, s.
Qed.

Lemma invalidate_model_cache_effect_witness :
  fst (snd (@ModelCache.invalidate_model_cache AsciiRuntime.example
              "m1" (Some "p1") (Some "g1") (Some "x") MoreExamples.aliases_y
              (MoreExamples.cache_y, [])))
    !! "global_model:resolve:y" = None
  /\ fst (snd (@ModelCache.invalidate_model_cache AsciiRuntime.example
                 "m1" (Some "p1") (Some "g1") (Some "x") MoreExamples.aliases_y
                 (MoreExamples.cache_y, [])))
       !! "global_model:id:g4" = Some ModelCacheExamples.partial_snapshot.
Proof.
  destruct (@invalidate_model_cache_effect AsciiRuntime.example
              "m1" (Some "p1") (Some "g1") (Some "x") [VDict [("name", VStr "y")]]
              MoreExamples.cache_y eq_refl) as [Hm Hk].
  split.
  - apply (Hm "global_model:resolve:y"). apply Hk. do 3 right.
    exists [("name", VStr "y")], "y". repeat split; [by left | discriminate].
  - destruct (Hm "global_model:id:g4") as [_ Hf].
    transitivity (MoreExamples.cache_y !! "global_model:id:g4"); [apply Hf | reflexivity].
    intros Hin. apply Hk in Hin.
    destruct Hin as [Hin | [(p & g & _ & _ & _ & _ & Hin) | [(n & _ & _ & Hin)
                                                            | (d & s & _ & _ & _ & Hin)]]];
      discriminate Hin.
Defined.

(** X25: when [invalidate_model_cache] raises (an alias entry whose name is
    no string), it has deleted the id key and, if both ids are non-empty,
    the provider+global key, and no resolve key: the resolve entries of the
    provider-side name and of the well-formed aliases are still cached. *)
Theorem invalidate_model_cache_raises_midway `{PyRuntime}
  (id : string) (provider global_model name : option string) (aliases : PyVal)
  (e : exn) (c : gmap string PyVal) :
  fst (ModelCache.invalidate_model_cache id provider global_model name aliases (c, []))
  = Raise e ->
  snd (snd (ModelCache.invalidate_model_cache id provider global_model name aliases
              (c, [])))
  = [("model:id:" ++ id)%string]
    ++ match provider, global_model with
       | Some p, Some g =>
           if ModelCache.given provider && ModelCache.given global_model
           then [("model:provider_global:" ++ p ++ ":" ++ g)%string] else []
       | _, _ => []
       end
  /\ forall k,
       fst (snd (ModelCache.invalidate_model_cache id provider global_model name aliases
                   (c, []))) !! ("global_model:resolve:" ++ k)%string
       = c !! ("global_model:resolve:" ++ k)%string.
Proof.
  unfold ModelCache.invalidate_model_cache.
  destruct (id_keys_deleted id provider global_model c) as [Hm1 Hs1].
  destruct (ModelCache.collected aliases) as [names|e'] eqn:Hc; [discriminate |].
  intros _. cbn [fst snd]. split; [exact Hs1 |].
  intros k. apply Hm1. rewrite Hs1. clear.
  destruct provider as [p|], global_model as [g|];
    try destruct (ModelCache.given (Some p) && ModelCache.given (Some g));
    simpl; intros Hin; decompose [or] Hin; discriminate || done.
Qed.

Lemma invalidate_model_cache_raises_midway_witness :
  snd (snd (@ModelCache.invalidate_model_cache AsciiRuntime.example
              "m1" (Some "p1") (Some "g1") (Some "x") MoreExamples.aliases_malformed
              (MoreExamples.cache_y, [])))
  = [ "model:id:m1"; "model:provider_global:p1:g1" ]
  /\ fst (snd (@ModelCache.invalidate_model_cache AsciiRuntime.example
                 "m1" (Some "p1") (Some "g1") (Some "x") MoreExamples.aliases_malformed
                 (MoreExamples.cache_y, []))) !! "global_model:resolve:y"
     = Some (VStr "NOT_FOUND").
Proof.
  destruct (@invalidate_model_cache_raises_midway AsciiRuntime.example
              "m1" (Some "p1") (Some "g1") (Some "x") MoreExamples.aliases_malformed
              (AttributeError "object has no attribute 'strip'") MoreExamples.cache_y eq_refl)
    as [Hd Hk].
  split; [exact Hd |]. exact (Hk "y").
Defined.

(** X26: after [invalidate_global_model_cache] with a non-empty name, the
    next resolution of a name that strips to it goes to the datastore: it
    returns what it returns on an empty cache, and its effects start with
    the cache read and the candidate query. *)
Theorem invalidate_global_then_resolve `{PyRuntime} `{CacheTTL}
  (db : ModelCache.Db) (global_model_id n model_name : string)
  (c : gmap string PyVal) (t : list ModelCache.event) :
  n <> EmptyString ->
  str_strip model_name = n ->
  let st := {| ModelCache.cache :=
                 fst (ModelCache.invalidate_global_model_cache global_model_id (Some n)
                        (c, []));
               ModelCache.trace := t |} in
  fst (ModelCache.resolve_global_model_by_name_or_alias db model_name st)
  = fst (ModelCache.resolve_global_model_by_name_or_alias db model_name
           {| ModelCache.cache := ∅; ModelCache.trace := t |})
  /\ exists rest,
       ModelCache.trace (snd (ModelCache.resolve_global_model_by_name_or_alias
                                db model_name st))
       = t ++ ModelCache.CacheGet ("global_model:resolve:" ++ n)%string
           :: ModelCache.DbQuery (ModelCache.QJoinedByNameOrAlias n) :: rest.
Proof.
  intros Hn Hs st. subst n.
  apply (resolve_on_cleared_key db model_name st Hn).
  unfold st. cbn [ModelCache.cache].
  unfold ModelCache.invalidate_global_model_cache.
  apply given_spec in Hn. rewrite Hn. unfold ModelCache.cache_delete. cbn [fst].
  apply lookup_delete_eq.
Qed.

Lemma invalidate_global_then_resolve_witness :
  fst (@ModelCache.resolve_global_model_by_name_or_alias AsciiRuntime.example AsciiRuntime.ttl
         (ModelCacheExamples.dup_db true) "y"
         {| ModelCache.cache :=
              fst (ModelCache.invalidate_global_model_cache "g4" (Some "y")
                     (MoreExamples.cache_y, []));
            ModelCache.trace := [] |})
  = fst (@ModelCache.resolve_global_model_by_name_or_alias AsciiRuntime.example
           AsciiRuntime.ttl (ModelCacheExamples.dup_db true) "y"
           {| ModelCache.cache := ∅; ModelCache.trace := [] |}).
Proof.
  exact (proj1 (@invalidate_global_then_resolve AsciiRuntime.example AsciiRuntime.ttl
                  (ModelCacheExamples.dup_db true) "g4" "y" "y" MoreExamples.cache_y []
                  ltac:(discriminate) eq_refl)).
Defined.

(** X27: after [invalidate_model_cache] returns, the next resolution of any
    alias name of the list (a mapping entry with a string name that is not
    blank) goes to the datastore, whatever sentinel or snapshot was cached
    for it: it returns what it returns on an empty cache, and its effects
    start with the cache read and the candidate query. *)
Theorem invalidate_model_then_resolve_alias `{PyRuntime} `{CacheTTL}
  (db : ModelCache.Db) (id : string) (provider global_model name : option string)
  (l : list PyVal) (d : pydict) (s : string)
  (c : gmap string PyVal) (t : list ModelCache.event) :
  fst (ModelCache.invalidate_model_cache id provider global_model name (VList l) (c, []))
  = Ok tt ->
  In (VDict d) l ->
  dict_get "name" d = Some (VStr s) ->
  str_strip s <> EmptyString ->
  let st := {| ModelCache.cache :=
                 fst (snd (ModelCache.invalidate_model_cache id provider global_model name
                             (VList l) (c, [])));
               ModelCache.trace := t |} in
  fst (ModelCache.resolve_global_model_by_name_or_alias db s st)
  = fst (ModelCache.resolve_global_model_by_name_or_alias db s
           {| ModelCache.cache := ∅; ModelCache.trace := t |})
  /\ exists rest,
       ModelCache.trace (snd (ModelCache.resolve_global_model_by_name_or_alias db s st))
       = t ++ ModelCache.CacheGet ("global_model:resolve:" ++ str_strip s)%string
           :: ModelCache.DbQuery (ModelCache.QJoinedByNameOrAlias (str_strip s)) :: rest.
Proof.
  intros Hok Hin Hd Hs st.
  apply (resolve_on_cleared_key db s st Hs).
  unfold st. cbn [ModelCache.cache].
  unfold ModelCache.invalidate_model_cache in *.
  destruct (id_keys_deleted id provider global_model c) as [Hm1 Hs1].
  destruct (ModelCache.collected (VList l)) as [names|e] eqn:Hc; [| discriminate].
  cbn [fst snd].
  match goal with
  | |- context [fold_left _ ?ks ?st0] =>
      destruct (minus_delete_all c "global_model:resolve:" ks st0 Hm1) as [Hm Hks]
  end.
  apply Hm. rewrite Hks. apply in_app_iff. right. apply in_map. apply in_app_iff. right.
  unfold ModelCache.collected in Hc. destruct l as [|e l]; [done |].
  cbn [truthy ModelCache.py_iter res_bind] in Hc.
  apply (alias_names_spec _ _ Hc). exists d, s.
  unfold dict_get_default. rewrite Hd. done.
Qed.

Lemma invalidate_model_then_resolve_alias_witness :
  fst (@ModelCache.resolve_global_model_by_name_or_alias AsciiRuntime.example AsciiRuntime.ttl
         (ModelCacheExamples.dup_db true) "y"
         {| ModelCache.cache :=
              fst (snd (@ModelCache.invalidate_model_cache AsciiRuntime.example
                          "m1" None None None MoreExamples.aliases_y
                          (MoreExamples.cache_y, [])));
            ModelCache.trace := [] |})
  = fst (@ModelCache.resolve_global_model_by_name_or_alias AsciiRuntime.example
           AsciiRuntime.ttl (ModelCacheExamples.dup_db true) "y"
           {| ModelCache.cache := ∅; ModelCache.trace := [] |}).
Proof.
  exact (proj1 (@invalidate_model_then_resolve_alias AsciiRuntime.example AsciiRuntime.ttl
                  (ModelCacheExamples.dup_db true) "m1" None None None
                  [VDict [("name", VStr "y")]] [("name", VStr "y")] "y"
                  MoreExamples.cache_y [] eq_refl ltac:(by left) eq_refl
                  ltac:(discriminate))).
Defined.

Section FallbackFacts.
Context `{PyRuntime} `{CacheTTL}.
Import ModelCache.

(** A loop whose body leaves the accumulator alone on the elements a
    filter drops runs the same on the filtered list. *)
Lemma res_fold_filter {A B} (f : A -> B -> res A) (p : B -> bool) (l : list B) (acc : A) :
  (forall x, In x l -> p x = false -> forall a, f a x = Ok a) ->
  res_fold f (List.filter p l) acc = res_fold f l acc.
Proof.
  revert acc. induction l as [|x l IH]; intros acc Hskip; [reflexivity |].
  simpl. destruct (p x) eqn:Hp.
  - simpl. destruct (f acc x); simpl; [| reflexivity].
    apply IH. intros y Hy. apply Hskip. by right.
  - rewrite (Hskip x (or_introl eq_refl) Hp acc). simpl.
    apply IH. intros y Hy. apply Hskip. by right.
Qed.

Lemma filter_andb {A} (p q : A -> bool) (l : list A) :
  List.filter (fun x => p x && q x) l = List.filter q (List.filter p l).
Proof.
  induction l as [|x l IH]; [reflexivity |]. simpl.
  destruct (p x); simpl; [destruct (q x) |]; by rewrite IH.
Qed.

Lemma map_filter_comm {A B} (f : A -> B) (q : B -> bool) (l : list A) :
  map f (List.filter (fun x => q (f x)) l) = List.filter q (map f l).
Proof.
  induction l as [|x l IH]; [reflexivity |]. simpl.
  destruct (q (f x)); simpl; by rewrite IH.
Qed.

(** On stripped entries the alias loop finds what the containment
    operator finds. *)
Lemma alias_matches_stripped (l : list PyVal) (n : string) :
  Forall alias_entry_stripped l ->
  alias_matches l n = Ok (jsonb_contains_name (VList l) n).
Proof.
  induction 1 as [|e l He _ IH]; [reflexivity |].
  simpl in *. destruct e; try exact IH.
  destruct He as (s & Hd & Hs). unfold dict_get_default. rewrite Hd, Hs.
  destruct (String.eqb s n); [reflexivity | exact IH].
Qed.

Lemma alias_hit_stripped (m : Model) (n : string) :
  aliases_stripped m ->
  alias_hit n m = Ok (jsonb_contains_name (provider_model_aliases m) n).
Proof.
  unfold alias_hit. intros [-> | (l & -> & Hl)]; [reflexivity |].
  destruct l as [|e l]; [reflexivity |].
  cbn [truthy py_iter res_bind]. by apply alias_matches_stripped.
Qed.

(** A row that matches neither way leaves the dictionary as it is. *)
Lemma match_row_skip (n : string) (d : matched_dict) (m : Model) (g : GlobalModel) :
  alias_hit n m = Ok false ->
  String.eqb (provider_model_name m) n = false ->
  match_row n d (m, g) = Ok d.
Proof.
  intros Hh Hn. unfold match_row. rewrite Hh, Hn. simpl.
  by destruct (dict_get _ d) as [[[? ?] ?]|]; [destruct (negb _) |].
Qed.

Lemma joined_model db p m g : In (p, m, g) (joined db) -> In m (models db).
Proof.
  unfold joined. rewrite in_flat_map. intros (m' & Hm & Hin).
  apply in_flat_map in Hin as (p' & _ & Hin).
  destruct (String.eqb _ _); [| done].
  apply in_flat_map in Hin as (g' & _ & Hin).
  destruct (String.eqb _ _); [| done].
  destruct Hin as [[= <- <- <-] | []]. exact Hm.
Qed.

(** The candidate loop ends the same on the rows of the JSONB query and
    on the rows of the fallback query. *)
Lemma candidates_agree db n st st' :
  (forall m, In m (models db) -> aliases_stripped m) ->
  res_fold (match_row n) (fst (query_rows (with_jsonb true db) n st)) []
  = res_fold (match_row n) (fst (query_rows (with_jsonb false db) n st')) [].
Proof.
  intros Hs. unfold query_rows. cbn [jsonb_supported with_jsonb fst].
  change (joined (with_jsonb true db)) with (joined db).
  change (joined (with_jsonb false db)) with (joined db).
  set (q := fun row : Model * GlobalModel =>
              String.eqb (provider_model_name (fst row)) n
              || jsonb_contains_name (provider_model_aliases (fst row)) n).
  set (proj := fun '(_, m, g) => (m, g) : Model * GlobalModel).
  replace (List.filter _ (joined db))
    with (List.filter (fun x => all_active x && q (proj x)) (joined db)).
  2:{ apply filter_ext. by intros [[p m] g]. }
  rewrite filter_andb, (map_filter_comm proj q).
  apply res_fold_filter. intros [m g] Hin Hq a.
  apply in_map_iff in Hin as ([[p m'] g'] & [= -> ->] & Hin).
  apply filter_In in Hin as [Hin _]. apply joined_model in Hin.
  unfold q in Hq. cbn [fst] in Hq. apply orb_false_elim in Hq as [Hn Hj].
  apply match_row_skip; [| exact Hn].
  rewrite (alias_hit_stripped m n (Hs m Hin)). by rewrite Hj.
Qed.

Lemma resolve_from_db_agree db n key st st' :
  (forall m, In m (models db) -> aliases_stripped m) ->
  cache st = cache st' ->
  exists r method hit out out',
    resolve_from_db (with_jsonb true db) n key st = (r, method, hit, out)
    /\ resolve_from_db (with_jsonb false db) n key st' = (r, method, hit, out')
    /\ cache out = cache out'.
Proof.
  intros Hs Hc. unfold resolve_from_db.
  pose proof (candidates_agree db n st st' Hs) as Hrows.
  destruct (query_rows (with_jsonb true db) n st) as [rows1 st1] eqn:E1.
  destruct (query_rows (with_jsonb false db) n st') as [rows2 st2] eqn:E2.
  assert (Hc' : cache st1 = cache st2).
  { unfold query_rows in E1, E2. cbn [jsonb_supported with_jsonb] in E1, E2.
    injection E1 as _ <-. injection E2 as _ <-. exact Hc. }
  cbn [fst] in Hrows. rewrite Hrows.
  change (global_models (with_jsonb true db)) with (global_models db).
  change (global_models (with_jsonb false db)) with (global_models db).
  destruct (res_fold _ rows2 _) as [d|e];
    [ destruct (sort _) as [|[g m] l];
      [ unfold db_first; destruct (List.find _ _) | destruct (_ && _) ]
    | ];
    do 5 eexists; (split; [reflexivity |]); (split; [reflexivity |]);
    simpl; by rewrite ?Hc'.
Qed.
End FallbackFacts.

(** X28: when every alias entry in the datastore is stored with a string
    name that [strip] leaves unchanged, the fallback query (all active rows,
    filtered by the loop) and the JSONB containment query resolve a name to
    the same result and leave the same cache. *)
Theorem fallback_agrees_with_jsonb `{PyRuntime} `{CacheTTL}
  (db : ModelCache.Db) (model_name : string) (st : ModelCache.state) :
  (forall m, In m (ModelCache.models db) -> ModelCache.aliases_stripped m) ->
  fst (ModelCache.resolve_global_model_by_name_or_alias
         (ModelCache.with_jsonb false db) model_name st)
  = fst (ModelCache.resolve_global_model_by_name_or_alias
           (ModelCache.with_jsonb true db) model_name st)
  /\ ModelCache.cache
       (snd (ModelCache.resolve_global_model_by_name_or_alias
               (ModelCache.with_jsonb false db) model_name st))
     = ModelCache.cache
         (snd (ModelCache.resolve_global_model_by_name_or_alias
                 (ModelCache.with_jsonb true db) model_name st)).
Proof.
  intros Hs. unfold ModelCache.resolve_global_model_by_name_or_alias.
  destruct (String.eqb _ _); [done |].
  set (n := str_strip model_name). set (key := ("global_model:resolve:" ++ n)%string).
  unfold ModelCache.resolve_try, ModelCache.cache_get.
  destruct (truthy _); [destruct (ModelCache.is_not_found _); [done |];
                        destruct (ModelCache.schema_stale _); [| done] |];
    destruct (resolve_from_db_agree db n key
                (ModelCache.emit (ModelCache.CacheGet key) st)
                (ModelCache.emit (ModelCache.CacheGet key) st) Hs eq_refl)
      as (r & method & hit & out & out' & -> & -> & Hc);
    by split.
Qed.

Lemma fallback_agrees_with_jsonb_witness :
  fst (@ModelCache.resolve_global_model_by_name_or_alias AsciiRuntime.example AsciiRuntime.ttl
         (ModelCacheExamples.dup_db false) "dup" ModelCacheExamples.fresh)
  = fst (@ModelCache.resolve_global_model_by_name_or_alias AsciiRuntime.example
           AsciiRuntime.ttl (ModelCacheExamples.dup_db true) "dup" ModelCacheExamples.fresh).
Proof.
  refine (proj1 (@fallback_agrees_with_jsonb AsciiRuntime.example AsciiRuntime.ttl
                   (ModelCacheExamples.dup_db true) "dup" ModelCacheExamples.fresh _)).
  intros m [<- | [<- | []]]; right; eexists; (split; [reflexivity |]);
    repeat constructor; by exists "dup".
Defined.

Section MetricFacts.
Context `{PyRuntime} `{CacheTTL}.
Import ModelCache.

(** The match types the loop writes. *)
Lemma match_types n rows d g mt :
  res_fold (match_row n) rows [] = Ok d ->
  In (g, mt) (sort (map (fun '(gm, match_type, _) => (gm, match_type)) (dict_values d))) ->
  mt = "alias" \/ mt = "provider_model_name".
Proof.
  intros Hf Hin. apply in_sort, in_candidates in Hin as (key & prio & Hin).
  assert (Hfr : from_rows n rows d).
  { apply (match_rows_from_rows n rows rows [] d); [done | | exact Hf].
    intros ? ? ? ? []. }
  destruct (Hfr _ _ _ _ Hin) as (m & _ & _ & Hmt). exact Hmt.
Qed.

(** The locals the datastore stage leaves for the [finally] block. *)
Lemma resolve_from_db_locals db n key st r method hit out :
  resolve_from_db db n key st = (r, method, hit, out) ->
  In method ["alias"; "provider_model_name"; "direct_match"; "not_found"] /\ hit = false
  /\ exists rest, trace out = trace st ++ DbQuery (QJoinedByNameOrAlias n) :: rest.
Proof.
  unfold resolve_from_db.
  destruct (query_rows db n st) as [rows st1] eqn:Eq.
  assert (Ht : exists rest, trace st1
                            = trace st ++ DbQuery (QJoinedByNameOrAlias n) :: rest).
  { unfold query_rows in Eq. destruct (jsonb_supported db); injection Eq as _ <-; simpl.
    - by exists [].
    - exists [DbQuery QJoinedActive]. by rewrite <- app_assoc. }
  destruct Ht as [rest Ht].
  destruct (res_fold _ rows _) as [d|e] eqn:Hf.
  - destruct (sort _) as [|[g mt] l] eqn:Hs.
    + unfold db_first. destruct (List.find _ _); intros [= <- <- <- <-]; simpl;
        (split; [simpl; tauto |]); (split; [reflexivity |]);
        rewrite Ht; repeat rewrite <- app_assoc; simpl; eauto.
    + assert (Hmt : mt = "alias" \/ mt = "provider_model_name").
      { apply (match_types n rows d g). - exact Hf. - rewrite Hs. by left. }
      destruct (_ && _); intros [= <- <- <- <-];
        (split; [destruct Hmt as [-> | ->]; simpl; tauto |]); (split; [reflexivity |]);
        simpl;
        rewrite Ht; repeat rewrite <- app_assoc; simpl; eauto.
  - intros [= <- <- <- <-]. split; [simpl; tauto |].
    split; [reflexivity |]. eauto.
Qed.

(** The candidate loop leaves nothing when no row matches. *)
Lemma no_row_matches n rows :
  (forall row, In row rows ->
               alias_hit n (fst row) = Ok false /\ provider_model_name (fst row) <> n) ->
  res_fold (match_row n) rows [] = Ok [].
Proof.
  induction rows as [|[m g] rows IH]; intros Hr; [reflexivity |].
  cbn [res_fold]. destruct (Hr (m, g) (or_introl eq_refl)) as [Ha Hn].
  rewrite (match_row_skip n [] m g Ha) by (by apply String.eqb_neq).
  cbn [res_bind]. apply IH. intros row Hin. apply Hr. by right.
Qed.
End MetricFacts.

(** X29: a resolution of a non-blank name always records its two metrics
    last, also when it raises: the trace is the cache read, then the
    datastore effects, then the counter and the duration under one of the
    four method labels. The cache-hit label is true exactly when nothing
    came between the read and the metrics; otherwise the candidate query
    comes first. *)
Theorem resolve_records_metrics `{PyRuntime} `{CacheTTL}
  (db : ModelCache.Db) (model_name : string) (st : ModelCache.state) :
  str_strip model_name <> EmptyString ->
  exists method hit mid,
    ModelCache.trace (snd (ModelCache.resolve_global_model_by_name_or_alias db model_name st))
    = ModelCache.trace st
      ++ ModelCache.CacheGet ("global_model:resolve:" ++ str_strip model_name)%string
      :: mid ++ [ModelCache.ResolutionInc method hit; ModelCache.DurationObserve method]
    /\ In method ["alias"; "provider_model_name"; "direct_match"; "not_found"]
    /\ (if hit then mid = []
        else exists rest,
            mid = ModelCache.DbQuery (ModelCache.QJoinedByNameOrAlias (str_strip model_name))
                  :: rest).
Proof.
  intros Hn. unfold ModelCache.resolve_global_model_by_name_or_alias.
  destruct (String.eqb_spec (str_strip model_name) EmptyString) as [? | _]; [done |].
  set (n := str_strip model_name). set (key := ("global_model:resolve:" ++ n)%string).
  assert (Hdb : forall r method hit out,
             ModelCache.resolve_from_db db n key (ModelCache.emit (ModelCache.CacheGet key) st)
             = (r, method, hit, out) ->
             exists mid,
               ModelCache.trace out = ModelCache.trace st ++ ModelCache.CacheGet key :: mid
               /\ In method ["alias"; "provider_model_name"; "direct_match"; "not_found"]
               /\ hit = false
               /\ exists rest,
                   mid = ModelCache.DbQuery (ModelCache.QJoinedByNameOrAlias n) :: rest).
  { intros r method hit out Hdb.
    destruct (resolve_from_db_locals _ _ _ _ _ _ _ _ Hdb) as (Hl & Hh & rest & Ht).
    exists (ModelCache.DbQuery (ModelCache.QJoinedByNameOrAlias n) :: rest).
    split; [| eauto]. rewrite Ht. simpl. by rewrite <- app_assoc. }
  unfold ModelCache.resolve_try, ModelCache.cache_get.
  destruct (truthy _);
    [destruct (ModelCache.is_not_found _);
     [| destruct (ModelCache.schema_stale _)] |].
  - exists "not_found", true, []. simpl. rewrite <- !app_assoc. simpl. tauto.
  - destruct (ModelCache.resolve_from_db _ _ _ _) as [[[r method] hit] out] eqn:E.
    destruct (Hdb _ _ _ _ eq_refl) as (mid & Ht & Hl & -> & Hmid).
    exists method, false, mid. simpl. rewrite Ht. rewrite <- ?app_assoc. simpl.
    done.
  - exists "direct_match", true, []. simpl. rewrite <- !app_assoc. simpl. tauto.
  - destruct (ModelCache.resolve_from_db _ _ _ _) as [[[r method] hit] out] eqn:E.
    destruct (Hdb _ _ _ _ eq_refl) as (mid & Ht & Hl & -> & Hmid).
    exists method, false, mid. simpl. rewrite Ht. rewrite <- ?app_assoc. simpl.
    done.
Qed.

Lemma resolve_records_metrics_witness :
  exists method hit mid,
    ModelCache.trace
      (snd (@ModelCache.resolve_global_model_by_name_or_alias
              AsciiRuntime.example AsciiRuntime.ttl
              (ModelCacheExamples.dup_db true) "dup" ModelCacheExamples.fresh))
    = ModelCache.CacheGet "global_model:resolve:dup"
      :: mid ++ [ModelCache.ResolutionInc method hit; ModelCache.DurationObserve method].
Proof.
  destruct (@resolve_records_metrics AsciiRuntime.example AsciiRuntime.ttl
              (ModelCacheExamples.dup_db true) "dup" ModelCacheExamples.fresh
              ltac:(discriminate)) as (method & hit & mid & Ht & _).
  exists method, hit, mid. exact Ht.
Defined.

(** X30: when nothing true is cached for the name and no row the candidate
    query returns matches it (by alias or by provider-side name), the
    resolution falls back to the first active GlobalModel of that very name:
    it returns it, or [None] if there is none. *)
Theorem resolve_falls_back_to_direct_match `{PyRuntime} `{CacheTTL}
  (db : ModelCache.Db) (model_name : string) (st : ModelCache.state) :
  str_strip model_name <> EmptyString ->
  truthy (default VNone
            (ModelCache.cache st
               !! ("global_model:resolve:" ++ str_strip model_name)%string)) = false ->
  (forall row,
      In row (fst (ModelCache.query_rows db (str_strip model_name) st)) ->
      ModelCache.alias_hit (str_strip model_name) (fst row) = Ok false
      /\ ModelCache.provider_model_name (fst row) <> str_strip model_name) ->
  fst (ModelCache.resolve_global_model_by_name_or_alias db model_name st)
  = Ok (List.find
          (fun g => String.eqb (ModelCache.gm_name g) (str_strip model_name)
                    && ModelCache.is_true (ModelCache.gm_is_active g))
          (ModelCache.global_models db)).
Proof.
  intros Hn Hc Hrows. unfold ModelCache.resolve_global_model_by_name_or_alias.
  destruct (String.eqb_spec (str_strip model_name) EmptyString) as [? | _]; [done |].
  rewrite (resolve_try_reaches_db db _ _ st (or_introl Hc)).
  unfold ModelCache.resolve_from_db.
  destruct (ModelCache.query_rows db (str_strip model_name) (ModelCache.emit _ st))
    as [rows st1] eqn:Eq.
  assert (rows = fst (ModelCache.query_rows db (str_strip model_name) st)) as ->.
  { rewrite (query_rows_state db _ st (ModelCache.emit
      (ModelCache.CacheGet ("global_model:resolve:" ++ str_strip model_name)%string) st)).
    by rewrite Eq. }
  rewrite (no_row_matches _ _ Hrows). cbn.
  by destruct (List.find _ _).
Qed.

Lemma resolve_falls_back_to_direct_match_witness :
  fst (@ModelCache.resolve_global_model_by_name_or_alias AsciiRuntime.example AsciiRuntime.ttl
         (ModelCacheExamples.dup_db true) "model-a" ModelCacheExamples.fresh)
  = Ok (Some ModelCacheExamples.model_a).
Proof.
  refine (@resolve_falls_back_to_direct_match AsciiRuntime.example AsciiRuntime.ttl
            (ModelCacheExamples.dup_db true) "model-a" ModelCacheExamples.fresh
            ltac:(discriminate) eq_refl _).
  intros row [].
Defined.

(** ** The header rule engine: patterns that [re] refuses *)

Section InvalidPatternFacts.
Context `{PyRuntime}.
Import HeaderRules.

End InvalidPatternFacts.



